(** * The view of the todo-list application (src/js/view.js)

    [view.js] defines one object, [View], with two entry points:
    [render (viewCmd, parameter)], which updates the page, and
    [bind (event, handler)], which subscribes a controller callback to a
    user action.  This file embeds both, together with the private methods
    they call, and states the properties of the view over that embedding.

    The page is represented by the parts of it that view.js addresses:
    the seven elements cached by the constructor, the links under
    [.filters], and the [li] nodes of the list with the elements inside
    them.  JavaScript values, the conversions the code relies on
    (ToString, ToBoolean, parseInt, property access) and exceptions are
    written out. *)

From stdpp Require Import base option list strings gmap.
From Stdlib Require Import ZArith Ascii DecimalString DecimalZ DecimalPos.

Open Scope string_scope.

(** ** JavaScript values *)

(** Numbers.  view.js only meets integers (item ids, counts, key codes) and
    the [NaN] that [parseInt] returns on text without digits.  A JavaScript
    number holds an integer exactly up to [MAX_SAFE_INTEGER] in absolute
    value; see [safe_integer] below. *)
Inductive number :=
| Int (z : Z)
| NaN.

#[warnings="-register-all"]
Inductive value :=
| VUndefined
| VNull
| VBool (b : bool)
| VNumber (n : number)
| VString (s : string)
| VArray (elems : list value)
| VObject (fields : list (string * value)).

(** The text of a number: the decimal digits of an integer, with a sign
    when it is negative.  This is what JavaScript gives for the safe
    integers. *)
Definition number_to_string (n : number) : string :=
  match n with
  | Int z => NilEmpty.string_of_int (Z.to_int z)
  | NaN => "NaN"
  end.

Fixpoint join (sep : string) (l : list string) : string :=
  match l with
  | [] => ""
  | [s] => s
  | s :: rest => s ++ sep ++ join sep rest
  end.

(** ToString, as applied by [+] on a string operand. *)
Fixpoint ToString (v : value) : string :=
  match v with
  | VUndefined => "undefined"
  | VNull => "null"
  | VBool true => "true"
  | VBool false => "false"
  | VNumber n => number_to_string n
  | VString s => s
  | VArray elems =>
      join "," (List.map (fun e => match e with
                                   | VUndefined | VNull => ""
                                   | _ => ToString e
                                   end) elems)
  | VObject _ => "[object Object]"
  end.

(** ToBoolean, as applied by [?:], [!] and boolean DOM properties. *)
Definition ToBoolean (v : value) : bool :=
  match v with
  | VUndefined | VNull => false
  | VBool b => b
  | VNumber (Int z) => negb (z =? 0)%Z
  | VNumber NaN => false
  | VString s => negb (String.eqb s "")
  | VArray _ | VObject _ => true
  end.

(** The properties of an object are listed with their names, each name at
    most once. *)
Fixpoint assoc (k : string) (fields : list (string * value)) : option value :=
  match fields with
  | [] => None
  | (k', v) :: rest => if String.eqb k k' then Some v else assoc k rest
  end.

(** The exceptions the code can raise. *)
Inductive Error :=
| TypeError
| SyntaxError.

(** [parameter.name]: reading a property of [undefined] or [null] is a
    TypeError; a missing property reads as [undefined].  None of the names
    that view.js reads (completed, visible, checked, id, title) is defined
    on the wrappers of primitive values or on arrays. *)
Definition Get (v : value) (name : string) : Error + value :=
  match v with
  | VUndefined | VNull => inl TypeError
  | VObject fields => inr (default VUndefined (assoc name fields))
  | _ => inr VUndefined
  end.

(** *** parseInt(text, 10) *)

Definition is_white_space (c : ascii) : bool :=
  match nat_of_ascii c with
  | 9 | 10 | 11 | 12 | 13 | 32 => true
  | _ => false
  end.

Definition is_decimal_digit (c : ascii) : bool :=
  let n := nat_of_ascii c in (48 <=? n)%nat && (n <=? 57)%nat.

Fixpoint trim_left (s : string) : string :=
  match s with
  | String c rest => if is_white_space c then trim_left rest else s
  | EmptyString => s
  end.

Fixpoint digit_prefix (s : string) : string :=
  match s with
  | String c rest => if is_decimal_digit c then String c (digit_prefix rest) else ""
  | EmptyString => ""
  end.

Definition digits_value (s : string) : number :=
  match s with
  | EmptyString => NaN
  | _ => match NilEmpty.uint_of_string s with
         | Some d => Int (Z.of_uint d)
         | None => NaN
         end
  end.

Definition negate (n : number) : number :=
  match n with
  | Int z => Int (- z)
  | NaN => NaN
  end.

(** Leading white space is skipped, one sign is read, then the longest run
    of decimal digits; no digit gives [NaN]. *)
Definition parseInt10 (text : string) : number :=
  match trim_left text with
  | String "-" rest => negate (digits_value (digit_prefix rest))
  | String "+" rest => digits_value (digit_prefix rest)
  | s => digits_value (digit_prefix s)
  end.

(** [parseInt (x, 10)] on a property that may be missing: the argument goes
    through ToString first. *)
Definition parseInt (x : value) : number := parseInt10 (ToString x).

(** [Number.isSafeInteger]: the integers that a JavaScript number holds
    exactly.  On them [number_to_string] is the text that [+] on a string
    builds, and [parseInt] reads that text back as the same number.  Beyond
    them a number is rounded, and printed with an exponent from 1e21 on,
    which [Int], [number_to_string] and [parseInt10] do not follow: what is
    stated below about an item found by its id, or about an id read off the
    page, is stated for safe integers. *)
Definition MAX_SAFE_INTEGER : Z := 2 ^ 53 - 1.

Definition safe_integer (n : number) : Prop :=
  match n with
  | Int z => (- MAX_SAFE_INTEGER <= z <= MAX_SAFE_INTEGER)%Z
  | NaN => False
  end.

(** *** Strings as the DOM reads them *)

(** The class names of a [className]: its tokens between ASCII white space. *)
Definition is_class_separator (c : ascii) : bool :=
  match nat_of_ascii c with
  | 9 | 10 | 12 | 13 | 32 => true
  | _ => false
  end.

Fixpoint tokens_from (cur : string) (s : string) : list string :=
  match s with
  | EmptyString => if String.eqb cur "" then [] else [cur]
  | String c rest =>
      if is_class_separator c
      then (if String.eqb cur "" then tokens_from "" rest
            else cur :: tokens_from "" rest)
      else tokens_from (cur ++ String c "") rest
  end.

Definition classList (className : string) : list string :=
  tokens_from "" className.

Definition has_class (c : string) (className : string) : bool :=
  existsb (String.eqb c) (classList className).

(** [s.replace (pattern, replacement)] with a string pattern: the first
    occurrence only.  (The replacement is the empty string wherever view.js
    calls it, so no [$] pattern is involved.) *)
Fixpoint replace (pattern replacement s : string) : string :=
  if String.prefix pattern s
  then replacement ++ String.substring (String.length pattern)
                        (String.length s - String.length pattern) s
  else match s with
       | EmptyString => EmptyString
       | String c rest => String c (replace pattern replacement rest)
       end.

(** The text interpolated between the double quotes of an attribute
    selector is taken literally unless it holds a character that ends or
    escapes the quoted string. *)
Definition ends_css_string (c : ascii) : bool :=
  match nat_of_ascii c with
  | 10 | 12 | 13 | 34 | 92 => true
  | _ => false
  end.

Fixpoint css_string_literal (s : string) : bool :=
  match s with
  | EmptyString => true
  | String c rest => negb (ends_css_string c) && css_string_literal rest
  end.


(** ** The page *)

(** How the content of an element was last written: as markup through
    [innerHTML] or as text through [textContent]. *)
Inductive Content :=
| Markup (html : string)
| Text (text : string).

(** An element, with the properties that view.js reads or writes, and the
    [type] attribute that the markup gave it (the empty string when it has
    none), which decides what a click does to it. *)
Record Element := mkElement {
  tagName : string;
  className : string;
  href : option string;
  content : Content;
  display : string;
  checked : bool;
  input_value : string;
  iscanceled : option string;
  focused : bool;
  input_type : string
}.

Definition set_className (c : string) (e : Element) : Element :=
  mkElement (tagName e) c (href e) (content e) (display e) (checked e)
            (input_value e) (iscanceled e) (focused e) (input_type e).

Definition set_content (c : Content) (e : Element) : Element :=
  mkElement (tagName e) (className e) (href e) c (display e) (checked e)
            (input_value e) (iscanceled e) (focused e) (input_type e).

Definition set_display (d : string) (e : Element) : Element :=
  mkElement (tagName e) (className e) (href e) (content e) d (checked e)
            (input_value e) (iscanceled e) (focused e) (input_type e).

Definition set_checked (b : bool) (e : Element) : Element :=
  mkElement (tagName e) (className e) (href e) (content e) (display e) b
            (input_value e) (iscanceled e) (focused e) (input_type e).

Definition set_input_value (v : string) (e : Element) : Element :=
  mkElement (tagName e) (className e) (href e) (content e) (display e)
            (checked e) v (iscanceled e) (focused e) (input_type e).

Definition set_iscanceled (d : option string) (e : Element) : Element :=
  mkElement (tagName e) (className e) (href e) (content e) (display e)
            (checked e) (input_value e) d (focused e) (input_type e).

Definition set_focused (b : bool) (e : Element) : Element :=
  mkElement (tagName e) (className e) (href e) (content e) (display e)
            (checked e) (input_value e) (iscanceled e) b (input_type e).

(** [document.createElement (tag)]: the new element has no attribute. *)
Definition createElement (tag : string) : Element :=
  mkElement tag "" None (Markup "") "" false "" None false "".

(** An [input] is a checkbox when its [type] says so; without a [type] it is
    a text field. *)
Definition is_checkbox (e : Element) : bool :=
  String.eqb (tagName e) "input" && String.eqb (input_type e) "checkbox".

(** What the browser does to the element that is clicked, before the
    listeners of the click run: a checkbox is toggled. *)
Definition activate (e : Element) : Element :=
  if is_checkbox e then set_checked (negb (checked e)) e else e.

(** A rendered item: the [li] with its [data-id] attribute and class, and
    the elements below it in document order.  The [div] that wraps the
    toggle, the label and the destroy button in the template's markup
    matches none of the selectors of view.js and is left out; the edit field
    is a child of the [li]. *)
Record ItemNode := mkItemNode {
  data_id : string;
  li_className : string;
  elements : list Element
}.

Definition set_li_className (c : string) (n : ItemNode) : ItemNode :=
  mkItemNode (data_id n) c (elements n).

Definition set_elements (l : list Element) (n : ItemNode) : ItemNode :=
  mkItemNode (data_id n) (li_className n) l.

(** The page.  Each of the seven fields that the constructor fills with
    [qs] holds the element it found, or [None] when there was none; nothing
    reassigns them afterwards.  For the list the children are what matters.
    [filters] are the elements below [.filters].  The item nodes are the
    only elements of the page with a [data-id] attribute. *)
Record Surface := mkSurface {
  todoList : option (list ItemNode);
  todoItemCounter : option Element;
  clearCompleted : option Element;
  main : option Element;
  footer : option Element;
  toggleAll : option Element;
  newTodo : option Element;
  filters : list Element
}.

Definition set_todoList (l : list ItemNode) (s : Surface) : Surface :=
  mkSurface (Some l) (todoItemCounter s) (clearCompleted s) (main s) (footer s)
            (toggleAll s) (newTodo s) (filters s).

Definition set_todoItemCounter (e : Element) (s : Surface) : Surface :=
  mkSurface (todoList s) (Some e) (clearCompleted s) (main s) (footer s)
            (toggleAll s) (newTodo s) (filters s).

Definition set_clearCompleted (e : Element) (s : Surface) : Surface :=
  mkSurface (todoList s) (todoItemCounter s) (Some e) (main s) (footer s)
            (toggleAll s) (newTodo s) (filters s).

Definition set_main (e : Element) (s : Surface) : Surface :=
  mkSurface (todoList s) (todoItemCounter s) (clearCompleted s) (Some e)
            (footer s) (toggleAll s) (newTodo s) (filters s).

Definition set_footer (e : Element) (s : Surface) : Surface :=
  mkSurface (todoList s) (todoItemCounter s) (clearCompleted s) (main s)
            (Some e) (toggleAll s) (newTodo s) (filters s).

Definition set_toggleAll (e : Element) (s : Surface) : Surface :=
  mkSurface (todoList s) (todoItemCounter s) (clearCompleted s) (main s)
            (footer s) (Some e) (newTodo s) (filters s).

Definition set_newTodo (e : Element) (s : Surface) : Surface :=
  mkSurface (todoList s) (todoItemCounter s) (clearCompleted s) (main s)
            (footer s) (toggleAll s) (Some e) (filters s).

Definition set_filters (l : list Element) (s : Surface) : Surface :=
  mkSurface (todoList s) (todoItemCounter s) (clearCompleted s) (main s)
            (footer s) (toggleAll s) (newTodo s) l.

(** The item nodes of the page, none when there is no list. *)
Definition items (s : Surface) : list ItemNode := default [] (todoList s).

(** ** Subscriptions and events *)

Inductive EventType := change | click | dblclick | blur | keypress | keyup.

#[global] Instance EventType_eq_dec : EqDecision EventType.
Proof. solve_decision. Defined.

(** The cached elements on which [bind] subscribes. *)
Inductive Anchor := the_todoList | the_clearCompleted | the_toggleAll | the_newTodo.

#[global] Instance Anchor_eq_dec : EqDecision Anchor.
Proof. solve_decision. Defined.

(** A node of the page that a user action can originate from: one of those
    cached elements, or element [j] of item [i]. *)
Inductive Node :=
| AnchorNode (a : Anchor)
| ItemElement (i j : nat).

#[global] Instance Node_eq_dec : EqDecision Node.
Proof. solve_decision. Defined.

Record Event := mkEvent {
  type : EventType;
  target : Node;
  keyCode : option Z
}.

(** The selectors passed to [$delegate]: an optional tag and an optional
    class, for elements below an [li] (as all elements of an item are). *)
Record Selector := mkSelector {
  sel_tag : option string;
  sel_class : option string
}.

Definition sel_li_label : Selector := mkSelector (Some "label") None.   (* 'li label' *)
Definition sel_destroy : Selector := mkSelector None (Some "destroy").  (* '.destroy' *)
Definition sel_toggle : Selector := mkSelector None (Some "toggle").    (* '.toggle' *)
Definition sel_li_edit : Selector := mkSelector None (Some "edit").     (* 'li .edit' *)

Definition matches (sel : Selector) (e : Element) : bool :=
  match sel_tag sel with
  | Some t => String.eqb t (tagName e)
  | None => true
  end &&
  match sel_class sel with
  | Some c => has_class c (className e)
  | None => true
  end.

(** The handlers given to [bind] are closures of the controller.  Each call
    is recorded with its arguments; what the handler does in it reaches the
    view as a change of the page (the controller answers an event with
    [render] commands) or as an exception.  The name tells the handlers
    apart in the record of the calls. *)
Record Handler := mkHandler {
  handler_name : nat;
  handler_body : list value -> Surface -> Error + Surface
}.

Record Invocation := mkInvocation {
  callee : Handler;
  arguments : list value
}.

(** The closures that [bind] creates, one constructor per function
    expression of the source. *)
Inductive Callback :=
| newTodo_change (handler : Handler)
| removeCompleted_click (handler : Handler)
| toggleAll_click (handler : Handler)
| itemEdit_dblclick (handler : Handler)
| itemRemove_click (handler : Handler)
| itemToggle_click (handler : Handler)
| itemEditDone_blur (handler : Handler)
| itemEditDone_keypress
| itemEditCancel_keyup (handler : Handler).

Record Subscription := mkSubscription {
  sub_target : Anchor;
  sub_selector : option Selector;
  sub_type : EventType;
  sub_callback : Callback
}.

(** ** State and exceptions *)

(** Everything the view can change: the page, the subscriptions it has
    registered, the calls made to the controller's handlers, the console,
    and the exceptions that escaped an event listener. *)
Record World := mkWorld {
  surface : Surface;
  listeners : list Subscription;
  calls : list Invocation;
  console : list string;
  uncaught : list Error
}.

Definition set_surface (s : Surface) (w : World) : World :=
  mkWorld s (listeners w) (calls w) (console w) (uncaught w).

Inductive Outcome (A : Type) :=
| Return (a : A) (w : World)
| Throw (e : Error) (w : World).
Arguments Return {A} a w.
Arguments Throw {A} e w.

(** A computation runs from a state of the world and either returns a
    result or throws, in both cases with the state it has reached. *)
Definition M (A : Type) : Type := World -> Outcome A.

#[global] Instance M_ret : MRet M := fun A a w => Return a w.

#[global] Instance M_bind : MBind M := fun A B f m w =>
  match m w with
  | Return a w' => f a w'
  | Throw e w' => Throw e w'
  end.

Definition throw {A} (e : Error) : M A := fun w => Throw e w.
Definition get_surface : M Surface := fun w => Return (surface w) w.
Definition put_surface (s : Surface) : M unit := fun w => Return tt (set_surface s w).

(** Lift a pure step that can fail. *)
Definition lift {A} (r : Error + A) : M A :=
  match r with
  | inl e => throw e
  | inr a => mret a
  end.

(** Dereference: a property access on [null] is a TypeError. *)
Definition deref {A} (o : option A) : M A :=
  match o with
  | Some a => mret a
  | None => throw TypeError
  end.

Definition console_log (line : string) : M unit := fun w =>
  Return tt (mkWorld (surface w) (listeners w) (calls w) (console w ++ [line]) (uncaught w)).

Definition record_call (handler : Handler) (args : list value) : M unit := fun w =>
  Return tt (mkWorld (surface w) (listeners w)
                     (calls w ++ [mkInvocation handler args]) (console w) (uncaught w)).

(** [handler (arguments)]: the call is recorded, then the body of the
    handler runs on the page as it is. *)
Definition invoke (handler : Handler) (args : list value) : M unit :=
  record_call handler args;;
  s ← get_surface;
  s' ← lift (handler_body handler args s);
  put_surface s'.

Definition add_listener (sub : Subscription) : M unit := fun w =>
  Return tt (mkWorld (surface w) (listeners w ++ [sub]) (calls w) (console w) (uncaught w)).

Definition report (e : Error) (w : World) : World :=
  mkWorld (surface w) (listeners w) (calls w) (console w) (uncaught w ++ [e]).

(** ** Reading and writing nodes *)

Definition anchor_element (s : Surface) (a : Anchor) : option Element :=
  match a with
  | the_todoList => None
  | the_clearCompleted => clearCompleted s
  | the_toggleAll => toggleAll s
  | the_newTodo => newTodo s
  end.

Definition anchor_present (s : Surface) (a : Anchor) : option unit :=
  match a with
  | the_todoList => _ ← todoList s; Some tt
  | _ => _ ← anchor_element s a; Some tt
  end.

Definition element_at (s : Surface) (i j : nat) : option Element :=
  n ← items s !! i; elements n !! j.

Definition node_element (s : Surface) (n : Node) : option Element :=
  match n with
  | AnchorNode a => anchor_element s a
  | ItemElement i j => element_at s i j
  end.

(** Change the item nodes in place; there is nothing to change without a
    list. *)
Definition modify_items (f : list ItemNode -> list ItemNode) (s : Surface) : Surface :=
  match todoList s with
  | Some l => set_todoList (f l) s
  | None => s
  end.

Definition modify_item (i : nat) (f : ItemNode -> ItemNode) : Surface -> Surface :=
  modify_items (alter f i).

Definition modify_element (i j : nat) (f : Element -> Element) : Surface -> Surface :=
  modify_item i (fun n => set_elements (alter f j (elements n)) n).

Definition modify_node (n : Node) (f : Element -> Element) (s : Surface) : Surface :=
  match n with
  | AnchorNode the_todoList => s
  | AnchorNode the_clearCompleted => from_option (fun e => set_clearCompleted (f e) s) s (clearCompleted s)
  | AnchorNode the_toggleAll => from_option (fun e => set_toggleAll (f e) s) s (toggleAll s)
  | AnchorNode the_newTodo => from_option (fun e => set_newTodo (f e) s) s (newTodo s)
  | ItemElement i j => modify_element i j f s
  end.

(** [node.property = ...]: a TypeError when there is no such node. *)
Definition update_node (n : Node) (f : Element -> Element) : M unit :=
  s ← get_surface;
  _ ← deref (node_element s n);
  put_surface (modify_node n f s).

(** ** The helpers of the page (globals [qs], [qsa], [$on], [$parent],
    [$delegate]) *)

(** Modelled from the spec: [qs (selector, scope)], the single-element
    lookup of the Query/Subscription Primitives, which view.js uses but does
    not define.  It yields the first element of the scope, in document
    order, that the selector matches, with its position, or nothing. *)
Definition qs {A} (selector : A -> bool) (scope : list A) : option (nat * A) :=
  list_find selector scope.

(** The positions of the matching elements of a scope that starts at
    [position]. *)
Fixpoint qsa_from {A} (selector : A -> bool) (position : nat) (scope : list A) : list nat :=
  match scope with
  | [] => []
  | x :: rest =>
      if selector x then position :: qsa_from selector (S position) rest
      else qsa_from selector (S position) rest
  end.

(** Modelled from the spec: [qsa (selector, scope)], the multi-element
    lookup of the same primitives: the positions of all matching elements,
    in document order. *)
Definition qsa {A} (selector : A -> bool) (scope : list A) : list nat :=
  qsa_from selector 0 scope.

(** The selectors that view.js hands to [qs] and [qsa]. *)
Definition by_data_id (text : string) (n : ItemNode) : bool :=
  String.eqb (data_id n) text.                            (* [data-id="text"] *)
Definition by_class (c : string) (e : Element) : bool :=
  has_class c (className e).                              (* .c *)
Definition by_href (text : string) (e : Element) : bool :=
  match href e with
  | Some h => String.eqb h text
  | None => false
  end.                                                    (* [href="text"] *)
Definition by_tag (t : string) (e : Element) : bool :=
  String.eqb (tagName e) t.                               (* t *)
Definition by_tag_class (t c : string) (e : Element) : bool :=
  by_tag t e && by_class c e.                             (* t.c *)

(** The text put between the quotes of an attribute selector: when it ends
    or escapes the quoted string the selector is not the one written in the
    source, and the lookup is reported as the SyntaxError that a malformed
    selector raises. *)
Definition quoted (text : string) : M string :=
  if css_string_literal text then mret text else throw SyntaxError.

(** Modelled from the spec: [$on (target, type, callback)], the direct
    event subscription of the Query/Subscription Primitives.  It adds one
    subscription to those of the target; subscribing on an absent target
    is a TypeError, as the primitive has to reach into it. *)
Definition dollar_on (s_target : Anchor) (s_type : EventType) (callback : Callback) : M unit :=
  s ← get_surface;
  _ ← deref (anchor_present s s_target);
  add_listener (mkSubscription s_target None s_type callback).

(** Modelled from the spec: [$delegate (target, selector, type, handler)],
    the event delegation of the same primitives: subscribe once on the
    container; the handler is invoked only when the element the event
    originates from matches the selector, and is passed that element. *)
Definition dollar_delegate (s_target : Anchor) (selector : Selector) (s_type : EventType)
    (handler : Callback) : M unit :=
  s ← get_surface;
  _ ← deref (anchor_present s s_target);
  add_listener (mkSubscription s_target (Some selector) s_type handler).

(** Modelled from the spec: [$parent (element, 'li')], the ancestor
    matching of the same primitives: the nearest enclosing [li], which is
    the item node for an element of an item and does not exist for the
    cached elements. *)
Definition dollar_parent_li (s : Surface) (element : Node) : option ItemNode :=
  match element with
  | ItemElement i _ => items s !! i
  | AnchorNode _ => None
  end.

(** ** The view *)

(** The template given to the constructor.  The markup that [show] builds
    for the list is represented by the item nodes that it parses to. *)
Record Template := mkTemplate {
  show : value -> list ItemNode;
  itemCounter : value -> string;
  clearCompletedButton : value -> string
}.

Record View := mkView {
  template : Template;
  ENTER_KEY : Z;
  ESCAPE_KEY : Z
}.

(** [new View (template)]; the seven lookups of the constructor are the
    fields of the [Surface]. *)
Definition new_View (template : Template) : View := mkView template 13 27.

(** View.prototype._removeItem *)
Definition _removeItem (id : value) : M unit :=
  text ← quoted (ToString id);
  s ← get_surface;
  match qs (by_data_id text) (items s) with
  | Some (i, elem) =>
      l ← deref (todoList s);
      put_surface (set_todoList (delete i l) s)
  | None => mret tt
  end.

(** View.prototype._clearCompletedButton *)
Definition _clearCompletedButton (self : View) (completedCount visible : value) : M unit :=
  s ← get_surface;
  e ← deref (clearCompleted s);
  put_surface (set_clearCompleted
    (set_content (Markup (clearCompletedButton (template self) completedCount)) e) s);;
  s ← get_surface;
  e ← deref (clearCompleted s);
  put_surface (set_clearCompleted
    (set_display (if ToBoolean visible then "block" else "none") e) s).

(** View.prototype._setFilter, first statement: unmark the marked link. *)
Definition _setFilter_unmark : M unit :=
  s ← get_surface;
  selected ← deref (qs (by_class "selected") (filters s));
  put_surface (set_filters (alter (set_className "") selected.1 (filters s)) s).

(** View.prototype._setFilter, second statement: mark the link of the
    page. *)
Definition _setFilter_mark (currentPage : value) : M unit :=
  text ← quoted ("#/" ++ ToString currentPage);
  s ← get_surface;
  link ← deref (qs (by_href text) (filters s));
  put_surface (set_filters (alter (set_className "selected") link.1 (filters s)) s).

(** View.prototype._setFilter *)
Definition _setFilter (currentPage : value) : M unit :=
  _setFilter_unmark;;
  _setFilter_mark currentPage.

(** View.prototype._elementComplete *)
Definition _elementComplete (id completed : value) : M unit :=
  text ← quoted (ToString id);
  s ← get_surface;
  match qs (by_data_id text) (items s) with
  | None => mret tt
  | Some (i, listItem) =>
      put_surface (modify_item i
        (set_li_className (if ToBoolean completed then "completed" else "")) s);;
      s ← get_surface;
      input ← deref (qs (by_tag "input") (elements listItem));
      put_surface (modify_element i input.1 (set_checked (ToBoolean completed)) s)
  end.

(** View.prototype._itemId *)
Definition _itemId (element : Node) : M number :=
  s ← get_surface;
  li ← deref (dollar_parent_li s element);
  mret (parseInt (VString (data_id li))).

(** [!this.dataset.iscanceled]: a missing entry and the empty string are
    falsy. *)
Definition dataset_truthy (d : option string) : bool :=
  match d with
  | Some text => ToBoolean (VString text)
  | None => false
  end.

(** The body of each closure, run with [this] and the event.  [blur_] is
    what [this.blur ()] does. *)
Definition run_callback (self : View) (blur_ : Node -> M unit)
    (callback : Callback) (this : Node) (event : Event) : M unit :=
  match callback with
  | newTodo_change handler =>
      s ← get_surface;
      input ← deref (newTodo s);
      invoke handler [VString (input_value input)]
  | removeCompleted_click handler =>
      invoke handler []
  | toggleAll_click handler =>
      s ← get_surface;
      e ← deref (node_element s this);
      invoke handler [VObject [("completed", VBool (checked e))]]
  | itemEdit_dblclick handler =>
      id ← _itemId this;
      invoke handler [VObject [("id", VNumber id)]]
  | itemRemove_click handler =>
      id ← _itemId this;
      invoke handler [VObject [("id", VNumber id)]]
  | itemToggle_click handler =>
      id ← _itemId this;
      s ← get_surface;
      e ← deref (node_element s this);
      invoke handler [VObject [("id", VNumber id); ("completed", VBool (checked e))]]
  | itemEditDone_blur handler =>
      s ← get_surface;
      e ← deref (node_element s this);
      if negb (dataset_truthy (iscanceled e)) then
        id ← _itemId this;
        s ← get_surface;
        e ← deref (node_element s this);
        invoke handler [VObject [("id", VNumber id); ("title", VString (input_value e))]]
      else mret tt
  | itemEditDone_keypress =>
      if bool_decide (keyCode event = Some (ENTER_KEY self)) then blur_ this
      else mret tt
  | itemEditCancel_keyup handler =>
      if bool_decide (keyCode event = Some (ESCAPE_KEY self)) then
        console_log "ESCAPE_KEY";;
        update_node this (set_iscanceled (Some (ToString (VBool true))));;
        blur_ this;;
        id ← _itemId this;
        invoke handler [VObject [("id", VNumber id)]]
      else mret tt
  end.

(** Whether a subscription is concerned by an event, and with which
    [this]: a direct subscription when the event originates from its target,
    a delegated one when it originates from an element of the list that
    matches the selector. *)
Definition fires (s : Surface) (sub : Subscription) (event : Event) : option Node :=
  if bool_decide (sub_type sub = type event) then
    match sub_selector sub with
    | None =>
        if bool_decide (target event = AnchorNode (sub_target sub))
        then Some (target event) else None
    | Some selector =>
        match sub_target sub, target event with
        | the_todoList, ItemElement i j =>
            e ← element_at s i j;
            if matches selector e then Some (target event) else None
        | _, _ => None
        end
    end
  else None.

(** The listeners run one after the other, in the order of subscription.
    An exception thrown by a listener is reported and does not stop the
    others. *)
Fixpoint run_listeners (self : View) (blur_ : Node -> M unit)
    (subs : list Subscription) (event : Event) (w : World) : World :=
  match subs with
  | [] => w
  | sub :: rest =>
      let w' :=
        match fires (surface w) sub event with
        | Some this =>
            match run_callback self blur_ (sub_callback sub) this event w with
            | Return _ w' => w'
            | Throw e w' => report e w'
            end
        | None => w
        end in
      run_listeners self blur_ rest event w'
  end.

Definition dispatch_with (self : View) (blur_ : Node -> M unit) (event : Event) : M unit :=
  fun w => Return tt (run_listeners self blur_ (listeners w) event w).

(** [element.blur ()]: an element that has the focus loses it, and the
    blur event is dispatched.  While its listeners run, the element no
    longer has the focus, so a [this.blur ()] in one of them does nothing. *)
Definition blur_method (self : View) (element : Node) : M unit :=
  s ← get_surface;
  e ← deref (node_element s element);
  if focused e then
    put_surface (modify_node element (set_focused false) s);;
    dispatch_with self (fun _ => mret tt) (mkEvent blur element None)
  else mret tt.

(** A user action on the page.  The browser acts on the element before the
    listeners run: the element of a blur has lost the focus, and the
    checkbox of a click has been toggled. *)
Definition dispatch (self : View) (event : Event) : M unit :=
  match type event with
  | blur =>
      s ← get_surface;
      put_surface (modify_node (target event) (set_focused false) s);;
      dispatch_with self (fun _ => mret tt) event
  | click =>
      s ← get_surface;
      put_surface (modify_node (target event) activate s);;
      dispatch_with self (blur_method self) event
  | _ => dispatch_with self (blur_method self) event
  end.

(** The element that has the focus, if any. *)
Definition focused_item_element (l : list ItemNode) : option (nat * nat) :=
  p ← list_find (fun n => existsb focused (elements n)) l;
  q ← list_find focused (elements p.2);
  Some (p.1, q.1).

Definition has_focus (o : option Element) : bool := from_option focused false o.

Definition activeElement (s : Surface) : option Node :=
  if has_focus (newTodo s) then Some (AnchorNode the_newTodo)
  else if has_focus (toggleAll s) then Some (AnchorNode the_toggleAll)
  else match focused_item_element (items s) with
       | Some (i, j) => Some (ItemElement i j)
       | None => if has_focus (clearCompleted s)
                 then Some (AnchorNode the_clearCompleted) else None
       end.

(** [element.focus ()]: the element that had the focus loses it, with its
    blur event, and the element gets it. *)
Definition focus_method (self : View) (element : Node) : M unit :=
  s ← get_surface;
  _ ← deref (node_element s element);
  match activeElement s with
  | Some old =>
      if bool_decide (old = element) then mret tt
      else
        put_surface (modify_node old (set_focused false) s);;
        dispatch_with self (fun _ => mret tt) (mkEvent blur old None);;
        s ← get_surface;
        put_surface (modify_node element (set_focused true) s)
  | None => put_surface (modify_node element (set_focused true) s)
  end.

(** A text field holds one line: line feeds and carriage returns are taken
    out of what is assigned to its value. *)
Definition is_line_break (c : ascii) : bool :=
  match nat_of_ascii c with
  | 10 | 13 => true
  | _ => false
  end.

Fixpoint strip_line_breaks (s : string) : string :=
  match s with
  | EmptyString => EmptyString
  | String c rest =>
      if is_line_break c then strip_line_breaks rest
      else String c (strip_line_breaks rest)
  end.

(** What an assignment to the [value] of a text field stores: [null] is
    the empty string, anything else goes through ToString, and the line
    breaks are taken out. *)
Definition to_input_value (v : value) : string :=
  strip_line_breaks
    match v with
    | VNull => ""
    | _ => ToString v
    end.

(** What an assignment to [node.textContent] stores: [null] and
    [undefined] are the empty string. *)
Definition to_textContent (v : value) : string :=
  match v with
  | VNull | VUndefined => ""
  | _ => ToString v
  end.

(** View.prototype._editItem *)
Definition _editItem (self : View) (id title : value) : M unit :=
  text ← quoted (ToString id);
  s ← get_surface;
  match qs (by_data_id text) (items s) with
  | None => mret tt
  | Some (i, listItem) =>
      put_surface (modify_item i
        (set_li_className (li_className listItem ++ " editing")) s);;
      let input := set_className "edit" (createElement "input") in
      s ← get_surface;
      put_surface (modify_item i (fun n => set_elements (elements n ++ [input]) n) s);;
      let j := length (elements listItem) in
      focus_method self (ItemElement i j);;
      update_node (ItemElement i j) (set_input_value (to_input_value title))
  end.

(** View.prototype._editItemDone *)
Definition _editItemDone (id title : value) : M unit :=
  text ← quoted (ToString id);
  s ← get_surface;
  match qs (by_data_id text) (items s) with
  | None => mret tt
  | Some (i, listItem) =>
      input ← deref (qs (by_tag_class "input" "edit") (elements listItem));
      let remaining := delete input.1 (elements listItem) in
      put_surface (modify_item i (set_elements remaining) s);;
      s ← get_surface;
      put_surface (modify_item i
        (set_li_className (replace "editing" "" (li_className listItem))) s);;
      s ← get_surface;
      put_surface (foldl
        (fun s label => modify_element i label (set_content (Text (to_textContent title))) s)
        s (qsa (by_tag "label") remaining))
  end.

(** *** View.prototype.render *)

(** The function expressions of the object literal [viewCommands]. *)
Module Command.
Inductive t :=
| showEntries | removeItem | updateElementCount | clearCompletedButton
| contentBlockVisibility | toggleAll | setFilter | clearNewTodo
| elementComplete | editItem | editItemDone.
End Command.

(** The own properties of [viewCommands]. *)
Definition viewCommands : gmap string Command.t :=
  list_to_map [
    ("showEntries", Command.showEntries);
    ("removeItem", Command.removeItem);
    ("updateElementCount", Command.updateElementCount);
    ("clearCompletedButton", Command.clearCompletedButton);
    ("contentBlockVisibility", Command.contentBlockVisibility);
    ("toggleAll", Command.toggleAll);
    ("setFilter", Command.setFilter);
    ("clearNewTodo", Command.clearNewTodo);
    ("elementComplete", Command.elementComplete);
    ("editItem", Command.editItem);
    ("editItemDone", Command.editItemDone)
  ].

(** [viewCommands] is written as an object literal, so a name that is not
    one of its own properties is looked up in [Object.prototype]. *)
Inductive Inherited :=
| Object_constructor | Object_toString | Object_toLocaleString | Object_valueOf
| Object_hasOwnProperty | Object_isPrototypeOf | Object_propertyIsEnumerable
| Object_defineGetter | Object_defineSetter | Object_lookupGetter
| Object_lookupSetter | Object_proto.

Definition Object_prototype : gmap string Inherited :=
  list_to_map [
    ("constructor", Object_constructor);
    ("toString", Object_toString);
    ("toLocaleString", Object_toLocaleString);
    ("valueOf", Object_valueOf);
    ("hasOwnProperty", Object_hasOwnProperty);
    ("isPrototypeOf", Object_isPrototypeOf);
    ("propertyIsEnumerable", Object_propertyIsEnumerable);
    ("__defineGetter__", Object_defineGetter);
    ("__defineSetter__", Object_defineSetter);
    ("__lookupGetter__", Object_lookupGetter);
    ("__lookupSetter__", Object_lookupSetter);
    ("__proto__", Object_proto)
  ].

(** [viewCommands[name] ()] for an inherited member: called on the object
    without arguments.  The value of [__proto__] is an object, and
    [__defineGetter__] and [__defineSetter__] reject a missing function;
    the other members return. *)
Definition call_inherited (member : Inherited) : Error + unit :=
  match member with
  | Object_proto | Object_defineGetter | Object_defineSetter => inl TypeError
  | _ => inr tt
  end.

Definition run_command (self : View) (command : Command.t) (parameter : value) : M unit :=
  match command with
  | Command.showEntries =>
      s ← get_surface;
      _ ← deref (todoList s);
      put_surface (set_todoList (show (template self) parameter) s)
  | Command.removeItem =>
      _removeItem parameter
  | Command.updateElementCount =>
      s ← get_surface;
      e ← deref (todoItemCounter s);
      put_surface (set_todoItemCounter
        (set_content (Markup (itemCounter (template self) parameter)) e) s)
  | Command.clearCompletedButton =>
      completed ← lift (Get parameter "completed");
      visible ← lift (Get parameter "visible");
      _clearCompletedButton self completed visible
  | Command.contentBlockVisibility =>
      s ← get_surface;
      m ← deref (main s);
      f ← deref (footer s);
      visible ← lift (Get parameter "visible");
      let d := if ToBoolean visible then "block" else "none" in
      put_surface (set_footer (set_display d f) s);;
      s ← get_surface;
      put_surface (set_main (set_display d m) s)
  | Command.toggleAll =>
      s ← get_surface;
      e ← deref (toggleAll s);
      c ← lift (Get parameter "checked");
      put_surface (set_toggleAll (set_checked (ToBoolean c) e) s)
  | Command.setFilter =>
      _setFilter parameter
  | Command.clearNewTodo =>
      s ← get_surface;
      e ← deref (newTodo s);
      put_surface (set_newTodo (set_input_value "" e) s)
  | Command.elementComplete =>
      id ← lift (Get parameter "id");
      completed ← lift (Get parameter "completed");
      _elementComplete id completed
  | Command.editItem =>
      id ← lift (Get parameter "id");
      title ← lift (Get parameter "title");
      _editItem self id title
  | Command.editItemDone =>
      id ← lift (Get parameter "id");
      title ← lift (Get parameter "title");
      _editItemDone id title
  end.

Definition render (self : View) (viewCmd : string) (parameter : value) : M unit :=
  match viewCommands !! viewCmd with
  | Some command => run_command self command parameter
  | None =>
      match Object_prototype !! viewCmd with
      | Some member => lift (call_inherited member)
      | None => throw TypeError
      end
  end.

(** *** View.prototype.bind *)

(** View.prototype._bindItemEditDone *)
Definition _bindItemEditDone (self : View) (handler : Handler) : M unit :=
  dollar_delegate the_todoList sel_li_edit blur (itemEditDone_blur handler);;
  dollar_delegate the_todoList sel_li_edit keypress itemEditDone_keypress.

(** View.prototype._bindItemEditCancel *)
Definition _bindItemEditCancel (self : View) (handler : Handler) : M unit :=
  dollar_delegate the_todoList sel_li_edit keyup (itemEditCancel_keyup handler).

Definition bind (self : View) (event : string) (handler : Handler) : M unit :=
  if String.eqb event "newTodo" then
    dollar_on the_newTodo change (newTodo_change handler)
  else if String.eqb event "removeCompleted" then
    dollar_on the_clearCompleted click (removeCompleted_click handler)
  else if String.eqb event "toggleAll" then
    dollar_on the_toggleAll click (toggleAll_click handler)
  else if String.eqb event "itemEdit" then
    dollar_delegate the_todoList sel_li_label dblclick (itemEdit_dblclick handler)
  else if String.eqb event "itemRemove" then
    dollar_delegate the_todoList sel_destroy click (itemRemove_click handler)
  else if String.eqb event "itemToggle" then
    dollar_delegate the_todoList sel_toggle click (itemToggle_click handler)
  else if String.eqb event "itemEditDone" then
    _bindItemEditDone self handler
  else if String.eqb event "itemEditCancel" then
    _bindItemEditCancel self handler
  else mret tt.

(** ** Vocabulary of the statements *)

(** The names of the commands and of the events, as the source lists them. *)
Definition command_names : list string :=
  ["showEntries"; "removeItem"; "updateElementCount"; "clearCompletedButton";
   "contentBlockVisibility"; "toggleAll"; "setFilter"; "clearNewTodo";
   "elementComplete"; "editItem"; "editItemDone"].

Definition event_names : list string :=
  ["newTodo"; "removeCompleted"; "toggleAll"; "itemEdit"; "itemRemove";
   "itemToggle"; "itemEditDone"; "itemEditCancel"].

(** The members of [Object.prototype] that return when called on an object
    without arguments. *)
Definition inherited_callable : list string :=
  ["constructor"; "toString"; "toLocaleString"; "valueOf"; "hasOwnProperty";
   "isPrototypeOf"; "propertyIsEnumerable"; "__lookupGetter__";
   "__lookupSetter__"].

(** The state in which a computation ends. *)
Definition final {A} (o : Outcome A) : World :=
  match o with
  | Return _ w => w
  | Throw _ w => w
  end.

(** The cached elements by name, and the commands that write to each. *)
Inductive Region :=
| list_container | item_counter | clear_completed_control | main_region
| footer_region | toggle_all_control | new_item_input.

#[global] Instance Region_eq_dec : EqDecision Region.
Proof. solve_decision. Defined.

Definition absent (s : Surface) (r : Region) : Prop :=
  match r with
  | list_container => todoList s = None
  | item_counter => todoItemCounter s = None
  | clear_completed_control => clearCompleted s = None
  | main_region => main s = None
  | footer_region => footer s = None
  | toggle_all_control => toggleAll s = None
  | new_item_input => newTodo s = None
  end.

Definition writes_to : list (string * Region) :=
  [("showEntries", list_container);
   ("updateElementCount", item_counter);
   ("clearCompletedButton", clear_completed_control);
   ("contentBlockVisibility", main_region);
   ("contentBlockVisibility", footer_region);
   ("toggleAll", toggle_all_control);
   ("clearNewTodo", new_item_input)].

(** ** Sample pages *)

(** A template in the manner of the application's: one [li] per item with
    a toggle, a label and a destroy button; a counter text; a label for the
    clear button that is empty when nothing is completed. *)
Definition property (name : string) (v : value) : value :=
  match v with
  | VObject fields => default VUndefined (assoc name fields)
  | _ => VUndefined
  end.

Definition sample_checkbox (class : string) (checked : bool) : Element :=
  mkElement "input" class None (Markup "") "" checked "" None false "checkbox".

Definition sample_item (item : value) : ItemNode :=
  let completed := ToBoolean (property "completed" item) in
  mkItemNode (ToString (property "id" item)) (if completed then "completed" else "")
    [ sample_checkbox "toggle" completed;
      mkElement "label" "" None (Text (ToString (property "title" item))) "" false "" None
        false "";
      mkElement "button" "destroy" None (Markup "") "" false "" None false "" ].

Definition sample_template : Template :=
  mkTemplate
    (fun v => match v with VArray l => sample_item <$> l | _ => [] end)
    (fun v => "<strong>" ++ ToString v ++ "</strong> items left")
    (fun v => match v with
              | VNumber (Int z) => if (0 <? z)%Z then "Clear completed" else ""
              | _ => ""
              end).

Definition sample_view : View := new_View sample_template.

Definition todo (id : Z) (title : string) (completed : bool) : value :=
  VObject [("id", VNumber (Int id)); ("title", VString title); ("completed", VBool completed)].

Definition filter_link (target class : string) : Element :=
  mkElement "a" class (Some target) (Text "") "" false "" None false "".

Definition sample_filters : list Element :=
  [filter_link "#/" "selected"; filter_link "#/active" ""; filter_link "#/completed" ""].

Definition sample_surface : Surface :=
  mkSurface
    (Some (show sample_template (VArray [todo 1 "A" false; todo 2 "B" true])))
    (Some (createElement "span"))
    (Some (createElement "button"))
    (Some (createElement "section"))
    (Some (createElement "footer"))
    (Some (sample_checkbox "toggle-all" false))
    (Some (createElement "input"))
    sample_filters.

Definition sample_world : World := mkWorld sample_surface [] [] [] [].

(** The same page without its list container. *)
Definition surface_without_list : Surface :=
  mkSurface None (todoItemCounter sample_surface) (clearCompleted sample_surface)
    (main sample_surface) (footer sample_surface) (toggleAll sample_surface)
    (newTodo sample_surface) sample_filters.

Definition world_without_list : World := mkWorld surface_without_list [] [] [] [].

(** The same page with no filter link marked. *)
Definition world_without_selected : World :=
  mkWorld (set_filters [filter_link "#/" ""; filter_link "#/active" "";
                        filter_link "#/completed" ""] sample_surface) [] [] [] [].

(** The parameters of the commands about one item. *)
Definition complete_parameter (id : number) (completed : bool) : value :=
  VObject [("id", VNumber id); ("completed", VBool completed)].

Definition edit_parameter (id : number) (title : value) : value :=
  VObject [("id", VNumber id); ("title", title)].

(** A parameter of the shape that the table of commands documents for
    clearCompletedButton. *)
Definition parameter_completedCount : value :=
  VObject [("completedCount", VNumber (Int 3)); ("visible", VBool true)].

(** The item node after [_elementComplete]: its class is set, and the
    first [input] below it is checked or unchecked. *)
Definition completed_item (completed : bool) (j : nat) (listItem : ItemNode) : ItemNode :=
  mkItemNode (data_id listItem) (if completed then "completed" else "")
    (alter (set_checked completed) j (elements listItem)).

(** *** Filter links *)

Definition page_names : list string := [""; "active"; "completed"].

(** Exactly one of the links carries the marker class, the one at [j]. *)
Definition only_marked (l : list Element) (j : nat) : Prop :=
  is_Some (l !! j) ∧
  ∀ k e, l !! k = Some e → (by_class "selected" e = true ↔ k = j).

Definition none_marked (l : list Element) : Prop :=
  ∀ e, e ∈ l → by_class "selected" e = false.

(** The link at [j] is the first one whose target is the page. *)
Definition link_of_page (l : list Element) (j : nat) (page : string) : Prop :=
  fst <$> qs (by_href ("#/" ++ page)) l = Some j.

(** The page has a filter link for each page name. *)
Definition links_present (l : list Element) : Prop :=
  ∀ page, page ∈ page_names → ∃ e, e ∈ l ∧ href e = Some ("#/" ++ page).

(** *** Events *)

(** The events of the view by name, with the user action that raises each
    one and what the handler is given. *)
Inductive EventName :=
| ev_newTodo | ev_removeCompleted | ev_toggleAll | ev_itemEdit | ev_itemRemove
| ev_itemToggle | ev_itemEditDone | ev_itemEditCancel.

Definition event_name (e : EventName) : string :=
  match e with
  | ev_newTodo => "newTodo"
  | ev_removeCompleted => "removeCompleted"
  | ev_toggleAll => "toggleAll"
  | ev_itemEdit => "itemEdit"
  | ev_itemRemove => "itemRemove"
  | ev_itemToggle => "itemToggle"
  | ev_itemEditDone => "itemEditDone"
  | ev_itemEditCancel => "itemEditCancel"
  end.

(** The raw trigger of an event; for the events of an item it originates
    from element [j] of item [i]. *)
Definition raw_trigger (self : View) (e : EventName) (i j : nat) : Event :=
  match e with
  | ev_newTodo => mkEvent change (AnchorNode the_newTodo) None
  | ev_removeCompleted => mkEvent click (AnchorNode the_clearCompleted) None
  | ev_toggleAll => mkEvent click (AnchorNode the_toggleAll) None
  | ev_itemEdit => mkEvent dblclick (ItemElement i j) None
  | ev_itemRemove => mkEvent click (ItemElement i j) None
  | ev_itemToggle => mkEvent click (ItemElement i j) None
  | ev_itemEditDone => mkEvent blur (ItemElement i j) None
  | ev_itemEditCancel => mkEvent keyup (ItemElement i j) (Some (ESCAPE_KEY self))
  end.

Definition escape_key (self : View) (i j : nat) : Event :=
  mkEvent keyup (ItemElement i j) (Some (ESCAPE_KEY self)).

(** The page as the listeners of an event find it. *)
Definition before_listeners (event : Event) (s : Surface) : Surface :=
  match type event with
  | blur => modify_node (target event) (set_focused false) s
  | click => modify_node (target event) activate s
  | _ => s
  end.

(** The [data-id] of the item is the text of a safe integer. *)
Definition safe_data_id (item : ItemNode) : Prop :=
  ∃ id, safe_integer id ∧ data_id item = number_to_string id.

(** The element that the trigger originates from is on the page, is of the
    kind that the event is about, and is in an item with the text of a safe
    integer for its id.  The toggles are checkboxes: no other element has
    the [checked] that the listener reads and that a click inverts. *)
Definition on_item_element (s : Surface) (i j : nat) (P : Element → Prop) : Prop :=
  ∃ item e, items s !! i = Some item ∧ elements item !! j = Some e ∧ P e ∧
            safe_data_id item.

Definition trigger_ready (s : Surface) (e : EventName) (i j : nat) : Prop :=
  match e with
  | ev_newTodo => is_Some (newTodo s)
  | ev_removeCompleted => is_Some (clearCompleted s)
  | ev_toggleAll => ∃ e, toggleAll s = Some e ∧ is_checkbox e = true
  | ev_itemEdit => on_item_element s i j (fun e => matches sel_li_label e = true)
  | ev_itemRemove => on_item_element s i j (fun e => matches sel_destroy e = true)
  | ev_itemToggle => on_item_element s i j (fun e => matches sel_toggle e = true ∧
                                                   is_checkbox e = true)
  | ev_itemEditDone =>
      on_item_element s i j (fun e => matches sel_li_edit e = true ∧
                                      dataset_truthy (iscanceled e) = false)
  | ev_itemEditCancel => on_item_element s i j (fun e => matches sel_li_edit e = true)
  end.

(** What the handler of each event is given, read from the page as the
    listeners find it. *)
Definition item_id (s : Surface) (i : nat) : value :=
  VNumber (parseInt (VString (from_option data_id "" (items s !! i)))).

Definition normalized_payload (s : Surface) (e : EventName) (i j : nat) : list value :=
  match e with
  | ev_newTodo => [VString (from_option input_value "" (newTodo s))]
  | ev_removeCompleted => []
  | ev_toggleAll => [VObject [("completed", VBool (from_option checked false (toggleAll s)))]]
  | ev_itemEdit | ev_itemRemove | ev_itemEditCancel => [VObject [("id", item_id s i)]]
  | ev_itemToggle =>
      [VObject [("id", item_id s i);
                ("completed", VBool (from_option checked false (element_at s i j)))]]
  | ev_itemEditDone =>
      [VObject [("id", item_id s i);
                ("title", VString (from_option input_value "" (element_at s i j)))]]
  end.

(** What one call of [bind] registers, and on which element. *)
Definition subscriptions (e : EventName) (handler : Handler) : list Subscription :=
  match e with
  | ev_newTodo => [mkSubscription the_newTodo None change (newTodo_change handler)]
  | ev_removeCompleted =>
      [mkSubscription the_clearCompleted None click (removeCompleted_click handler)]
  | ev_toggleAll => [mkSubscription the_toggleAll None click (toggleAll_click handler)]
  | ev_itemEdit =>
      [mkSubscription the_todoList (Some sel_li_label) dblclick (itemEdit_dblclick handler)]
  | ev_itemRemove =>
      [mkSubscription the_todoList (Some sel_destroy) click (itemRemove_click handler)]
  | ev_itemToggle =>
      [mkSubscription the_todoList (Some sel_toggle) click (itemToggle_click handler)]
  | ev_itemEditDone =>
      [mkSubscription the_todoList (Some sel_li_edit) blur (itemEditDone_blur handler);
       mkSubscription the_todoList (Some sel_li_edit) keypress itemEditDone_keypress]
  | ev_itemEditCancel =>
      [mkSubscription the_todoList (Some sel_li_edit) keyup (itemEditCancel_keyup handler)]
  end.

Definition bind_target (e : EventName) : Anchor :=
  match e with
  | ev_newTodo => the_newTodo
  | ev_removeCompleted => the_clearCompleted
  | ev_toggleAll => the_toggleAll
  | _ => the_todoList
  end.

(** The subscriptions that [bind] can register. *)
Definition registered (sub : Subscription) : Prop :=
  ∃ e handler, sub ∈ subscriptions e handler.

Definition cancel_of (sub : Subscription) : option Handler :=
  match sub_callback sub with
  | itemEditCancel_keyup h => Some h
  | _ => None
  end.

Definition done_of (sub : Subscription) : option Handler :=
  match sub_callback sub with
  | itemEditDone_blur h => Some h
  | _ => None
  end.

(** The handlers bound to itemEditCancel, in the order of their
    subscription. *)
Definition cancel_handlers (subs : list Subscription) : list Handler :=
  omap cancel_of subs.

Definition with_listeners (l : list Subscription) (w : World) : World :=
  mkWorld (surface w) l (calls w) (console w) (uncaught w).

(** *** Handlers *)

(** A handler that does nothing but being called. *)
Definition recorder (n : nat) : Handler := mkHandler n (fun _ s => inr s).

(** The handler returns and leaves the page as it found it.  The target of
    an event is addressed by its place on the page, which a handler that
    renders may shift under the listeners that run after it: what is stated
    about several handlers called in a row asks this of all but the last. *)
Definition leaves_page_alone (h : Handler) : Prop :=
  ∀ args s, handler_body h args s = inr s.

(** A handler that answers with one command of the view, as the controller
    does: the page after [render], or the exception that [render] throws. *)
Definition rendering (self : View) (n : nat) (viewCmd : string)
    (parameter : list value -> value) : Handler :=
  mkHandler n (fun args s =>
    match render self viewCmd (parameter args) (mkWorld s [] [] [] []) with
    | Return _ w => inr (surface w)
    | Throw e _ => inl e
    end).

(** A handler of itemToggle that answers with elementComplete for the item,
    with [completed] false whatever the checkbox says. *)
Definition unchecking : Handler :=
  rendering sample_view 3 "elementComplete"
    (fun args => match args with
                 | [payload] => VObject [("id", property "id" payload);
                                         ("completed", VBool false)]
                 | _ => VUndefined
                 end).

(** The world after a call of a handler that leaves the page alone. *)
Definition called (handler : Handler) (args : list value) (w : World) : World :=
  mkWorld (surface w) (listeners w) (calls w ++ [mkInvocation handler args])
          (console w) (uncaught w).

(** The world after a listener: an exception that it throws is reported. *)
Definition settle {A} (o : Outcome A) : World :=
  match o with
  | Return _ w => w
  | Throw e w => report e w
  end.

(** The world after a listener has called a handler as its last step. *)
Definition answered (handler : Handler) (args : list value) (w : World) : World :=
  settle (invoke handler args w).

(** *** The edit session *)

(** The edit field after Escape: flagged as cancelled, without the focus. *)
Definition cancelled (e : Element) : Element :=
  set_focused false (set_iscanceled (Some "true") e).

Definition cancel_invocation (id : number) (h : Handler) : Invocation :=
  mkInvocation h [VObject [("id", VNumber id)]].

(** The world after Escape on element [j] of item [i], when the handlers
    [hs] are bound to itemEditCancel. *)
Definition after_escape (i j : nat) (id : number) (hs : list Handler) (w : World) : World :=
  match hs with
  | [] => w
  | _ => mkWorld (modify_element i j cancelled (surface w)) (listeners w)
           (calls w ++ (cancel_invocation id <$> hs))
           (console w ++ replicate (length hs) "ESCAPE_KEY") (uncaught w)
  end.

(** The world in which the blur forced by Escape starts: the line is on
    the console and the field carries the flag. *)
Definition flagged (i j : nat) (w : World) : World :=
  mkWorld (modify_element i j (set_iscanceled (Some "true")) (surface w))
          (listeners w) (calls w) (console w ++ ["ESCAPE_KEY"]) (uncaught w).

(** The world in which the Escape listener calls its handler: the field
    carries the flag and has lost the focus. *)
Definition silenced (i j : nat) (w : World) : World :=
  mkWorld (modify_element i j cancelled (surface w))
          (listeners w) (calls w) (console w ++ ["ESCAPE_KEY"]) (uncaught w).

(** The sample page with both edit events bound and item 1 being edited. *)
Definition editing_world : World :=
  final ((bind sample_view "itemEditDone" (recorder 1);;
          bind sample_view "itemEditCancel" (recorder 2);;
          render sample_view "editItem" (edit_parameter (Int 1) (VString "A")))
         sample_world).

(** The edit field of that item, and the item with it. *)
Definition sample_edit_field : Element :=
  set_input_value "A" (set_focused true (set_className "edit" (createElement "input"))).

Definition edited_item : ItemNode :=
  mkItemNode "1" " editing" (elements (sample_item (todo 1 "A" false)) ++ [sample_edit_field]).

(** ** What a computation leaves alone *)

(** [preserves R m]: whether [m] returns or throws, the world it ends in is
    related by [R] to the world it started from. *)
Definition preserves {A} (R : World -> World -> Prop) (m : M A) : Prop :=
  ∀ w, R w (final (m w)).

(** The two worlds differ in the page at most. *)
Definition same_but_surface (w w' : World) : Prop :=
  ∃ s, w' = set_surface s w.

(** The two worlds have the same subscriptions. *)
Definition same_listeners (w w' : World) : Prop :=
  listeners w' = listeners w.

(** The commands that read a field of their parameter. *)
Definition field_reading_commands : list string :=
  ["clearCompletedButton"; "contentBlockVisibility"; "toggleAll";
   "elementComplete"; "editItem"; "editItemDone"].

(** *** Committing an edit *)

Definition done_handlers (subs : list Subscription) : list Handler :=
  omap done_of subs.

Definition done_invocation (id : number) (title : string) (h : Handler) : Invocation :=
  mkInvocation h [VObject [("id", VNumber id); ("title", VString title)]].

(** The second subscription of [_bindItemEditDone]. *)
Definition keypress_listener : Subscription :=
  mkSubscription the_todoList (Some sel_li_edit) keypress itemEditDone_keypress.

Definition enter_key (self : View) (i j : nat) : Event :=
  mkEvent keypress (ItemElement i j) (Some (ENTER_KEY self)).

(** The world after the blur listeners have run for element [j] of item
    [i]: the handlers [hs] have been called with the id and the title. *)
Definition committed (id : number) (title : string) (hs : list Handler) (w : World) : World :=
  mkWorld (surface w) (listeners w) (calls w ++ (done_invocation id title <$> hs))
          (console w) (uncaught w).

(** A key event whose key is the one that no listener of [bind] acts on. *)
Definition other_key (self : View) (event : Event) : Prop :=
  (type event = keyup ∧ keyCode event ≠ Some (ESCAPE_KEY self)) ∨
  (type event = keypress ∧ keyCode event ≠ Some (ENTER_KEY self)).

(** *** Editing *)



(** The item between the moment [_editItem] has put the edit field below it
    and the moment the field gets the focus. *)
Definition item_with_field (listItem : ItemNode) : ItemNode :=
  mkItemNode (data_id listItem) (li_className listItem ++ " editing")
    (elements listItem ++ [set_className "edit" (createElement "input")]).



(** *** Removing items *)

(** The list without the first item that carries the id. *)
Definition without (text : string) (l : list ItemNode) : list ItemNode :=
  match qs (by_data_id text) l with
  | Some (i, _) => delete i l
  | None => l
  end.

(** *** More sample pages *)

(** A page whose only item has a label and nothing else. *)
Definition item_without_checkbox : ItemNode :=
  mkItemNode "5" ""
    [mkElement "label" "" None (Text "E") "" false "" None false ""].

Definition world_without_checkbox : World :=
  mkWorld (set_todoList [item_without_checkbox] sample_surface) [] [] [] [].

(** * Properties *)

(** ** Tactics *)

(** Settle a decidable closed proposition by evaluation. *)
Ltac decide_now := apply (bool_decide_unpack _); vm_compute; exact I.

(** [render] on a name of the table is the command of that name. *)
Ltac render_command :=
  repeat match goal with
  | |- context [render ?self ?name ?p] =>
      let c := eval vm_compute in (viewCommands !! name) in
      match c with
      | Some ?command => change (render self name p) with (run_command self command p)
      end
  end.

(** Run the monadic steps of a goal. *)
Ltac run :=
  repeat (progress (cbn [run_command]; unfold mbind, M_bind, mret, M_ret, get_surface,
                    put_surface, throw, lift, deref; cbn beta iota)).

(** Project the fields of a world that has just been built. *)
Ltac wsimpl :=
  unfold set_surface;
  cbn [surface listeners calls console uncaught node_element modify_node].

(** ** Lookups *)

Section Lookup.
Context {A : Type} (sel : A → bool).

Lemma qs_Some (l : list A) (i : nat) (x : A) :
  qs sel l = Some (i, x) ↔
  l !! i = Some x ∧ sel x = true ∧ ∀ j y, l !! j = Some y → j < i → sel y = false.
Proof.
  unfold qs. rewrite list_find_Some. split.
  - intros (H1 & H2 & H3). split; [done | split; [by apply Is_true_true | ]].
    intros j y Hj Hlt. specialize (H3 j y Hj Hlt). by destruct (sel y).
  - intros (H1 & H2 & H3). split; [done | split; [by apply Is_true_true | ]].
    intros j y Hj Hlt. rewrite (H3 j y Hj Hlt). simpl. tauto.
Qed.

Lemma qs_None (l : list A) :
  qs sel l = None ↔ ∀ x, x ∈ l → sel x = false.
Proof.
  unfold qs. rewrite list_find_None, Forall_forall. split; intros H x Hx.
  - specialize (H x Hx). by destruct (sel x).
  - rewrite (H x Hx). simpl. tauto.
Qed.

(** An update that does not change what the selector sees leaves the
    result of the lookup in place. *)
Lemma qs_alter (f : A → A) (l : list A) (i : nat) (x : A) :
  (∀ y, sel (f y) = sel y) →
  qs sel l = Some (i, x) → qs sel (alter f i l) = Some (i, f x).
Proof.
  intros Hf. rewrite !qs_Some. intros (H1 & H2 & H3).
  split; [ | split].
  - rewrite list_lookup_alter_eq, H1. reflexivity.
  - by rewrite Hf.
  - intros j y Hj Hlt. rewrite list_lookup_alter_ne in Hj by lia. eauto.
Qed.

Lemma qs_insert (l : list A) (i : nat) (x x' : A) :
  sel x' = true →
  qs sel l = Some (i, x) → qs sel (<[i:=x']> l) = Some (i, x').
Proof.
  intros Hx'. rewrite !qs_Some. intros (H1 & H2 & H3).
  split; [ | split; [done | ]].
  - apply list_lookup_insert_eq. by apply lookup_lt_Some in H1.
  - intros j y Hj Hlt. rewrite list_lookup_insert_ne in Hj by lia. eauto.
Qed.

Lemma qs_alter_position (f : A → A) (k : nat) (l : list A) :
  (∀ y, sel (f y) = sel y) →
  fst <$> qs sel (alter f k l) = fst <$> qs sel l.
Proof.
  intros Hf. unfold qs. revert k. induction l as [|x l IH]; intros k; [done | ].
  destruct k as [|k]; simpl.
  - rewrite Hf. destruct (sel x); simpl; [done | ]. repeat case_decide; done.
  - repeat case_decide; try done.
    specialize (IH k). unfold alter in IH.
    destruct (list_find sel (list_alter f k l)) as [[]|], (list_find sel l) as [[]|];
      simpl in *; congruence.
Qed.
End Lookup.

Lemma by_data_id_true (text : string) (n : ItemNode) :
  by_data_id text n = true ↔ data_id n = text.
Proof. unfold by_data_id. apply String.eqb_eq. Qed.

Lemma by_data_id_false (text : string) (n : ItemNode) :
  by_data_id text n = false ↔ data_id n ≠ text.
Proof. unfold by_data_id. apply String.eqb_neq. Qed.

Lemma by_href_true (text : string) (e : Element) :
  by_href text e = true ↔ href e = Some text.
Proof.
  unfold by_href. destruct (href e) as [h|]; [ | split; discriminate].
  rewrite String.eqb_eq. split; congruence.
Qed.

Lemma qs_data_id_absent (text : string) (l : list ItemNode) :
  (∀ n, n ∈ l → data_id n ≠ text) → qs (by_data_id text) l = None.
Proof.
  intros H. apply qs_None. intros n Hn. apply by_data_id_false. auto.
Qed.

(** ** Updates of the page *)

Section Updates.
Context (s : Surface) (i : nat).

Lemma items_Some (n : ItemNode) :
  items s !! i = Some n → todoList s = Some (items s).
Proof.
  unfold items. destruct (todoList s); simpl; [reflexivity | ].
  rewrite lookup_nil. discriminate.
Qed.

Lemma items_modify_item (f : ItemNode → ItemNode) :
  items (modify_item i f s) = alter f i (items s).
Proof.
  unfold modify_item, modify_items, items.
  destruct (todoList s) eqn:E; simpl; rewrite ?E; reflexivity.
Qed.

Lemma items_modify_items_insert (n : ItemNode) :
  items (modify_items (<[i := n]>) s) = <[i := n]> (items s).
Proof.
  unfold modify_items, items.
  destruct (todoList s) eqn:E; simpl; rewrite ?E; reflexivity.
Qed.

Lemma modify_item_at (f : ItemNode → ItemNode) (n : ItemNode) :
  items s !! i = Some n → modify_item i f s = modify_items (<[i := f n]>) s.
Proof.
  intros Hi. pose proof (items_Some _ Hi) as Hl.
  unfold modify_item, modify_items. rewrite Hl. f_equal.
  rewrite list_insert_alter. apply list_alter_ext; [ | done].
  intros x Hx. congruence.
Qed.

Lemma modify_item_twice (f g : ItemNode → ItemNode) :
  modify_item i f (modify_item i g s) = modify_item i (f ∘ g) s.
Proof.
  unfold modify_item, modify_items.
  destruct (todoList s) eqn:E; simpl; rewrite ?E; [ | reflexivity].
  by rewrite list_alter_alter_eq.
Qed.

Lemma modify_items_twice (f g : list ItemNode → list ItemNode) :
  modify_items f (modify_items g s) = modify_items (f ∘ g) s.
Proof.
  unfold modify_items. destruct (todoList s) eqn:E; simpl; rewrite ?E; reflexivity.
Qed.

Lemma modify_item_ext (f g : ItemNode → ItemNode) (item : ItemNode) :
  items s !! i = Some item → f item = g item → modify_item i f s = modify_item i g s.
Proof.
  intros Hi Hfg. by rewrite !(modify_item_at _ _ Hi), Hfg.
Qed.

Lemma modify_items_insert_same (n : ItemNode) :
  items s !! i = Some n → modify_items (<[i := n]>) s = s.
Proof.
  intros Hi. pose proof (items_Some _ Hi) as Hl.
  unfold modify_items. rewrite Hl. rewrite list_insert_id by done.
  destruct s; simpl in *. by rewrite Hl.
Qed.

Context (j : nat).

Lemma modify_element_twice (f g : Element → Element) :
  modify_element i j f (modify_element i j g s) = modify_element i j (f ∘ g) s.
Proof.
  unfold modify_element. rewrite modify_item_twice.
  unfold modify_item, modify_items. destruct (todoList s); [ | reflexivity].
  f_equal. apply list_alter_ext; [ | done]. intros n _. unfold compose; simpl.
  by rewrite list_alter_alter_eq.
Qed.

Lemma modify_element_ext (f g : Element → Element) (item : ItemNode) (e : Element) :
  items s !! i = Some item → elements item !! j = Some e → f e = g e →
  modify_element i j f s = modify_element i j g s.
Proof.
  intros Hi Hj Hfg. unfold modify_element. apply (modify_item_ext _ _ _ Hi).
  f_equal. apply list_alter_ext; [ | done]. intros x Hx. congruence.
Qed.

Lemma items_modify_element (f : Element → Element) (item : ItemNode) :
  items s !! i = Some item →
  items (modify_element i j f s) !! i = Some (set_elements (alter f j (elements item)) item).
Proof.
  intros Hi. unfold modify_element. rewrite items_modify_item.
  by rewrite list_lookup_alter_eq, Hi.
Qed.

Lemma element_at_Some (item : ItemNode) (e : Element) :
  items s !! i = Some item → elements item !! j = Some e → element_at s i j = Some e.
Proof. intros Hi Hj. unfold element_at. rewrite Hi. simpl. exact Hj. Qed.

Lemma element_at_modify_element (f : Element → Element) (item : ItemNode) (e : Element) :
  items s !! i = Some item → elements item !! j = Some e →
  element_at (modify_element i j f s) i j = Some (f e).
Proof.
  intros Hi Hj. unfold element_at. rewrite (items_modify_element _ _ Hi). simpl.
  by rewrite list_lookup_alter_eq, Hj.
Qed.
End Updates.

Lemma set_surface_same (w : World) : set_surface (surface w) w = w.
Proof. by destruct w. Qed.

(** ** Numbers as text *)

Lemma string_of_uint_literal (d : Decimal.uint) :
  css_string_literal (NilEmpty.string_of_uint d) = true.
Proof. induction d; simpl; auto. Qed.

Lemma number_to_string_literal (n : number) :
  css_string_literal (number_to_string n) = true.
Proof.
  destruct n as [z|]; [ | reflexivity].
  unfold number_to_string. destruct (Z.to_int z); simpl; apply string_of_uint_literal.
Qed.

Lemma quoted_number (n : number) (w : World) :
  quoted (number_to_string n) w = Return (number_to_string n) w.
Proof. unfold quoted. by rewrite number_to_string_literal. Qed.

Lemma digit_prefix_string_of_uint (d : Decimal.uint) :
  digit_prefix (NilEmpty.string_of_uint d) = NilEmpty.string_of_uint d.
Proof. induction d; simpl; congruence. Qed.

Lemma digits_value_string_of_uint (d : Decimal.uint) :
  d ≠ Decimal.Nil →
  digits_value (NilEmpty.string_of_uint d) = Int (Z.of_uint d).
Proof.
  intros Hd. unfold digits_value. rewrite NilEmpty.usu.
  by destruct d.
Qed.

Lemma parseInt10_string_of_uint (d : Decimal.uint) :
  d ≠ Decimal.Nil →
  parseInt10 (NilEmpty.string_of_uint d) = Int (Z.of_uint d).
Proof.
  intros Hd. rewrite <- (digits_value_string_of_uint d Hd).
  rewrite <- (digit_prefix_string_of_uint d) at 2.
  by destruct d.
Qed.

Lemma to_int_nonnil (z : Z) :
  match Z.to_int z with Decimal.Pos d | Decimal.Neg d => d ≠ Decimal.Nil end.
Proof. destruct z; simpl; [done | apply Unsigned.to_uint_nonnil ..]. Qed.

(** [parseInt] reads back the decimal text of a number, so [_itemId] gives
    the id that the item was rendered with. *)
Lemma parseInt_number_to_string (n : number) :
  parseInt (VString (number_to_string n)) = n.
Proof.
  destruct n as [z|]; [ | reflexivity].
  unfold parseInt. simpl ToString. unfold number_to_string.
  pose proof (DecimalZ.of_to z) as Hz. pose proof (to_int_nonnil z) as Hd.
  destruct (Z.to_int z) as [d|d]; simpl in Hz.
  - simpl. rewrite (parseInt10_string_of_uint d Hd). by rewrite Hz.
  - simpl NilEmpty.string_of_int. unfold parseInt10. simpl trim_left.
    cbv iota beta.
    rewrite digit_prefix_string_of_uint, (digits_value_string_of_uint d Hd).
    simpl. by rewrite Hz.
Qed.

(** ** render: the table of commands *)

Lemma not_in_cons_eqb (x y : string) (l : list string) :
  x ∉ y :: l → String.eqb x y = false ∧ x ∉ l.
Proof.
  intros H. split.
  - apply String.eqb_neq. intros ->. apply H. left.
  - intros Hin. apply H. by right.
Qed.

Lemma viewCommands_unknown (viewCmd : string) :
  viewCmd ∉ command_names → viewCommands !! viewCmd = None.
Proof.
  intros H. apply not_elem_of_list_to_map_1. exact H.
Qed.

Lemma Object_prototype_lookup (name : string) (member : Inherited) :
  Object_prototype !! name = Some member →
  call_inherited member = inr tt ∧ name ∈ inherited_callable ∨
  call_inherited member = inl TypeError ∧ name ∉ inherited_callable.
Proof.
  intros H. apply elem_of_list_to_map_2 in H.
  repeat (apply elem_of_cons in H as [H | H];
          [ injection H as -> ->; first [ left; split; [reflexivity | decide_now]
                                        | right; split; [reflexivity | decide_now] ] | ]).
  by apply elem_of_nil in H.
Qed.

Lemma Object_prototype_callable (name : string) :
  name ∈ inherited_callable →
  ∃ member, Object_prototype !! name = Some member ∧ call_inherited member = inr tt.
Proof.
  intros H. unfold inherited_callable in H.
  repeat (apply elem_of_cons in H as [-> | H]; [eexists; split; reflexivity | ]).
  by apply elem_of_nil in H.
Qed.

(** C4, as amended.  For every name that is not a command, [render] leaves
    the world as it is; it throws a TypeError unless the name is one of the
    members that the table of commands inherits from [Object.prototype] and
    that return when called without arguments (constructor, toString,
    toLocaleString, valueOf, hasOwnProperty, isPrototypeOf,
    propertyIsEnumerable, __lookupGetter__, __lookupSetter__), in which case
    it returns. *)
Theorem render_unknown_command (self : View) (viewCmd : string) (parameter : value)
    (w : World) :
  viewCmd ∉ command_names →
  render self viewCmd parameter w
  = if bool_decide (viewCmd ∈ inherited_callable) then Return tt w else Throw TypeError w.
Proof.
  intros H. unfold render. rewrite (viewCommands_unknown _ H).
  destruct (Object_prototype !! viewCmd) as [member|] eqn:E.
  - destruct (Object_prototype_lookup _ _ E) as [[-> Hin] | [-> Hin]]; simpl.
    + by rewrite bool_decide_true.
    + by rewrite bool_decide_false.
  - rewrite bool_decide_false; [reflexivity | ].
    intros Hin. destruct (Object_prototype_callable _ Hin) as (m & Hm & _). congruence.
Qed.

Lemma render_unknown_command_witness :
  ("refresh" ∉ command_names) ∧
  render sample_view "refresh" VUndefined sample_world = Throw TypeError sample_world.
Proof.
  assert (H : "refresh" ∉ command_names) by decide_now.
  split; [exact H | ].
  exact (render_unknown_command sample_view "refresh" VUndefined sample_world H).
Defined.

(** C4 as stated fails: toString is not a command, and rendering it returns
    without a fault. *)
Lemma render_toString_returns :
  ("toString" ∉ command_names) ∧
  render sample_view "toString" VUndefined sample_world = Return tt sample_world.
Proof. split; [decide_now | reflexivity]. Qed.

(** ** render: the cached elements *)

(** C1, as amended.  When one of the cached elements was not found by the
    constructor, each command that writes to it (showEntries to the list,
    updateElementCount to the counter, clearCompletedButton to the clear
    button, contentBlockVisibility to the main and footer regions, toggleAll
    to the toggle-all control, clearNewTodo to the new-item input) throws a
    TypeError and leaves the world unchanged. *)
Theorem render_absent_anchor_faults (self : View) (viewCmd : string) (r : Region)
    (parameter : value) (w : World) :
  (viewCmd, r) ∈ writes_to →
  absent (surface w) r →
  render self viewCmd parameter w = Throw TypeError w.
Proof.
  intros H Habs. unfold writes_to in H.
  repeat (apply elem_of_cons in H as [H | H];
          [injection H as -> ->; simpl in Habs | ]);
    try (by apply elem_of_nil in H).
  all: render_command; run; try (rewrite Habs; reflexivity).
  - destruct parameter; simpl; try reflexivity;
      unfold _clearCompletedButton; run; rewrite Habs; reflexivity.
  - destruct (main (surface w)); rewrite ?Habs; reflexivity.
Qed.

Lemma render_absent_anchor_faults_witness :
  (("toggleAll", toggle_all_control) ∈ writes_to) ∧
  absent (set_footer (createElement "footer") (mkSurface None None None None None None None []))
         toggle_all_control ∧
  render sample_view "toggleAll" (VObject [("checked", VBool true)])
    (mkWorld (set_footer (createElement "footer")
                (mkSurface None None None None None None None [])) [] [] [] [])
  = Throw TypeError
      (mkWorld (set_footer (createElement "footer")
                  (mkSurface None None None None None None None [])) [] [] [] []).
Proof.
  assert (H : ("toggleAll", toggle_all_control) ∈ writes_to) by decide_now.
  split; [exact H | split; [reflexivity | ]].
  exact (render_absent_anchor_faults sample_view "toggleAll" toggle_all_control
           (VObject [("checked", VBool true)])
           (mkWorld (set_footer (createElement "footer")
                       (mkSurface None None None None None None None [])) [] [] [] [])
           H eq_refl).
Defined.

(** C1 as stated fails: without a list container, showEntries is a fault,
    not a silent no-op. *)
Lemma showEntries_without_list_faults :
  todoList (surface world_without_list) = None ∧
  render sample_view "showEntries" (VArray [todo 1 "A" false]) world_without_list
  = Throw TypeError world_without_list.
Proof. split; reflexivity. Qed.

(** C7, as amended.  [render ('clearCompletedButton', p)] reads the fields
    [completed] and [visible] of [p]: the content of the clear button
    becomes what the template builds from [p.completed], and the button is
    displayed ('block') exactly when [p.visible] is truthy, hidden ('none')
    otherwise.  Everything else stays as it is. *)
Theorem render_clearCompletedButton (self : View) (parameter completed visible : value)
    (button : Element) (w : World) :
  clearCompleted (surface w) = Some button →
  Get parameter "completed" = inr completed →
  Get parameter "visible" = inr visible →
  ∃ button',
    render self "clearCompletedButton" parameter w
    = Return tt (set_surface (set_clearCompleted button' (surface w)) w) ∧
    button' = set_display (if ToBoolean visible then "block" else "none")
                (set_content (Markup (clearCompletedButton (template self) completed)) button) ∧
    (display button' = "block" ↔ ToBoolean visible = true).
Proof.
  intros Hb Hc Hv. eexists. split; [ | split; [reflexivity | ]].
  - render_command; run. rewrite Hc, Hv. unfold _clearCompletedButton; run.
    rewrite Hb. reflexivity.
  - simpl. destruct (ToBoolean visible); split; intros; congruence.
Qed.

Lemma render_clearCompletedButton_witness :
  clearCompleted (surface sample_world) = Some (createElement "button") ∧
  Get (VObject [("completed", VNumber (Int 3)); ("visible", VBool true)]) "completed"
  = inr (VNumber (Int 3)) ∧
  Get (VObject [("completed", VNumber (Int 3)); ("visible", VBool true)]) "visible"
  = inr (VBool true) ∧
  ∃ button',
    render sample_view "clearCompletedButton"
      (VObject [("completed", VNumber (Int 3)); ("visible", VBool true)]) sample_world
    = Return tt (set_surface (set_clearCompleted button' (surface sample_world)) sample_world) ∧
    button' = set_display "block" (set_content (Markup "Clear completed") (createElement "button")) ∧
    (display button' = "block" ↔ true = true).
Proof.
  split; [reflexivity | split; [reflexivity | split; [reflexivity | ]]].
  exact (render_clearCompletedButton sample_view
           (VObject [("completed", VNumber (Int 3)); ("visible", VBool true)])
           (VNumber (Int 3)) (VBool true) (createElement "button") sample_world
           eq_refl eq_refl eq_refl).
Defined.

(** C7 as stated fails: with a parameter of the shape {completedCount,
    visible} the label is not what the template builds from completedCount
    (here the template gives a non-empty label for 3, and the button gets
    the empty one). *)
Lemma clearCompletedButton_ignores_completedCount :
  ∃ w',
    render sample_view "clearCompletedButton" parameter_completedCount sample_world
    = Return tt w' ∧
    (content <$> clearCompleted (surface w')) = Some (Markup "") ∧
    clearCompletedButton (template sample_view) (VNumber (Int 3)) = "Clear completed".
Proof. eexists. split; [reflexivity | split; reflexivity]. Qed.

(** ** render: the commands about one item *)

Lemma removeItem_absent (id : number) (w : World) :
  (∀ n, n ∈ items (surface w) → data_id n ≠ number_to_string id) →
  _removeItem (VNumber id) w = Return tt w.
Proof.
  intros H. apply qs_data_id_absent in H.
  unfold _removeItem; run. simpl ToString. rewrite quoted_number. run.
  simpl surface. rewrite H. reflexivity.
Qed.

(** C3, as amended.  When the id is a safe integer and no item node
    carries it, the commands that address an item by its id (removeItem,
    elementComplete, editItem, editItemDone) return without a fault and
    leave the world unchanged. *)
Theorem render_absent_item_noop (self : View) (id : number) (completed title : value)
    (w : World) :
  safe_integer id →
  (∀ n, n ∈ items (surface w) → data_id n ≠ number_to_string id) →
  render self "removeItem" (VNumber id) w = Return tt w ∧
  render self "elementComplete"
    (VObject [("id", VNumber id); ("completed", completed)]) w = Return tt w ∧
  render self "editItem" (edit_parameter id title) w = Return tt w ∧
  render self "editItemDone" (edit_parameter id title) w = Return tt w.
Proof.
  intros _ H. apply qs_data_id_absent in H.
  repeat split; render_command; run; simpl;
    unfold _removeItem, _elementComplete, _editItem, _editItemDone; run;
    simpl ToString; rewrite quoted_number; run; simpl surface; rewrite H; reflexivity.
Qed.

Lemma render_absent_item_noop_witness :
  safe_integer (Int 9) ∧
  (∀ n, n ∈ items (surface sample_world) → data_id n ≠ number_to_string (Int 9)) ∧
  render sample_view "removeItem" (VNumber (Int 9)) sample_world = Return tt sample_world ∧
  render sample_view "elementComplete"
    (VObject [("id", VNumber (Int 9)); ("completed", VBool true)]) sample_world
  = Return tt sample_world ∧
  render sample_view "editItem" (edit_parameter (Int 9) (VString "A")) sample_world
  = Return tt sample_world ∧
  render sample_view "editItemDone" (edit_parameter (Int 9) (VString "A")) sample_world
  = Return tt sample_world.
Proof.
  assert (H : ∀ n, n ∈ items (surface sample_world) → data_id n ≠ number_to_string (Int 9)).
  { intros n Hn. vm_compute in Hn.
    repeat (apply elem_of_cons in Hn as [-> | Hn]; [discriminate | ]).
    by apply elem_of_nil in Hn. }
  assert (Hsafe : safe_integer (Int 9)) by (unfold safe_integer, MAX_SAFE_INTEGER; lia).
  split; [exact Hsafe | split; [exact H | ]].
  exact (render_absent_item_noop sample_view (Int 9) (VBool true) (VString "A")
           sample_world Hsafe H).
Defined.

(** C3 as stated fails: setFilter on a page where no filter link is marked,
    and editItemDone on an item that has no edit field, throw a TypeError. *)
Lemma setFilter_without_selected_faults :
  qs (by_class "selected") (filters (surface world_without_selected)) = None ∧
  render sample_view "setFilter" (VString "active") world_without_selected
  = Throw TypeError world_without_selected ∧
  (∃ item, qs (by_data_id "1") (items (surface sample_world)) = Some (0, item) ∧
           qs (by_tag_class "input" "edit") (elements item) = None) ∧
  render sample_view "editItemDone" (edit_parameter (Int 1) (VString "B")) sample_world
  = Throw TypeError sample_world.
Proof.
  split; [reflexivity | split; [reflexivity | split; [ | reflexivity]]].
  eexists. split; reflexivity.
Qed.

(** C6.  On a list in which no two item nodes carry the same id, and for
    [id] a safe integer,
    [render ('removeItem', id)] returns; when no node carries the id the
    world is unchanged; otherwise the list is [before ++ node :: after]
    with [node] the one that carries the id, and it becomes
    [before ++ after], nothing else changing; and a second call right after
    changes nothing. *)
Theorem removeItem_removes_exactly (self : View) (id : number) (w : World) :
  safe_integer id →
  NoDup (data_id <$> items (surface w)) →
  ∃ w',
    render self "removeItem" (VNumber id) w = Return tt w' ∧
    render self "removeItem" (VNumber id) w' = Return tt w' ∧
    ((w' = w ∧ ∀ n, n ∈ items (surface w) → data_id n ≠ number_to_string id) ∨
     (∃ before node after,
        items (surface w) = (before ++ node :: after)%list ∧
        data_id node = number_to_string id ∧
        w' = set_surface (set_todoList (before ++ after)%list (surface w)) w ∧
        ∀ n, n ∈ (before ++ after)%list → data_id n ≠ number_to_string id)).
Proof.
  intros _ Hnodup. render_command. cbn [run_command].
  destruct (qs (by_data_id (number_to_string id)) (items (surface w)))
    as [[i node]|] eqn:Hqs.
  - pose proof (proj1 (qs_Some _ _ _ _) Hqs) as (Hi & Hid & _).
    apply by_data_id_true in Hid.
    pose proof (items_Some _ _ _ Hi) as Hlist.
    pose proof (take_drop_middle _ _ _ Hi) as Hsplit.
    set (before := take i (items (surface w))) in *.
    set (after := drop (S i) (items (surface w))) in *.
    assert (Hfresh : ∀ n, n ∈ (before ++ after)%list → data_id n ≠ number_to_string id).
    { rewrite <- Hsplit in Hnodup. rewrite fmap_app, fmap_cons in Hnodup.
      apply NoDup_app in Hnodup as (_ & Hb & Ha). apply NoDup_cons in Ha as (Ha & _).
      intros n Hn Heq. apply elem_of_app in Hn as [Hn | Hn].
      - apply (Hb (data_id n)); [by apply list_elem_of_fmap_2 | rewrite Heq, Hid; left].
      - apply Ha. rewrite Hid, <- Heq. by apply list_elem_of_fmap_2. }
    exists (set_surface (set_todoList (before ++ after)%list (surface w)) w).
    split; [ | split].
    + unfold _removeItem; run. simpl ToString. rewrite quoted_number. run.
      simpl surface. rewrite Hqs. run. rewrite Hlist. simpl.
      rewrite delete_take_drop. reflexivity.
    + apply removeItem_absent. exact Hfresh.
    + right. exists before, node, after. by rewrite Hsplit.
  - exists w. pose proof (proj1 (qs_None _ _) Hqs) as Hnone.
    assert (Habs : ∀ n, n ∈ items (surface w) → data_id n ≠ number_to_string id).
    { intros n Hn. apply by_data_id_false. auto. }
    split; [by apply removeItem_absent | split; [by apply removeItem_absent | by left]].
Qed.

Lemma removeItem_removes_exactly_witness :
  safe_integer (Int 1) ∧
  NoDup (data_id <$> items (surface sample_world)) ∧
  ∃ w',
    render sample_view "removeItem" (VNumber (Int 1)) sample_world = Return tt w' ∧
    render sample_view "removeItem" (VNumber (Int 1)) w' = Return tt w' ∧
    ((w' = sample_world ∧
      ∀ n, n ∈ items (surface sample_world) → data_id n ≠ number_to_string (Int 1)) ∨
     (∃ before node after,
        items (surface sample_world) = (before ++ node :: after)%list ∧
        data_id node = number_to_string (Int 1) ∧
        w' = set_surface (set_todoList (before ++ after)%list (surface sample_world))
               sample_world ∧
        ∀ n, n ∈ (before ++ after)%list → data_id n ≠ number_to_string (Int 1))).
Proof.
  assert (H : NoDup (data_id <$> items (surface sample_world))) by decide_now.
  assert (Hsafe : safe_integer (Int 1)) by (unfold safe_integer, MAX_SAFE_INTEGER; lia).
  split; [exact Hsafe | split; [exact H | ]].
  exact (removeItem_removes_exactly sample_view (Int 1) sample_world Hsafe H).
Defined.

Lemma elementComplete_present (id : number) (completed : value) (w : World)
    (i j : nat) (listItem : ItemNode) (input : Element) :
  qs (by_data_id (number_to_string id)) (items (surface w)) = Some (i, listItem) →
  qs (by_tag "input") (elements listItem) = Some (j, input) →
  _elementComplete (VNumber id) completed w
  = Return tt (set_surface
      (modify_items (<[i := completed_item (ToBoolean completed) j listItem]>) (surface w)) w).
Proof.
  intros Hi Hj. pose proof (proj1 (qs_Some _ _ _ _) Hi) as (Hi' & _).
  unfold _elementComplete; run. simpl ToString. rewrite quoted_number. run.
  simpl surface. rewrite Hi. run. rewrite Hj. run. simpl.
  unfold modify_element. rewrite modify_item_twice.
  rewrite modify_item_at with (n := listItem) by done. reflexivity.
Qed.

Lemma render_elementComplete (self : View) (id : number) (completed : bool) :
  render self "elementComplete" (complete_parameter id completed)
  = _elementComplete (VNumber id) (VBool completed).
Proof. reflexivity. Qed.

Lemma completed_item_twice (b c : bool) (j : nat) (listItem : ItemNode) :
  completed_item b j (completed_item c j listItem) = completed_item b j listItem.
Proof.
  unfold completed_item; simpl. f_equal.
  rewrite list_alter_alter_eq. by apply list_alter_ext.
Qed.

(** C9, as amended.  For an item node on the page that has a checkbox, and
    a safe integer for its id,
    [render ('elementComplete', {id, completed: true})] followed by
    [render ('elementComplete', {id, completed: false})] leaves the node
    with the empty class and the checkbox unchecked, whatever they were
    before, and changes nothing else; the world is as before the two calls
    exactly when the node had the empty class and an unchecked checkbox. *)
Theorem elementComplete_pair (self : View) (id : number) (w : World)
    (i j : nat) (listItem : ItemNode) (input : Element) :
  safe_integer id →
  qs (by_data_id (number_to_string id)) (items (surface w)) = Some (i, listItem) →
  qs (by_tag "input") (elements listItem) = Some (j, input) →
  ∃ w',
    (render self "elementComplete" (complete_parameter id true);;
     render self "elementComplete" (complete_parameter id false)) w = Return tt w' ∧
    w' = set_surface (modify_items (<[i := completed_item false j listItem]>) (surface w)) w ∧
    (w' = w ↔ li_className listItem = "" ∧ checked input = false).
Proof.
  intros _ Hi Hj.
  pose proof (proj1 (qs_Some _ _ _ _) Hi) as (Hi' & Hsel & _).
  pose proof (proj1 (qs_Some _ _ _ _) Hj) as (Hj' & Htag & _).
  eexists. split; [ | split; [reflexivity | ]].
  - rewrite !render_elementComplete. unfold mbind, M_bind.
    rewrite (elementComplete_present _ _ _ _ _ _ _ Hi Hj). simpl ToBoolean.
    set (w1 := set_surface _ w).
    assert (Hi1 : qs (by_data_id (number_to_string id)) (items (surface w1))
                  = Some (i, completed_item true j listItem)).
    { subst w1. simpl surface. rewrite items_modify_items_insert.
      eapply qs_insert; [ | exact Hi]. exact Hsel. }
    assert (Hj1 : qs (by_tag "input") (elements (completed_item true j listItem))
                  = Some (j, set_checked true input)).
    { simpl. eapply qs_alter; [ | exact Hj]. reflexivity. }
    rewrite (elementComplete_present _ _ _ _ _ _ _ Hi1 Hj1). simpl ToBoolean.
    rewrite completed_item_twice. subst w1. unfold set_surface; simpl.
    rewrite modify_items_twice. do 2 f_equal.
    unfold modify_items, compose. destruct (todoList (surface w)); [ | reflexivity].
    by rewrite list_insert_insert_eq.
  - split.
    + intros Heq. apply (f_equal (fun w => items (surface w) !! i)) in Heq.
      simpl in Heq. rewrite items_modify_items_insert in Heq.
      rewrite list_lookup_insert_eq in Heq by (by apply lookup_lt_Some in Hi').
      rewrite Hi' in Heq. injection Heq as Heq.
      split; [by rewrite <- Heq | ].
      apply (f_equal (fun n => checked <$> elements n !! j)) in Heq. simpl in Heq.
      rewrite list_lookup_alter_eq, Hj' in Heq. simpl in Heq. congruence.
    + intros [Hc Hk].
      assert (Hsame : completed_item false j listItem = listItem).
      { unfold completed_item. destruct listItem as [d c els]; simpl in *. subst c.
        f_equal. rewrite <- (list_alter_id (fun e => e) els j) at 2 by done.
        apply list_alter_ext; [ | done]. intros x Hx.
        assert (x = input) as -> by congruence.
        destruct input; simpl in *. by subst. }
      rewrite Hsame. rewrite modify_items_insert_same by done.
      apply set_surface_same.
Qed.

Lemma elementComplete_pair_witness :
  safe_integer (Int 1) ∧
  (∃ listItem input,
     qs (by_data_id (number_to_string (Int 1))) (items (surface sample_world))
     = Some (0, listItem) ∧
     qs (by_tag "input") (elements listItem) = Some (0, input) ∧
     ∃ w',
       (render sample_view "elementComplete" (complete_parameter (Int 1) true);;
        render sample_view "elementComplete" (complete_parameter (Int 1) false)) sample_world
       = Return tt w' ∧
       w' = set_surface (modify_items (<[0 := completed_item false 0 listItem]>)
                           (surface sample_world)) sample_world ∧
       (w' = sample_world ↔ li_className listItem = "" ∧ checked input = false)).
Proof.
  assert (Hsafe : safe_integer (Int 1)) by (unfold safe_integer, MAX_SAFE_INTEGER; lia).
  split; [exact Hsafe | ].
  eexists _, _.
  assert (Hi : qs (by_data_id (number_to_string (Int 1))) (items (surface sample_world))
               = Some (0, sample_item (todo 1 "A" false))) by reflexivity.
  assert (Hj : qs (by_tag "input") (elements (sample_item (todo 1 "A" false)))
               = Some (0, sample_checkbox "toggle" false))
    by reflexivity.
  split; [exact Hi | split; [exact Hj | ]].
  exact (elementComplete_pair sample_view (Int 1) sample_world 0 0 _ _ Hsafe Hi Hj).
Defined.

(** C9 as stated fails: an item that is rendered completed (class
    'completed', checkbox checked) is left with the empty class and an
    unchecked checkbox by the two calls. *)
Lemma elementComplete_pair_resets_completed_item :
  ∃ w',
    (render sample_view "elementComplete" (complete_parameter (Int 2) true);;
     render sample_view "elementComplete" (complete_parameter (Int 2) false)) sample_world
    = Return tt w' ∧
    (li_className <$> items (surface sample_world) !! 1) = Some "completed" ∧
    (li_className <$> items (surface w') !! 1) = Some "" ∧
    (checked <$> element_at (surface sample_world) 1 0) = Some true ∧
    (checked <$> element_at (surface w') 1 0) = Some false.
Proof. eexists. repeat split; reflexivity. Qed.

(** ** render: the filter links *)

Lemma links_present_alter (c : string) (i : nat) (l : list Element) :
  links_present l → links_present (alter (set_className c) i l).
Proof.
  intros H page Hp. destruct (H page Hp) as (e & He & Hh).
  apply list_elem_of_lookup in He as [k Hk].
  destruct (decide (i = k)) as [-> | Hne].
  - exists (set_className c e). split; [ | exact Hh].
    apply list_elem_of_lookup. exists k. by rewrite list_lookup_alter_eq, Hk.
  - exists e. split; [ | exact Hh].
    apply list_elem_of_lookup. exists k. by rewrite list_lookup_alter_ne.
Qed.

Lemma page_name_literal (page : string) :
  page ∈ page_names → css_string_literal ("#/" ++ page) = true.
Proof.
  intros H. unfold page_names in H.
  repeat (apply elem_of_cons in H as [-> | H]; [reflexivity | ]).
  by apply elem_of_nil in H.
Qed.

(** The first statement of [_setFilter] takes the marker off the one link
    that carries it. *)
Lemma unmark_step (w : World) (k : nat) :
  only_marked (filters (surface w)) k →
  _setFilter_unmark w
  = Return tt (set_surface (set_filters (alter (set_className "") k (filters (surface w)))
                              (surface w)) w) ∧
  none_marked (alter (set_className "") k (filters (surface w))).
Proof.
  intros [[e He] Hk].
  assert (Hq : qs (by_class "selected") (filters (surface w)) = Some (k, e)).
  { apply qs_Some. split; [done | split; [by apply (Hk k e) | ]].
    intros j y Hj Hlt. destruct (by_class "selected" y) eqn:Ey; [ | done].
    apply (Hk j y Hj) in Ey. lia. }
  split.
  - unfold _setFilter_unmark; run. rewrite Hq. reflexivity.
  - intros x Hx. apply list_elem_of_lookup in Hx as [j Hj].
    destruct (decide (k = j)) as [-> | Hne].
    + rewrite list_lookup_alter_eq, He in Hj. injection Hj as <-. reflexivity.
    + rewrite list_lookup_alter_ne in Hj by done.
      destruct (by_class "selected" x) eqn:Ex; [ | done].
      apply (Hk j x Hj) in Ex. congruence.
Qed.

(** The second statement puts it on the first link of the page. *)
Lemma mark_step (page : string) (w : World) :
  page ∈ page_names →
  links_present (filters (surface w)) →
  none_marked (filters (surface w)) →
  ∃ i,
    _setFilter_mark (VString page) w
    = Return tt (set_surface (set_filters (alter (set_className "selected") i (filters (surface w)))
                                (surface w)) w) ∧
    link_of_page (filters (surface w)) i page ∧
    only_marked (alter (set_className "selected") i (filters (surface w))) i.
Proof.
  intros Hp Hl Hn.
  destruct (qs (by_href ("#/" ++ page)) (filters (surface w))) as [[i link]|] eqn:Hq.
  - exists i. pose proof (proj1 (qs_Some _ _ _ _) Hq) as (Hi & _).
    split; [ | split].
    + unfold _setFilter_mark; run. simpl ToString. unfold quoted.
      rewrite (page_name_literal _ Hp). run. rewrite Hq. reflexivity.
    + unfold link_of_page. by rewrite Hq.
    + split; [rewrite list_lookup_alter_eq, Hi; by eexists | ].
      intros k e Hk. destruct (decide (i = k)) as [-> | Hne].
      * rewrite list_lookup_alter_eq, Hi in Hk. injection Hk as <-. done.
      * rewrite list_lookup_alter_ne in Hk by done.
        rewrite (Hn e) by (apply list_elem_of_lookup; eauto). split; [done | congruence].
  - exfalso. destruct (Hl page Hp) as (e & He & Hh).
    pose proof (proj1 (qs_None _ _) Hq e He) as Hf.
    apply by_href_true in Hh. congruence.
Qed.

Lemma setFilter_step (self : View) (page : string) (w : World) (k : nat) :
  page ∈ page_names →
  links_present (filters (surface w)) →
  only_marked (filters (surface w)) k →
  ∃ between w' i,
    _setFilter_unmark w = Return tt between ∧
    none_marked (filters (surface between)) ∧
    _setFilter_mark (VString page) between = Return tt w' ∧
    render self "setFilter" (VString page) w = Return tt w' ∧
    only_marked (filters (surface w')) i ∧
    link_of_page (filters (surface w')) i page ∧
    links_present (filters (surface w')).
Proof.
  intros Hp Hl Hk. destruct (unmark_step w k Hk) as [Hu Hn].
  set (between := set_surface _ w) in Hu.
  assert (Hl' : links_present (filters (surface between))).
  { by apply links_present_alter. }
  destruct (mark_step page between Hp Hl' Hn) as (i & Hm & Hlink & Honly).
  eexists between, _, i. split; [exact Hu | split; [exact Hn | split; [exact Hm | ]]].
  split; [ | split; [exact Honly | split]].
  - render_command. cbn [run_command]. unfold _setFilter, mbind, M_bind.
    rewrite Hu. exact Hm.
  - unfold link_of_page in *. simpl. by rewrite qs_alter_position.
  - by apply links_present_alter.
Qed.

(** C8.  On a page that has a filter link for each of the page names '',
    'active' and 'completed' and on which exactly one link carries the
    'selected' class: after [render ('setFilter', p)] exactly one link
    carries the class, and it is the link of [p]; after a following
    [render ('setFilter', q)] exactly one link carries it, the link of [q];
    and between the two statements of each call no link carries it, so
    two links are never marked. *)
Theorem setFilter_single_marker (self : View) (p q : string) (w : World) (k : nat) :
  p ∈ page_names →
  q ∈ page_names →
  links_present (filters (surface w)) →
  only_marked (filters (surface w)) k →
  ∃ w1 w2 i j,
    render self "setFilter" (VString p) w = Return tt w1 ∧
    only_marked (filters (surface w1)) i ∧
    link_of_page (filters (surface w1)) i p ∧
    render self "setFilter" (VString q) w1 = Return tt w2 ∧
    only_marked (filters (surface w2)) j ∧
    link_of_page (filters (surface w2)) j q ∧
    (∃ between,
       _setFilter_unmark w = Return tt between ∧
       none_marked (filters (surface between)) ∧
       _setFilter_mark (VString p) between = Return tt w1) ∧
    (∃ between,
       _setFilter_unmark w1 = Return tt between ∧
       none_marked (filters (surface between)) ∧
       _setFilter_mark (VString q) between = Return tt w2).
Proof.
  intros Hp Hq Hl Hk.
  destruct (setFilter_step self p w k Hp Hl Hk)
    as (b1 & w1 & i & Hu1 & Hn1 & Hm1 & Hr1 & Ho1 & Hlk1 & Hl1).
  destruct (setFilter_step self q w1 i Hq Hl1 Ho1)
    as (b2 & w2 & j & Hu2 & Hn2 & Hm2 & Hr2 & Ho2 & Hlk2 & _).
  exists w1, w2, i, j. repeat (split; [eassumption | ]).
  split; [exists b1 | exists b2]; auto.
Qed.

Lemma setFilter_single_marker_witness :
  ("active" ∈ page_names) ∧
  ("completed" ∈ page_names) ∧
  links_present (filters (surface sample_world)) ∧
  only_marked (filters (surface sample_world)) 0 ∧
  ∃ w1 w2 i j,
    render sample_view "setFilter" (VString "active") sample_world = Return tt w1 ∧
    only_marked (filters (surface w1)) i ∧
    link_of_page (filters (surface w1)) i "active" ∧
    render sample_view "setFilter" (VString "completed") w1 = Return tt w2 ∧
    only_marked (filters (surface w2)) j ∧
    link_of_page (filters (surface w2)) j "completed" ∧
    (∃ between,
       _setFilter_unmark sample_world = Return tt between ∧
       none_marked (filters (surface between)) ∧
       _setFilter_mark (VString "active") between = Return tt w1) ∧
    (∃ between,
       _setFilter_unmark w1 = Return tt between ∧
       none_marked (filters (surface between)) ∧
       _setFilter_mark (VString "completed") between = Return tt w2).
Proof.
  assert (Hp : "active" ∈ page_names) by decide_now.
  assert (Hq : "completed" ∈ page_names) by decide_now.
  assert (Hl : links_present (filters (surface sample_world))).
  { intros page Hpage. unfold page_names in Hpage.
    apply elem_of_cons in Hpage as [-> | Hpage].
    { exists (filter_link "#/" "selected"). split; [ | reflexivity].
      apply list_elem_of_lookup. by exists 0. }
    apply elem_of_cons in Hpage as [-> | Hpage].
    { exists (filter_link "#/active" ""). split; [ | reflexivity].
      apply list_elem_of_lookup. by exists 1. }
    apply elem_of_cons in Hpage as [-> | Hpage].
    { exists (filter_link "#/completed" ""). split; [ | reflexivity].
      apply list_elem_of_lookup. by exists 2. }
    by apply elem_of_nil in Hpage. }
  assert (Hk : only_marked (filters (surface sample_world)) 0).
  { split; [by eexists | ].
    intros [|[|[|k]]] e; simpl; intros He; try discriminate;
      injection He as <-; vm_compute; split; intros; congruence || lia. }
  split; [exact Hp | split; [exact Hq | split; [exact Hl | split; [exact Hk | ]]]].
  exact (setFilter_single_marker sample_view "active" "completed" sample_world 0 Hp Hq Hl Hk).
Defined.

(** ** bind *)

(** C10.  For every name that is not one of the eight event names, [bind]
    returns without a fault and leaves the world as it is: no subscription is
    registered, and no handler is called. *)
Theorem bind_unknown_event (self : View) (event : string) (handler : Handler) (w : World) :
  event ∉ event_names → bind self event handler w = Return tt w.
Proof.
  intros H. unfold bind, event_names in *.
  repeat (apply not_in_cons_eqb in H as [-> H]).
  reflexivity.
Qed.

Lemma bind_unknown_event_witness :
  ("refresh" ∉ event_names) ∧
  bind sample_view "refresh" (recorder 0) sample_world = Return tt sample_world.
Proof.
  assert (H : "refresh" ∉ event_names) by decide_now.
  split; [exact H | exact (bind_unknown_event sample_view "refresh" (recorder 0) sample_world H)].
Defined.

(** The same name given to [render] is a fault. *)
Lemma render_unknown_name_faults :
  render sample_view "refresh" VUndefined sample_world = Throw TypeError sample_world.
Proof. reflexivity. Qed.

Lemma event_names_enumerated (name : string) :
  name ∈ event_names ↔ ∃ e, name = event_name e.
Proof.
  split.
  - intros H. unfold event_names in H.
    repeat (apply elem_of_cons in H as [-> | H];
            [ first [ by exists ev_newTodo | by exists ev_removeCompleted
                    | by exists ev_toggleAll | by exists ev_itemEdit
                    | by exists ev_itemRemove | by exists ev_itemToggle
                    | by exists ev_itemEditDone | by exists ev_itemEditCancel ] | ]).
    by apply elem_of_nil in H.
  - intros [e ->]. destruct e; decide_now.
Qed.

Lemma bind_registers (self : View) (e : EventName) (handler : Handler) (w : World) :
  anchor_present (surface w) (bind_target e) = Some tt →
  bind self (event_name e) handler w
  = Return tt (with_listeners (listeners w ++ subscriptions e handler) w).
Proof.
  intros H.
  destruct e; simpl in H; unfold bind; simpl String.eqb; cbn iota;
    unfold _bindItemEditDone, _bindItemEditCancel, dollar_on, dollar_delegate, add_listener;
    run; simpl; rewrite ?H; simpl; rewrite ?H; simpl; try reflexivity.
  unfold with_listeners. simpl. by rewrite <- app_assoc.
Qed.

Lemma trigger_ready_target (s : Surface) (e : EventName) (i j : nat) :
  trigger_ready s e i j → anchor_present s (bind_target e) = Some tt.
Proof.
  destruct e; simpl; try (by intros [x ->]); try (by intros (x & -> & _));
    intros (item & el & Hi & _); apply items_Some in Hi; by rewrite Hi.
Qed.

Lemma subscriptions_registered (e : EventName) (h : Handler) :
  Forall registered (subscriptions e h).
Proof. apply Forall_forall. intros sub Hin. by exists e, h. Qed.

(** Whatever [bind] adds is one of the subscriptions above. *)
Lemma bind_keeps_registered (self : View) (name : string) (h : Handler) (w w' : World) :
  bind self name h w = Return tt w' →
  Forall registered (listeners w) → Forall registered (listeners w').
Proof.
  intros Hb Hreg. unfold bind in Hb.
  repeat match type of Hb with
  | (if String.eqb ?a ?b then _ else _) _ = _ => destruct (String.eqb a b)
  end;
  unfold _bindItemEditDone, _bindItemEditCancel, dollar_on, dollar_delegate, add_listener in Hb;
  revert Hb; run; wsimpl;
  repeat match goal with
  | |- context [anchor_present ?s ?a] => destruct (anchor_present s a); cbn beta iota
  end;
  intros Hb; inversion Hb; subst; clear Hb; wsimpl; try exact Hreg;
  repeat (apply Forall_app; split); try exact Hreg;
  apply Forall_singleton.
  - by exists ev_newTodo, h; left.
  - by exists ev_removeCompleted, h; left.
  - by exists ev_toggleAll, h; left.
  - by exists ev_itemEdit, h; left.
  - by exists ev_itemRemove, h; left.
  - by exists ev_itemToggle, h; left.
  - by exists ev_itemEditDone, h; left.
  - by exists ev_itemEditDone, h; right; left.
  - by exists ev_itemEditCancel, h; left.
Qed.

Lemma registered_cases (sub : Subscription) :
  registered sub →
  (sub_type sub ≠ blur ∧ sub_type sub ≠ keyup ∧ cancel_of sub = None ∧ done_of sub = None) ∨
  (∃ h, sub = mkSubscription the_todoList (Some sel_li_edit) blur (itemEditDone_blur h)) ∨
  (∃ h, sub = mkSubscription the_todoList (Some sel_li_edit) keyup (itemEditCancel_keyup h)).
Proof.
  intros (e & h & Hin).
  destruct e; simpl in Hin;
    repeat (apply elem_of_cons in Hin as [-> | Hin]); try (by apply elem_of_nil in Hin);
    first [ by left | right; left; by eexists | right; right; by eexists ].
Qed.

(** ** Event dispatch *)

(** *** Calls of handlers *)

Lemma invoke_quiet (h : Handler) (args : list value) (w : World) :
  leaves_page_alone h → invoke h args w = Return tt (called h args w).
Proof. intros H. unfold invoke, record_call; run. simpl. by rewrite H. Qed.

Lemma answered_quiet (h : Handler) (args : list value) (w : World) :
  leaves_page_alone h → answered h args w = called h args w.
Proof. intros H. unfold answered. by rewrite invoke_quiet. Qed.

Lemma calls_answered (h : Handler) (args : list value) (w : World) :
  calls (answered h args w) = (calls w ++ [mkInvocation h args])%list.
Proof.
  unfold answered, invoke, record_call; run. simpl.
  by destruct (handler_body h args (surface w)).
Qed.

Lemma listeners_answered (h : Handler) (args : list value) (w : World) :
  listeners (answered h args w) = listeners w.
Proof.
  unfold answered, invoke, record_call; run. simpl.
  by destruct (handler_body h args (surface w)).
Qed.

Lemma recorder_leaves_page_alone (n : nat) : leaves_page_alone (recorder n).
Proof. by intros args s. Qed.

Lemma calls_foldl_called (args : list value) (hs : list Handler) (w : World) :
  calls (foldl (λ w h, called h args w) w hs)
  = (calls w ++ ((λ h, mkInvocation h args) <$> hs))%list.
Proof.
  revert w. induction hs as [|h hs IH]; intros w; simpl.
  - by rewrite app_nil_r.
  - rewrite IH. simpl. by rewrite <- app_assoc.
Qed.

Lemma surface_foldl_called (args : list value) (hs : list Handler) (w : World) :
  surface (foldl (λ w h, called h args w) w hs) = surface w.
Proof. revert w. induction hs as [|h hs IH]; intros w; simpl; [done | by rewrite IH]. Qed.

Lemma omap_app_singleton {A B} (f : A → option B) (l : list A) (ys : list B) (y : B) :
  omap f l = (ys ++ [y])%list →
  ∃ pre x post, l = (pre ++ x :: post)%list ∧ omap f pre = ys ∧ f x = Some y ∧ omap f post = [].
Proof.
  revert ys. induction l as [|a l IH]; intros ys H.
  - by destruct ys.
  - cbn [omap list_omap] in H. destruct (f a) as [b|] eqn:Ha.
    + destruct ys as [|b' ys]; simpl in H.
      * injection H as -> Hl. by exists [], a, l.
      * injection H as -> Hl. destruct (IH ys Hl) as (pre & x & post & -> & Hpre & Hx & Hpost).
        exists (a :: pre), x, post. cbn [omap list_omap]. rewrite Ha, Hpre. done.
    + destruct (IH ys H) as (pre & x & post & -> & Hpre & Hx & Hpost).
      exists (a :: pre), x, post. cbn [omap list_omap]. rewrite Ha. done.
Qed.

Lemma registered_by_type (sub : Subscription) :
  registered sub →
  (sub_type sub ≠ blur ∧ sub_type sub ≠ keyup ∧ sub_type sub ≠ keypress ∧
   done_of sub = None ∧ cancel_of sub = None) ∨
  (∃ h, sub = mkSubscription the_todoList (Some sel_li_edit) blur (itemEditDone_blur h)) ∨
  (∃ h, sub = mkSubscription the_todoList (Some sel_li_edit) keyup (itemEditCancel_keyup h)) ∨
  sub = keypress_listener.
Proof.
  intros (e & h & Hin).
  destruct e; simpl in Hin;
    repeat (apply elem_of_cons in Hin as [-> | Hin]); try (by apply elem_of_nil in Hin);
    first [ by left | right; left; by eexists | right; right; left; by eexists
          | right; right; right; reflexivity ].
Qed.

Section Dispatch.
Context (self : View) (hook : Node → M unit).

Lemma dispatch_returns (event : Event) (w : World) :
  dispatch self event w = Return tt (final (dispatch self event w)).
Proof. unfold dispatch. by destruct (type event). Qed.

(** A user action comes to running the listeners on the page as the
    browser has left it. *)
Lemma dispatch_final (event : Event) (w : World) :
  final (dispatch self event w)
  = run_listeners self
      (match type event with blur => λ _, mret tt | _ => blur_method self end)
      (listeners w) event (set_surface (before_listeners event (surface w)) w).
Proof.
  unfold dispatch, before_listeners, dispatch_with.
  destruct (type event); first [ by rewrite set_surface_same | by run ].
Qed.

Lemma fires_delegated (s : Surface) (selector : Selector) (ty : EventType)
    (callback : Callback) (i j : nat) (e : Element) (key : option Z) :
  element_at s i j = Some e →
  matches selector e = true →
  fires s (mkSubscription the_todoList (Some selector) ty callback)
          (mkEvent ty (ItemElement i j) key) = Some (ItemElement i j).
Proof.
  intros He Hm. unfold fires. simpl. rewrite bool_decide_true by done.
  rewrite He. simpl. by rewrite Hm.
Qed.

Lemma fires_other_type (s : Surface) (sub : Subscription) (event : Event) :
  sub_type sub ≠ type event → fires s sub event = None.
Proof. intros H. unfold fires. by rewrite bool_decide_false. Qed.

Lemma run_listeners_step (sub : Subscription) (rest : list Subscription)
    (event : Event) (w w' : World) (this : Node) :
  fires (surface w) sub event = Some this →
  run_callback self hook (sub_callback sub) this event w = Return tt w' →
  run_listeners self hook (sub :: rest) event w = run_listeners self hook rest event w'.
Proof. intros Hf Hr. cbn [run_listeners]. by rewrite Hf, Hr. Qed.

Lemma run_listeners_fire (sub : Subscription) (rest : list Subscription)
    (event : Event) (w : World) (this : Node) :
  fires (surface w) sub event = Some this →
  run_listeners self hook (sub :: rest) event w
  = run_listeners self hook rest event
      (settle (run_callback self hook (sub_callback sub) this event w)).
Proof.
  intros Hf. cbn [run_listeners]. rewrite Hf. unfold settle.
  by destruct (run_callback self hook (sub_callback sub) this event w).
Qed.

Lemma run_listeners_skip (sub : Subscription) (rest : list Subscription)
    (event : Event) (w : World) :
  fires (surface w) sub event = None →
  run_listeners self hook (sub :: rest) event w = run_listeners self hook rest event w.
Proof. intros Hf. cbn [run_listeners]. by rewrite Hf. Qed.

Lemma run_listeners_app (l1 l2 : list Subscription) (event : Event) (w : World) :
  run_listeners self hook (l1 ++ l2) event w
  = run_listeners self hook l2 event (run_listeners self hook l1 event w).
Proof.
  revert w. induction l1 as [|sub l1 IH]; intros w; [reflexivity | ].
  cbn [app run_listeners]. apply IH.
Qed.

Context (w : World) (i j : nat) (item : ItemNode) (el : Element).
Context (Hi : items (surface w) !! i = Some item) (Hj : elements item !! j = Some el).

Lemma itemId_of_element :
  _itemId (ItemElement i j) w = Return (parseInt (VString (data_id item))) w.
Proof. unfold _itemId; run. simpl. rewrite Hi. reflexivity. Qed.

Lemma itemEdit_callback (h : Handler) (event : Event) :
  run_callback self hook (itemEdit_dblclick h) (ItemElement i j) event w
  = invoke h [VObject [("id", item_id (surface w) i)]] w.
Proof.
  unfold item_id. rewrite Hi. cbn [run_callback]; unfold mbind at 1, M_bind at 1.
  rewrite itemId_of_element; reflexivity.
Qed.

Lemma itemRemove_callback (h : Handler) (event : Event) :
  run_callback self hook (itemRemove_click h) (ItemElement i j) event w
  = invoke h [VObject [("id", item_id (surface w) i)]] w.
Proof.
  unfold item_id. rewrite Hi. cbn [run_callback]; unfold mbind at 1, M_bind at 1.
  rewrite itemId_of_element; reflexivity.
Qed.

Lemma itemToggle_callback (h : Handler) (event : Event) :
  run_callback self hook (itemToggle_click h) (ItemElement i j) event w
  = invoke h [VObject [("id", item_id (surface w) i);
                       ("completed", VBool (checked el))]] w.
Proof.
  pose proof (element_at_Some _ _ _ _ _ Hi Hj) as Hel.
  unfold item_id. rewrite Hi. cbn [run_callback]; unfold mbind at 1, M_bind at 1.
  rewrite itemId_of_element. unfold get_surface, mbind at 1, M_bind at 1.
  unfold mbind at 1, M_bind at 1. cbn [node_element]. rewrite Hel. reflexivity.
Qed.

Lemma itemEditDone_callback (h : Handler) (event : Event) :
  dataset_truthy (iscanceled el) = false →
  run_callback self hook (itemEditDone_blur h) (ItemElement i j) event w
  = invoke h [VObject [("id", item_id (surface w) i);
                       ("title", VString (input_value el))]] w.
Proof.
  intros Hflag. pose proof (element_at_Some _ _ _ _ _ Hi Hj) as Hel.
  unfold item_id. rewrite Hi. cbn [run_callback].
  unfold get_surface, mbind at 1, M_bind at 1. unfold mbind at 1, M_bind at 1.
  cbn [node_element]. rewrite Hel. cbn [deref mret M_ret].
  rewrite Hflag. cbn [negb]. unfold mbind at 1, M_bind at 1.
  rewrite itemId_of_element. unfold mbind at 1, M_bind at 1.
  unfold mbind at 1, M_bind at 1. cbn [node_element]. rewrite Hel. reflexivity.
Qed.
End Dispatch.

(** ** The edit session *)

Lemma element_at_Some_inv (s : Surface) (i j : nat) (e : Element) :
  element_at s i j = Some e →
  ∃ item, items s !! i = Some item ∧ elements item !! j = Some e.
Proof.
  unfold element_at. destruct (items s !! i) as [item|]; [ | done].
  intros H. by exists item.
Qed.

(** A blur on an edit field that carries the cancellation flag reaches no
    handler and changes nothing. *)
Lemma blur_suppressed (self : View) (hook : Node → M unit) (subs : list Subscription)
    (w : World) (i j : nat) (e : Element) (key : option Z) :
  Forall registered subs →
  element_at (surface w) i j = Some e →
  dataset_truthy (iscanceled e) = true →
  run_listeners self hook subs (mkEvent blur (ItemElement i j) key) w = w.
Proof.
  intros Hreg He Hflag. induction Hreg as [|sub subs Hsub _ IH]; [reflexivity | ].
  cbn [run_listeners].
  destruct (registered_cases _ Hsub) as [(Ht & _) | [[h ->] | [h ->]]].
  - rewrite fires_other_type; [exact IH | exact Ht].
  - destruct (fires (surface w) _ _) as [this|] eqn:Hf; [ | exact IH].
    assert (this = ItemElement i j) as ->.
    { unfold fires in Hf. simpl in Hf. rewrite He in Hf. simpl in Hf.
      destruct (matches _ _); congruence. }
    cbn [run_callback sub_callback]. run. simpl. rewrite He. run.
    rewrite Hflag. simpl. exact IH.
  - rewrite fires_other_type; [exact IH | done].
Qed.

Lemma committed_snoc (id : number) (title : string) (h : Handler) (hs : list Handler)
    (w : World) :
  committed id title hs (called h [VObject [("id", VNumber id); ("title", VString title)]] w)
  = committed id title (h :: hs) w.
Proof. unfold committed, called. simpl. f_equal. by rewrite <- app_assoc. Qed.

Lemma committed_nil (id : number) (title : string) (w : World) :
  committed id title [] w = w.
Proof. unfold committed. simpl. rewrite app_nil_r. by destruct w. Qed.

(** The blur listeners on an edit field that is not flagged, when the
    handlers bound to itemEditDone leave the page alone: each of them is
    called, and nothing else happens. *)
Lemma blur_listeners_quiet (self : View) (hook : Node → M unit) (subs : list Subscription)
    (w : World) (i j : nat) (item : ItemNode) (el : Element) (key : option Z) :
  Forall registered subs →
  Forall leaves_page_alone (done_handlers subs) →
  items (surface w) !! i = Some item →
  elements item !! j = Some el →
  matches sel_li_edit el = true →
  dataset_truthy (iscanceled el) = false →
  run_listeners self hook subs (mkEvent blur (ItemElement i j) key) w
  = committed (parseInt (VString (data_id item))) (input_value el) (done_handlers subs) w.
Proof.
  intros Hreg Hquiet Hi Hj Hm Hflag. revert w Hi Hquiet.
  induction Hreg as [|sub subs Hsub _ IH]; intros w Hi Hquiet.
  { by rewrite committed_nil. }
  pose proof (element_at_Some _ _ _ _ _ Hi Hj) as Hel.
  destruct (registered_by_type _ Hsub) as [(Hb & _ & _ & Hd & _) | [[h ->] | [[h ->] | ->]]].
  - rewrite run_listeners_skip by (by apply fires_other_type).
    unfold done_handlers in *. cbn [omap list_omap] in *. rewrite Hd in *. by apply IH.
  - unfold done_handlers in Hquiet. cbn [omap list_omap done_of sub_callback] in Hquiet.
    apply Forall_cons in Hquiet as [Hh Hquiet].
    erewrite run_listeners_step;
      [ | by apply (fires_delegated _ _ _ _ _ _ el)
        | cbn [sub_callback]; rewrite (itemEditDone_callback _ _ _ _ _ _ _ Hi Hj) by done;
          by apply invoke_quiet ].
    rewrite IH by done. unfold item_id. rewrite Hi. simpl. apply committed_snoc.
  - rewrite run_listeners_skip by (by apply fires_other_type). by apply IH.
  - rewrite run_listeners_skip by (by apply fires_other_type). by apply IH.
Qed.

(** Without a handler bound to itemEditDone a blur reaches nothing. *)
Lemma blur_listeners_none (self : View) (hook : Node → M unit) (subs : list Subscription)
    (w : World) (n : Node) (key : option Z) :
  Forall registered subs →
  done_handlers subs = [] →
  run_listeners self hook subs (mkEvent blur n key) w = w.
Proof.
  intros Hreg. induction Hreg as [|sub subs Hsub _ IH]; intros Hnone; [reflexivity | ].
  unfold done_handlers in *. cbn [omap list_omap] in Hnone.
  destruct (registered_by_type _ Hsub) as [(Hb & _ & _ & Hd & _) | [[h ->] | [[h ->] | ->]]].
  - rewrite run_listeners_skip by (by apply fires_other_type).
    rewrite Hd in Hnone. by apply IH.
  - discriminate Hnone.
  - rewrite run_listeners_skip by (by apply fires_other_type). by apply IH.
  - rewrite run_listeners_skip by (by apply fires_other_type). by apply IH.
Qed.

(** The blur listeners on an edit field that is not flagged: each handler
    bound to itemEditDone is called in the order of binding, the last one
    on the page as it is, the ones before it leaving the page alone. *)
Lemma blur_listeners (self : View) (hook : Node → M unit) (subs : list Subscription)
    (w : World) (i j : nat) (item : ItemNode) (el : Element) (key : option Z)
    (hs : list Handler) (h : Handler) :
  Forall registered subs →
  done_handlers subs = (hs ++ [h])%list →
  Forall leaves_page_alone hs →
  items (surface w) !! i = Some item →
  elements item !! j = Some el →
  matches sel_li_edit el = true →
  dataset_truthy (iscanceled el) = false →
  run_listeners self hook subs (mkEvent blur (ItemElement i j) key) w
  = answered h [VObject [("id", VNumber (parseInt (VString (data_id item))));
                         ("title", VString (input_value el))]]
      (committed (parseInt (VString (data_id item))) (input_value el) hs w).
Proof.
  intros Hreg Hdone Hquiet Hi Hj Hm Hflag.
  destruct (omap_app_singleton _ _ _ _ Hdone) as (pre & x & post & -> & Hpre & Hx & Hpost).
  apply Forall_app in Hreg as [Hreg_pre Hreg_post].
  apply Forall_cons in Hreg_post as [Hreg_x Hreg_post].
  rewrite run_listeners_app.
  assert (Hq : Forall leaves_page_alone (done_handlers pre))
    by (unfold done_handlers; by rewrite Hpre).
  rewrite (blur_listeners_quiet _ _ _ _ _ _ item el key Hreg_pre Hq Hi Hj Hm Hflag).
  unfold done_handlers at 1. rewrite Hpre.
  assert (x = mkSubscription the_todoList (Some sel_li_edit) blur (itemEditDone_blur h)) as ->.
  { destruct (registered_by_type _ Hreg_x) as [(_ & _ & _ & Hd & _) | [[h' ->] | [[h' ->] | ->]]];
      try (by rewrite Hx in Hd); try discriminate Hx.
    cbn in Hx. by injection Hx as ->. }
  erewrite run_listeners_fire
    by (apply (fires_delegated _ _ _ _ _ _ el);
        [exact (element_at_Some _ _ _ _ _ Hi Hj) | exact Hm]).
  cbn [sub_callback].
  rewrite (itemEditDone_callback _ _ _ _ _ item el) by done.
  rewrite (blur_listeners_none _ _ _ _ _ _ Hreg_post Hpost).
  unfold item_id. cbn [surface committed]. rewrite Hi. reflexivity.
Qed.

(** What the Escape listener does: the flag, the forced blur (which reaches
    no handler), the call of the handler. *)
Lemma cancel_callback (self : View) (h : Handler) (w : World) (i j : nat)
    (item : ItemNode) (el : Element) :
  Forall registered (listeners w) →
  items (surface w) !! i = Some item →
  elements item !! j = Some el →
  run_callback self (blur_method self) (itemEditCancel_keyup h) (ItemElement i j)
    (escape_key self i j) w
  = invoke h [VObject [("id", VNumber (parseInt (VString (data_id item))))]]
      (silenced i j w).
Proof.
  intros Hreg Hi Hj.
  pose proof (element_at_Some _ _ _ _ _ Hi Hj) as Hel.
  cbn [run_callback escape_key keyCode]. rewrite bool_decide_true by done.
  unfold console_log, update_node, blur_method; run; wsimpl.
  rewrite Hel. run; wsimpl.
  rewrite (element_at_modify_element _ _ _ _ _ _ Hi Hj). run; wsimpl.
  change (focused (set_iscanceled (Some (ToString (VBool true))) el)) with (focused el).
  destruct (focused el) eqn:Hfocus.
  - run. unfold dispatch_with; wsimpl.
    rewrite modify_element_twice.
    rewrite blur_suppressed with (e := cancelled el); [ | done | | done].
    + erewrite itemId_of_element by (apply items_modify_element; exact Hi).
      reflexivity.
    + wsimpl. apply (element_at_modify_element _ _ _ _ _ _ Hi Hj).
  - run. erewrite itemId_of_element by (apply items_modify_element; exact Hi).
    unfold silenced. cbn [data_id set_elements]. do 2 f_equal.
    apply (modify_element_ext _ _ _ _ _ _ _ Hi Hj).
    destruct el; simpl in *. by subst.
Qed.

Lemma after_escape_cons (i j : nat) (id : number) (h : Handler) (hs : list Handler)
    (w : World) :
  after_escape i j id hs (after_escape i j id [h] w) = after_escape i j id (h :: hs) w.
Proof.
  destruct hs as [|h' hs]; [reflexivity | ].
  unfold after_escape. cbn [surface listeners calls console uncaught].
  rewrite modify_element_twice. f_equal; rewrite <- app_assoc; reflexivity.
Qed.

(** Escape on an edit field, when the handlers bound to itemEditCancel leave
    the page alone: each of them is called with the id of the item, and no
    other handler is. *)
Lemma escape_listeners_quiet (self : View) (subs : list Subscription) (w : World) (i j : nat)
    (item : ItemNode) (el : Element) :
  Forall registered subs →
  Forall leaves_page_alone (cancel_handlers subs) →
  Forall registered (listeners w) →
  items (surface w) !! i = Some item →
  elements item !! j = Some el →
  matches sel_li_edit el = true →
  run_listeners self (blur_method self) subs (escape_key self i j) w
  = after_escape i j (parseInt (VString (data_id item))) (cancel_handlers subs) w.
Proof.
  intros Hsubs. revert w item el.
  induction Hsubs as [|sub subs Hsub _ IH]; intros w item el Hquiet Hreg Hi Hj Hm;
    [reflexivity | ].
  pose proof (element_at_Some _ _ _ _ _ Hi Hj) as Hel.
  unfold cancel_handlers in *. cbn [omap list_omap] in *.
  destruct (registered_cases _ Hsub) as [(_ & Ht & Hc & _) | [[h ->] | [h ->]]].
  - rewrite run_listeners_skip by (apply fires_other_type; exact Ht).
    rewrite Hc in *. by apply (IH w item el).
  - rewrite run_listeners_skip by (by apply fires_other_type). by apply (IH w item el).
  - cbn [cancel_of sub_callback] in *. apply Forall_cons in Hquiet as [Hh Hquiet].
    erewrite run_listeners_step;
      [ | by apply (fires_delegated _ _ _ _ _ _ el)
        | cbn [sub_callback]; rewrite (cancel_callback _ _ _ _ _ _ _ Hreg Hi Hj);
          by apply invoke_quiet ].
    change (called h [VObject [("id", VNumber (parseInt (VString (data_id item))))]]
              (silenced i j w))
      with (after_escape i j (parseInt (VString (data_id item))) [h] w).
    rewrite (IH _ (set_elements (alter cancelled j (elements item)) item) (cancelled el)).
    + apply after_escape_cons.
    + exact Hquiet.
    + exact Hreg.
    + simpl. apply items_modify_element. exact Hi.
    + simpl. rewrite list_lookup_alter_eq, Hj. reflexivity.
    + exact Hm.
Qed.

(** Without a handler bound to itemEditCancel a key that is released
    reaches nothing. *)
Lemma escape_listeners_none (self : View) (hook : Node → M unit) (subs : list Subscription)
    (w : World) (n : Node) (key : option Z) :
  Forall registered subs →
  cancel_handlers subs = [] →
  run_listeners self hook subs (mkEvent keyup n key) w = w.
Proof.
  intros Hreg. induction Hreg as [|sub subs Hsub _ IH]; intros Hnone; [reflexivity | ].
  unfold cancel_handlers in *. cbn [omap list_omap] in Hnone.
  destruct (registered_cases _ Hsub) as [(_ & Ht & Hc & _) | [[h ->] | [h ->]]].
  - rewrite run_listeners_skip by (apply fires_other_type; exact Ht).
    rewrite Hc in Hnone. by apply IH.
  - rewrite run_listeners_skip by (by apply fires_other_type). by apply IH.
  - discriminate Hnone.
Qed.

(** The item and the edit field after Escape has been handled by handlers
    that leave the page alone. *)
Lemma after_escape_field (w : World) (i j : nat) (id : number) (hs : list Handler)
    (item : ItemNode) (el : Element) :
  items (surface w) !! i = Some item →
  elements item !! j = Some el →
  ∃ item' el',
    items (surface (after_escape i j id hs w)) !! i = Some item' ∧
    elements item' !! j = Some el' ∧
    data_id item' = data_id item ∧
    className el' = className el ∧ tagName el' = tagName el ∧
    cancelled el' = cancelled el ∧
    listeners (after_escape i j id hs w) = listeners w.
Proof.
  intros Hi Hj. destruct hs as [|h hs].
  - by exists item, el.
  - exists (set_elements (alter cancelled j (elements item)) item), (cancelled el).
    split; [apply (items_modify_element _ _ _ _ _ Hi) | ].
    split; [simpl; by rewrite list_lookup_alter_eq, Hj | done].
Qed.

(** Escape on an edit field: each handler bound to itemEditCancel is called
    with the id of the item, in the order of binding, and no other handler
    is; the last one is called on the page as it is, the ones before it
    leaving the page alone. *)
Lemma escape_listeners (self : View) (subs : list Subscription) (w : World) (i j : nat)
    (item : ItemNode) (el : Element) (hs : list Handler) (h : Handler) :
  Forall registered subs →
  cancel_handlers subs = (hs ++ [h])%list →
  Forall leaves_page_alone hs →
  Forall registered (listeners w) →
  items (surface w) !! i = Some item →
  elements item !! j = Some el →
  matches sel_li_edit el = true →
  run_listeners self (blur_method self) subs (escape_key self i j) w
  = answered h [VObject [("id", VNumber (parseInt (VString (data_id item))))]]
      (silenced i j (after_escape i j (parseInt (VString (data_id item))) hs w)).
Proof.
  intros Hsubs Hcancel Hquiet Hreg Hi Hj Hm.
  destruct (omap_app_singleton _ _ _ _ Hcancel) as (pre & x & post & -> & Hpre & Hx & Hpost).
  apply Forall_app in Hsubs as [Hreg_pre Hreg_post].
  apply Forall_cons in Hreg_post as [Hreg_x Hreg_post].
  rewrite run_listeners_app.
  assert (Hq : Forall leaves_page_alone (cancel_handlers pre))
    by (unfold cancel_handlers; by rewrite Hpre).
  rewrite (escape_listeners_quiet _ _ _ _ _ item el Hreg_pre Hq Hreg Hi Hj Hm).
  unfold cancel_handlers at 1. rewrite Hpre.
  set (id := parseInt (VString (data_id item))).
  destruct (after_escape_field w i j id hs item el Hi Hj)
    as (item' & el' & Hi' & Hj' & Hid' & Hclass & Htag & Hcancelled & HL).
  assert (Hm' : matches sel_li_edit el' = true)
    by (unfold matches in *; by rewrite Hclass, Htag).
  assert (x = mkSubscription the_todoList (Some sel_li_edit) keyup (itemEditCancel_keyup h))
    as ->.
  { destruct (registered_by_type _ Hreg_x) as [(_ & _ & _ & _ & Hc) | [[h' ->] | [[h' ->] | ->]]];
      try (by rewrite Hx in Hc); try discriminate Hx.
    cbn in Hx. by injection Hx as ->. }
  unfold escape_key at 1.
  erewrite run_listeners_fire
    by (apply (fires_delegated _ _ _ _ _ _ el');
        [exact (element_at_Some _ _ _ _ _ Hi' Hj') | exact Hm']).
  fold (escape_key self i j). cbn [sub_callback].
  rewrite (cancel_callback _ _ _ _ _ item' el') by (by rewrite ?HL).
  rewrite Hid'. fold id. fold (answered h [VObject [("id", VNumber id)]]
                                (silenced i j (after_escape i j id hs w))).
  apply (escape_listeners_none _ _ _ _ _ _ Hreg_post Hpost).
Qed.

(** C5.  Take an item rendered with [id], a safe integer, that has an edit
    field, and a view on which handlers are bound to itemEditCancel (all
    subscriptions being those of [bind]); the last of these handlers may do
    to the page what it wants, the ones before it leave the page alone.
    When Escape is released on the field: every handler bound to
    itemEditCancel is called with {id}, and nothing else is called, so no
    handler of itemEditDone is; the last handler is called on a page on
    which the field carries the cancellation flag and has lost the focus.
    When that handler leaves the page alone too, the field carries the flag
    afterwards and a later blur on it calls nothing.  In the listener
    itself, the blur is forced from a world in which the flag is already
    set. *)
Theorem escape_cancels_edit (self : View) (w : World) (i j : nat)
    (item : ItemNode) (field : Element) (id : number) (hs : list Handler) (h : Handler) :
  Forall registered (listeners w) →
  cancel_handlers (listeners w) = (hs ++ [h])%list →
  Forall leaves_page_alone hs →
  items (surface w) !! i = Some item →
  data_id item = number_to_string id →
  safe_integer id →
  elements item !! j = Some field →
  matches sel_li_edit field = true →
  ∃ w',
    dispatch self (escape_key self i j) w = Return tt w' ∧
    w' = answered h [VObject [("id", VNumber id)]] (silenced i j (after_escape i j id hs w)) ∧
    calls w' = (calls w ++ (cancel_invocation id <$> (hs ++ [h])))%list ∧
    element_at (surface (silenced i j (after_escape i j id hs w))) i j
    = Some (cancelled field) ∧
    (leaves_page_alone h →
     element_at (surface w') i j = Some (cancelled field) ∧
     calls (final (dispatch self (mkEvent blur (ItemElement i j) None) w')) = calls w') ∧
    element_at (surface (flagged i j w)) i j = Some (set_iscanceled (Some "true") field) ∧
    ∀ hook h',
      run_callback self hook (itemEditCancel_keyup h') (ItemElement i j) (escape_key self i j) w
      = (hook (ItemElement i j);;
         id' ← _itemId (ItemElement i j);
         invoke h' [VObject [("id", VNumber id')]]) (flagged i j w).
Proof.
  intros Hreg Hbound Hquiet Hi Hid _ Hj Hm.
  pose proof (element_at_Some _ _ _ _ _ Hi Hj) as Hel.
  set (w0 := silenced i j (after_escape i j id hs w)).
  assert (Hd : dispatch self (escape_key self i j) w
               = Return tt (answered h [VObject [("id", VNumber id)]] w0)).
  { unfold dispatch, dispatch_with. cbn [type escape_key]. fold (escape_key self i j).
    rewrite (escape_listeners _ _ _ _ _ item field hs h Hreg Hbound Hquiet Hreg Hi Hj Hm).
    by rewrite Hid, parseInt_number_to_string. }
  destruct (after_escape_field w i j id hs item field Hi Hj)
    as (item' & el' & Hi' & Hj' & Hid' & Hclass & Htag & Hcancelled & HL).
  assert (Hel0 : element_at (surface w0) i j = Some (cancelled field)).
  { subst w0. unfold silenced; wsimpl.
    rewrite (element_at_modify_element _ _ _ _ _ _ Hi' Hj'). by rewrite Hcancelled. }
  exists (answered h [VObject [("id", VNumber id)]] w0).
  split; [exact Hd | split; [reflexivity | split; [ | split; [exact Hel0 | split; [ | split]]]]].
  - rewrite calls_answered. subst w0. unfold silenced; wsimpl.
    rewrite fmap_app. simpl. rewrite app_assoc. f_equal.
    destruct hs; [by rewrite app_nil_r | reflexivity].
  - intros Hh. rewrite (answered_quiet _ _ _ Hh). split; [exact Hel0 | ].
    rewrite dispatch_final. cbn [type target before_listeners listeners called].
    unfold set_surface; wsimpl. cbn [called surface].
    destruct (element_at_Some_inv _ _ _ _ Hel0) as (item0 & Hi0 & Hj0).
    rewrite blur_suppressed with (e := set_focused false (cancelled field)).
    + reflexivity.
    + subst w0. unfold silenced; wsimpl. by rewrite HL.
    + wsimpl. apply (element_at_modify_element _ _ _ _ _ _ Hi0 Hj0).
    + reflexivity.
  - apply (element_at_modify_element _ _ _ _ _ _ Hi Hj).
  - intros hook h0. cbn [run_callback escape_key keyCode].
    rewrite bool_decide_true by done.
    unfold console_log, update_node; run; wsimpl. rewrite Hel. reflexivity.
Qed.

Lemma escape_cancels_edit_witness :
  Forall registered (listeners editing_world) ∧
  cancel_handlers (listeners editing_world) = ([] ++ [recorder 2])%list ∧
  Forall leaves_page_alone [] ∧
  items (surface editing_world) !! 0 = Some edited_item ∧
  data_id edited_item = number_to_string (Int 1) ∧
  safe_integer (Int 1) ∧
  elements edited_item !! 3 = Some sample_edit_field ∧
  matches sel_li_edit sample_edit_field = true ∧
  ∃ w',
    dispatch sample_view (escape_key sample_view 0 3) editing_world = Return tt w' ∧
    w' = answered (recorder 2) [VObject [("id", VNumber (Int 1))]]
           (silenced 0 3 (after_escape 0 3 (Int 1) [] editing_world)) ∧
    calls w' = (calls editing_world ++
                (cancel_invocation (Int 1) <$> ([] ++ [recorder 2])))%list ∧
    element_at (surface (silenced 0 3 (after_escape 0 3 (Int 1) [] editing_world))) 0 3
    = Some (cancelled sample_edit_field) ∧
    (leaves_page_alone (recorder 2) →
     element_at (surface w') 0 3 = Some (cancelled sample_edit_field) ∧
     calls (final (dispatch sample_view (mkEvent blur (ItemElement 0 3) None) w')) = calls w') ∧
    element_at (surface (flagged 0 3 editing_world)) 0 3
    = Some (set_iscanceled (Some "true") sample_edit_field) ∧
    ∀ hook h',
      run_callback sample_view hook (itemEditCancel_keyup h') (ItemElement 0 3)
        (escape_key sample_view 0 3) editing_world
      = (hook (ItemElement 0 3);;
         id' ← _itemId (ItemElement 0 3);
         invoke h' [VObject [("id", VNumber id')]]) (flagged 0 3 editing_world).
Proof.
  assert (Hreg : Forall registered (listeners editing_world)).
  { repeat constructor.
    - exists ev_itemEditDone, (recorder 1). left.
    - exists ev_itemEditDone, (recorder 1). right. left.
    - exists ev_itemEditCancel, (recorder 2). left. }
  assert (Hbound : cancel_handlers (listeners editing_world) = ([] ++ [recorder 2])%list)
    by reflexivity.
  assert (Hquiet : Forall leaves_page_alone []) by constructor.
  assert (Hi : items (surface editing_world) !! 0 = Some edited_item) by reflexivity.
  assert (Hid : data_id edited_item = number_to_string (Int 1)) by reflexivity.
  assert (Hsafe : safe_integer (Int 1)) by (unfold safe_integer, MAX_SAFE_INTEGER; lia).
  assert (Hj : elements edited_item !! 3 = Some sample_edit_field) by reflexivity.
  assert (Hm : matches sel_li_edit sample_edit_field = true) by reflexivity.
  split; [exact Hreg | split; [exact Hbound | split; [exact Hquiet | split; [exact Hi | ]]]].
  split; [exact Hid | split; [exact Hsafe | split; [exact Hj | split; [exact Hm | ]]]].
  exact (escape_cancels_edit sample_view editing_world 0 3 edited_item sample_edit_field
           (Int 1) [] (recorder 2) Hreg Hbound Hquiet Hi Hid Hsafe Hj Hm).
Defined.

(** The sequence of the edit on the sample page: Escape calls the cancel
    handler with the id, and not the handler of itemEditDone; Enter, and so
    a blur without the flag, calls the handler of itemEditDone with the id
    and the title. *)
Lemma edit_session_on_sample_page :
  calls (final (dispatch sample_view (escape_key sample_view 0 3) editing_world))
  = [mkInvocation (recorder 2) [VObject [("id", VNumber (Int 1))]]] ∧
  calls (final (dispatch sample_view
                  (mkEvent keypress (ItemElement 0 3) (Some (ENTER_KEY sample_view)))
                  editing_world))
  = [mkInvocation (recorder 1) [VObject [("id", VNumber (Int 1)); ("title", VString "A")]]].
Proof. split; reflexivity. Qed.

(** ** bind: handlers bound to one event *)

Lemma matches_activate (sel : Selector) (e : Element) :
  matches sel (activate e) = matches sel e.
Proof. unfold activate. by destruct (is_checkbox e). Qed.

Lemma is_checkbox_activate (e : Element) :
  is_checkbox (activate e) = is_checkbox e.
Proof. unfold activate. by destruct (is_checkbox e) eqn:E. Qed.

(** What makes the trigger ready is still there when the listeners run. *)
Lemma trigger_ready_before (self : View) (s : Surface) (e : EventName) (i j : nat) :
  trigger_ready s e i j →
  trigger_ready (before_listeners (raw_trigger self e i j) s) e i j.
Proof.
  destruct e; cbn [trigger_ready before_listeners raw_trigger type target modify_node];
    try done.
  - intros [el Hel]. rewrite Hel. by eexists.
  - intros (el & Hel & Hbox). rewrite Hel. exists (activate el).
    split; [reflexivity | by rewrite is_checkbox_activate].
  - intros (item & el & Hi & Hj & Hm & Hsafe).
    exists (set_elements (alter activate j (elements item)) item), (activate el).
    split; [by apply items_modify_element | ].
    split; [simpl; by rewrite list_lookup_alter_eq, Hj | ].
    split; [by rewrite matches_activate | exact Hsafe].
  - intros (item & el & Hi & Hj & [Hm Hbox] & Hsafe).
    exists (set_elements (alter activate j (elements item)) item), (activate el).
    split; [by apply items_modify_element | ].
    split; [simpl; by rewrite list_lookup_alter_eq, Hj | ].
    split; [by rewrite matches_activate, is_checkbox_activate | exact Hsafe].
  - intros (item & el & Hi & Hj & Hm & Hsafe).
    exists (set_elements (alter (set_focused false) j (elements item)) item),
           (set_focused false el).
    split; [by apply items_modify_element | ].
    split; [simpl; by rewrite list_lookup_alter_eq, Hj | ].
    split; [exact Hm | exact Hsafe].
Qed.

Lemma bound_registered (e : EventName) (hs : list Handler) :
  Forall registered (flat_map (subscriptions e) hs).
Proof.
  induction hs as [|h hs IH]; [constructor | ].
  cbn [flat_map]. apply Forall_app. split; [apply subscriptions_registered | exact IH].
Qed.

Lemma done_handlers_bound (hs : list Handler) :
  done_handlers (flat_map (subscriptions ev_itemEditDone) hs) = hs.
Proof. induction hs as [|h hs IH]; [done | ]. cbn. f_equal. exact IH. Qed.

Lemma cancel_handlers_bound (hs : list Handler) :
  cancel_handlers (flat_map (subscriptions ev_itemEditCancel) hs) = hs.
Proof. induction hs as [|h hs IH]; [done | ]. cbn. f_equal. exact IH. Qed.

(** The listener of an event other than the two of the edit session: it
    fires on the raw trigger and calls the handler with the payload. *)
Lemma plain_listener (self : View) (hook : Node → M unit) (e : EventName) (h : Handler)
    (w : World) (i j : nat) :
  e ≠ ev_itemEditDone → e ≠ ev_itemEditCancel →
  trigger_ready (surface w) e i j →
  ∃ sub this,
    subscriptions e h = [sub] ∧
    fires (surface w) sub (raw_trigger self e i j) = Some this ∧
    run_callback self hook (sub_callback sub) this (raw_trigger self e i j) w
    = invoke h (normalized_payload (surface w) e i j) w.
Proof.
  intros Hdone Hcancel Hready. destruct e; try done; cbn [trigger_ready] in Hready;
    [ destruct Hready as [el Hel] | destruct Hready as [el Hel]
    | destruct Hready as (el & Hel & _)
    | destruct Hready as (item & el & Hi & Hj & Hm & _) ..];
    try (pose proof (element_at_Some _ _ _ _ _ Hi Hj) as Hel);
    eexists _, _; (split; [reflexivity | ]).
  - split; [reflexivity | ]. cbn [run_callback sub_callback normalized_payload]. run.
    by rewrite Hel.
  - split; [reflexivity | ]. reflexivity.
  - split; [reflexivity | ]. cbn [run_callback sub_callback normalized_payload]. run.
    cbn [raw_trigger target node_element anchor_element]. by rewrite Hel.
  - split; [by apply (fires_delegated _ _ _ _ _ _ el) | ].
    apply (itemEdit_callback _ _ _ _ _ _ Hi).
  - split; [by apply (fires_delegated _ _ _ _ _ _ el) | ].
    apply (itemRemove_callback _ _ _ _ _ _ Hi).
  - split; [apply (fires_delegated _ _ _ _ _ _ el); [exact Hel | apply Hm] | ].
    cbn [normalized_payload]. rewrite Hel. apply (itemToggle_callback _ _ _ _ _ _ _ Hi Hj).
Qed.

Lemma plain_listeners (self : View) (hook : Node → M unit) (e : EventName)
    (hs : list Handler) (h : Handler) (w : World) (i j : nat) :
  e ≠ ev_itemEditDone → e ≠ ev_itemEditCancel →
  Forall leaves_page_alone hs →
  trigger_ready (surface w) e i j →
  run_listeners self hook (flat_map (subscriptions e) (hs ++ [h])) (raw_trigger self e i j) w
  = answered h (normalized_payload (surface w) e i j)
      (foldl (λ w' h', called h' (normalized_payload (surface w) e i j) w') w hs).
Proof.
  intros Hdone Hcancel Hquiet. revert w.
  induction Hquiet as [|h0 hs Hh0 _ IH]; intros w Hready.
  - destruct (plain_listener self hook e h w i j Hdone Hcancel Hready)
      as (sub & this & Hsub & Hf & Hr).
    cbn [app flat_map foldl]. rewrite Hsub. cbn [app].
    rewrite (run_listeners_fire _ _ _ _ _ _ _ Hf), Hr. reflexivity.
  - destruct (plain_listener self hook e h0 w i j Hdone Hcancel Hready)
      as (sub & this & Hsub & Hf & Hr).
    cbn [app flat_map foldl]. rewrite Hsub. cbn [app].
    rewrite (run_listeners_fire _ _ _ _ _ _ _ Hf), Hr.
    fold (answered h0 (normalized_payload (surface w) e i j) w).
    rewrite (answered_quiet _ _ _ Hh0).
    rewrite (IH (called h0 (normalized_payload (surface w) e i j) w)) by exact Hready.
    reflexivity.
Qed.

(** Handlers bound one after the other to one event, of which all but the
    last leave the page alone: when the raw trigger fires, each is called
    with the normalized payload, in the order of binding. *)
Lemma dispatch_bound (self : View) (e : EventName) (hs : list Handler) (h : Handler)
    (w : World) (i j : nat) :
  listeners w = flat_map (subscriptions e) (hs ++ [h]) →
  Forall leaves_page_alone hs →
  trigger_ready (surface w) e i j →
  calls (final (dispatch self (raw_trigger self e i j) w))
  = (calls w ++
     ((λ h', mkInvocation h'
               (normalized_payload (before_listeners (raw_trigger self e i j) (surface w))
                  e i j)) <$> (hs ++ [h])))%list.
Proof.
  intros HL Hquiet Hready.
  apply (trigger_ready_before self) in Hready.
  rewrite dispatch_final, HL.
  set (event := raw_trigger self e i j) in *.
  remember (set_surface (before_listeners event (surface w)) w) as w0 eqn:Hw0.
  assert (Hs0 : before_listeners event (surface w) = surface w0) by (by subst w0).
  assert (Hc0 : calls w = calls w0) by (by subst w0).
  assert (HL0 : Forall registered (listeners w0))
    by (subst w0; cbn [set_surface listeners]; rewrite HL; apply bound_registered).
  rewrite Hs0 in *. rewrite Hc0. clear Hw0 Hs0 Hc0 HL.
  assert (Hcase : e = ev_itemEditDone ∨ e = ev_itemEditCancel ∨
                  (e ≠ ev_itemEditDone ∧ e ≠ ev_itemEditCancel))
    by (destruct e; first [by left | by (right; left) | by (right; right)]).
  destruct Hcase as [-> | [-> | [Hdone Hcancel]]].
  - destruct Hready as (item & el & Hi & Hj & [Hm Hflag] & id & _ & Hid).
    subst event. cbn [raw_trigger type].
    rewrite (blur_listeners _ _ _ _ _ _ item el None hs h);
      [ | apply bound_registered | apply done_handlers_bound | done ..].
    rewrite calls_answered. unfold committed; wsimpl. cbn [normalized_payload].
    unfold item_id. rewrite Hi, (element_at_Some _ _ _ _ _ Hi Hj). cbn [from_option].
    rewrite fmap_app, app_assoc. reflexivity.
  - destruct Hready as (item & el & Hi & Hj & Hm & id & _ & Hid).
    subst event. cbn [raw_trigger type]. fold (escape_key self i j).
    rewrite (escape_listeners _ _ _ _ _ item el hs h);
      [ | apply bound_registered | apply cancel_handlers_bound | done ..].
    rewrite calls_answered. unfold silenced; wsimpl. cbn [normalized_payload].
    unfold item_id. rewrite Hi. cbn [from_option].
    rewrite fmap_app, app_assoc. f_equal.
    destruct hs; [by rewrite app_nil_r | reflexivity].
  - subst event.
    assert (Hhook : (match type (raw_trigger self e i j) with
                     | blur => λ _ : Node, mret tt
                     | _ => blur_method self
                     end) = blur_method self) by (by destruct e).
    rewrite Hhook.
    rewrite (plain_listeners _ _ _ _ _ _ _ _ Hdone Hcancel Hquiet Hready).
    rewrite calls_answered, calls_foldl_called, fmap_app, app_assoc. reflexivity.
Qed.

(** C2, as amended.  For every event name and every two handlers of which
    the first leaves the page alone: after [bind (event, h1)] and
    [bind (event, h2)] on a view without earlier subscriptions, the
    subscriptions of both calls are registered, those of [h1] first, and
    when the raw trigger of the event fires (on an item with a safe integer
    for its id, for the events of an item), both handlers are called,
    [h1] before [h2], with the normalized payload read from the page as the
    listeners find it: for a click on a checkbox, after the browser has
    toggled it.  Registration is additive. *)
Theorem bind_twice_both_invoked (self : View) (e : EventName) (h1 h2 : Handler)
    (w : World) (i j : nat) :
  listeners w = [] →
  leaves_page_alone h1 →
  trigger_ready (surface w) e i j →
  ∃ w2 w3,
    (bind self (event_name e) h1;; bind self (event_name e) h2) w = Return tt w2 ∧
    listeners w2 = (subscriptions e h1 ++ subscriptions e h2)%list ∧
    dispatch self (raw_trigger self e i j) w2 = Return tt w3 ∧
    calls w3
    = (calls w ++
       [mkInvocation h1
          (normalized_payload (before_listeners (raw_trigger self e i j) (surface w)) e i j);
        mkInvocation h2
          (normalized_payload (before_listeners (raw_trigger self e i j) (surface w)) e i j)])%list.
Proof.
  intros HL Hh1 Hready. pose proof (trigger_ready_target _ _ _ _ Hready) as Hanchor.
  assert (Hbind : (bind self (event_name e) h1;; bind self (event_name e) h2) w
                  = Return tt (with_listeners (subscriptions e h1 ++ subscriptions e h2) w)).
  { unfold mbind, M_bind. rewrite (bind_registers _ _ _ _ Hanchor).
    rewrite bind_registers by exact Hanchor. simpl. by rewrite HL. }
  rewrite Hbind. clear Hbind Hanchor.
  eexists _, _. split; [reflexivity | split; [reflexivity | ]].
  rewrite dispatch_returns. split; [reflexivity | ].
  apply (dispatch_bound self e [h1] h2
           (with_listeners (subscriptions e h1 ++ subscriptions e h2) w) i j).
  - cbn [with_listeners listeners app flat_map]. by rewrite app_nil_r.
  - by constructor.
  - exact Hready.
Qed.

Lemma bind_twice_both_invoked_witness :
  listeners sample_world = [] ∧
  leaves_page_alone (recorder 1) ∧
  trigger_ready (surface sample_world) ev_itemToggle 1 0 ∧
  ∃ w2 w3,
    (bind sample_view "itemToggle" (recorder 1);;
     bind sample_view "itemToggle" (recorder 2)) sample_world
    = Return tt w2 ∧
    listeners w2
    = (subscriptions ev_itemToggle (recorder 1) ++ subscriptions ev_itemToggle (recorder 2))%list ∧
    dispatch sample_view (mkEvent click (ItemElement 1 0) None) w2 = Return tt w3 ∧
    calls w3
    = [mkInvocation (recorder 1)
         [VObject [("id", VNumber (Int 2)); ("completed", VBool false)]];
       mkInvocation (recorder 2)
         [VObject [("id", VNumber (Int 2)); ("completed", VBool false)]]].
Proof.
  assert (HL : listeners sample_world = []) by reflexivity.
  assert (Hh1 : leaves_page_alone (recorder 1)) by (by intros args s).
  assert (Hready : trigger_ready (surface sample_world) ev_itemToggle 1 0).
  { eexists _, _. split; [reflexivity | split; [reflexivity | split; [by split | ]]].
    exists (Int 2). split; [unfold safe_integer, MAX_SAFE_INTEGER; lia | reflexivity]. }
  split; [exact HL | split; [exact Hh1 | split; [exact Hready | ]]].
  exact (bind_twice_both_invoked sample_view ev_itemToggle (recorder 1) (recorder 2)
           sample_world 1 0 HL Hh1 Hready).
Defined.

(** C2 as stated fails: after two calls of [bind] for newTodo there are two
    subscriptions, and a change of the new-item input calls the first
    handler as well as the second. *)
Lemma bind_twice_newTodo_calls_both :
  ∃ w,
    (bind sample_view "newTodo" (recorder 1);;
     bind sample_view "newTodo" (recorder 2);;
     dispatch sample_view (mkEvent change (AnchorNode the_newTodo) None)) sample_world
    = Return tt w ∧
    length (listeners w) = 2 ∧
    (callee <$> calls w) = [recorder 1; recorder 2].
Proof. eexists. split; [reflexivity | split; reflexivity]. Qed.

(** Why the first handler has to leave the page alone: a first handler that
    answers a click on the toggle of an item with elementComplete changes
    what the second handler is given.  The click checks the box of item 1,
    the first handler is told so and unchecks it, and the second handler is
    told that it is not checked. *)
Lemma first_handler_changes_payload :
  calls (final ((bind sample_view "itemToggle" unchecking;;
                 bind sample_view "itemToggle" (recorder 2);;
                 dispatch sample_view (mkEvent click (ItemElement 0 0) None)) sample_world))
  = [mkInvocation unchecking [VObject [("id", VNumber (Int 1)); ("completed", VBool true)]];
     mkInvocation (recorder 2) [VObject [("id", VNumber (Int 1)); ("completed", VBool false)]]].
Proof. reflexivity. Qed.

(** * Further properties of the view *)

(** ** The sample pages, continued *)

Lemma sample_links_present : links_present (filters (surface sample_world)).
Proof.
  intros page Hpage. unfold page_names in Hpage.
  apply elem_of_cons in Hpage as [-> | Hpage].
  { exists (filter_link "#/" "selected"). split; [ | reflexivity].
    apply list_elem_of_lookup. by exists 0. }
  apply elem_of_cons in Hpage as [-> | Hpage].
  { exists (filter_link "#/active" ""). split; [ | reflexivity].
    apply list_elem_of_lookup. by exists 1. }
  apply elem_of_cons in Hpage as [-> | Hpage].
  { exists (filter_link "#/completed" ""). split; [ | reflexivity].
    apply list_elem_of_lookup. by exists 2. }
  by apply elem_of_nil in Hpage.
Qed.

Lemma sample_only_marked : only_marked (filters (surface sample_world)) 0.
Proof.
  split; [by eexists | ].
  intros [|[|[|k]]] e; simpl; intros He; try discriminate;
    injection He as <-; vm_compute; split; intros; congruence || lia.
Qed.

Lemma editing_world_registered : Forall registered (listeners editing_world).
Proof.
  repeat constructor.
  - exists ev_itemEditDone, (recorder 1). left.
  - exists ev_itemEditDone, (recorder 1). right. left.
  - exists ev_itemEditCancel, (recorder 2). left.
Qed.

(** ** What render and bind leave alone *)

Section Frame.
Context (R : World → World → Prop).
Context (R_refl : ∀ w, R w w) (R_trans : ∀ w1 w2 w3, R w1 w2 → R w2 w3 → R w1 w3).
Context (R_surface : ∀ s w, R w (set_surface s w)).

Lemma preserves_ret {A} (a : A) : preserves R (mret a).
Proof. intros w. apply R_refl. Qed.

Lemma preserves_throw {A} (e : Error) : preserves R (throw (A := A) e).
Proof. intros w. apply R_refl. Qed.

Lemma preserves_bind {A B} (m : M A) (f : A → M B) :
  preserves R m → (∀ a, preserves R (f a)) → preserves R (m ≫= f).
Proof.
  intros Hm Hf w. unfold mbind, M_bind. specialize (Hm w).
  destruct (m w) as [a w'|e w']; simpl in *; [ | exact Hm].
  eapply R_trans; [exact Hm | apply Hf].
Qed.

Lemma preserves_get_surface : preserves R get_surface.
Proof. intros w. apply R_refl. Qed.

Lemma preserves_put_surface (s : Surface) : preserves R (put_surface s).
Proof. intros w. apply R_surface. Qed.

Lemma preserves_lift {A} (r : Error + A) : preserves R (lift r).
Proof. destruct r; [apply preserves_throw | apply preserves_ret]. Qed.

Lemma preserves_deref {A} (o : option A) : preserves R (deref o).
Proof. destruct o; [apply preserves_ret | apply preserves_throw]. Qed.

Lemma preserves_quoted (text : string) : preserves R (quoted text).
Proof. unfold quoted. destruct (css_string_literal text); [apply preserves_ret | apply preserves_throw]. Qed.
End Frame.

(** Decompose a computation into its steps. *)
Ltac frame_steps :=
  repeat (first
    [ eapply preserves_bind
    | eapply preserves_ret
    | eapply preserves_throw
    | eapply preserves_get_surface
    | eapply preserves_put_surface
    | eapply preserves_lift
    | eapply preserves_deref
    | eapply preserves_quoted
    | match goal with
      | |- preserves _ (match ?x with _ => _ end) => destruct x
      | |- preserves _ (if ?x then _ else _) => destruct x
      end ];
    try eassumption;
    try match goal with |- ∀ _, _ => intros ? end).

Section FrameOfCommands.
Context (R : World → World → Prop).
Context (R_refl : ∀ w, R w w) (R_trans : ∀ w1 w2 w3, R w1 w2 → R w2 w3 → R w1 w3).
Context (R_surface : ∀ s w, R w (set_surface s w)).

Lemma preserves_removeItem (id : value) : preserves R (_removeItem id).
Proof. unfold _removeItem. frame_steps. Qed.

Lemma preserves_clearCompletedButton (self : View) (c v : value) :
  preserves R (_clearCompletedButton self c v).
Proof. unfold _clearCompletedButton. frame_steps. Qed.

Lemma preserves_setFilter (page : value) : preserves R (_setFilter page).
Proof. unfold _setFilter, _setFilter_unmark, _setFilter_mark. frame_steps. Qed.

Lemma preserves_elementComplete (id completed : value) :
  preserves R (_elementComplete id completed).
Proof. unfold _elementComplete. frame_steps. Qed.

Lemma preserves_editItemDone (id title : value) : preserves R (_editItemDone id title).
Proof. unfold _editItemDone. frame_steps. Qed.

Lemma preserves_command (self : View) (command : Command.t) (parameter : value) :
  command ≠ Command.editItem ∨ (∀ id title, preserves R (_editItem self id title)) →
  preserves R (run_command self command parameter).
Proof.
  intros Hedit.
  destruct command; cbn [run_command];
    try (frame_steps;
         first [ apply preserves_removeItem | apply preserves_clearCompletedButton
               | apply preserves_setFilter | apply preserves_elementComplete
               | apply preserves_editItemDone ]; assumption).
  destruct Hedit as [Hne | Hed]; [done | ].
  revert Hed. generalize (_editItem self). intros E HE. frame_steps. apply HE.
Qed.

Lemma preserves_render (self : View) (viewCmd : string) (parameter : value) :
  viewCmd ≠ "editItem" ∨ (∀ id title, preserves R (_editItem self id title)) →
  preserves R (render self viewCmd parameter).
Proof.
  intros Hedit. unfold render.
  destruct (viewCommands !! viewCmd) as [command|] eqn:Hc.
  - apply preserves_command. destruct Hedit as [Hne | Hed]; [left | by right].
    intros ->. apply Hne. apply elem_of_list_to_map_2 in Hc.
    repeat (apply elem_of_cons in Hc as [Hc | Hc]; [by injection Hc as -> | ]).
    by apply elem_of_nil in Hc.
  - destruct (Object_prototype !! viewCmd);
      [apply preserves_lift | apply preserves_throw]; assumption.
Qed.
End FrameOfCommands.

Lemma same_but_surface_trans (w1 w2 w3 : World) :
  same_but_surface w1 w2 → same_but_surface w2 w3 → same_but_surface w1 w3.
Proof. intros [s1 ->] [s2 ->]. by exists s2. Qed.

Lemma same_but_surface_refl (w : World) : same_but_surface w w.
Proof. exists (surface w). by rewrite set_surface_same. Qed.

(** Every command except editItem changes nothing but the page, whether it
    returns or throws: the subscriptions, the record of the calls to the
    handlers, the console and the reported exceptions are as before. *)
Theorem render_changes_page_only (self : View) (viewCmd : string) (parameter : value)
    (w : World) :
  viewCmd ≠ "editItem" →
  ∃ s, final (render self viewCmd parameter w) = set_surface s w.
Proof.
  intros Hne.
  apply (preserves_render same_but_surface same_but_surface_refl same_but_surface_trans).
  - intros s w0. by exists s.
  - by left.
Qed.

Lemma render_changes_page_only_witness :
  "setFilter" ≠ "editItem" ∧
  ∃ s, final (render sample_view "setFilter" (VString "nowhere") sample_world)
       = set_surface s sample_world.
Proof.
  assert (H : "setFilter" ≠ "editItem") by discriminate.
  split; [exact H | ].
  exact (render_changes_page_only sample_view "setFilter" (VString "nowhere") sample_world H).
Defined.

(** *** Subscriptions *)

Section Listeners.
Context (self : View).

Lemma same_listeners_trans (w1 w2 w3 : World) :
  same_listeners w1 w2 → same_listeners w2 w3 → same_listeners w1 w3.
Proof. unfold same_listeners. congruence. Qed.

Lemma keeps_invoke (h : Handler) (args : list value) : preserves same_listeners (invoke h args).
Proof.
  intros w. unfold same_listeners, invoke, record_call; run. simpl.
  by destruct (handler_body h args (surface w)).
Qed.

Lemma keeps_console_log (line : string) : preserves same_listeners (console_log line).
Proof. by intros w. Qed.

Lemma keeps_bind {A B} (m : M A) (f : A → M B) :
  preserves same_listeners m → (∀ a, preserves same_listeners (f a)) →
  preserves same_listeners (m ≫= f).
Proof. apply preserves_bind, same_listeners_trans. Qed.

Lemma keeps_ret {A} (a : A) : preserves same_listeners (mret a).
Proof. by intros w. Qed.

Lemma keeps_throw {A} (e : Error) : preserves same_listeners (throw (A := A) e).
Proof. by intros w. Qed.

Lemma keeps_get_surface : preserves same_listeners get_surface.
Proof. by intros w. Qed.

Lemma keeps_put_surface (s : Surface) : preserves same_listeners (put_surface s).
Proof. by intros w. Qed.

Lemma keeps_deref {A} (o : option A) : preserves same_listeners (deref o).
Proof. destruct o; by intros w. Qed.

Lemma keeps_quoted (text : string) : preserves same_listeners (quoted text).
Proof. unfold quoted. destruct (css_string_literal text); by intros w. Qed.

Ltac listener_steps :=
  repeat (first
    [ apply keeps_invoke
    | apply keeps_console_log
    | apply keeps_ret
    | apply keeps_throw
    | apply keeps_get_surface
    | apply keeps_put_surface
    | apply keeps_deref
    | apply keeps_quoted
    | apply keeps_bind
    | match goal with
      | |- preserves _ (match ?x with _ => _ end) => destruct x
      | |- preserves _ (if ?x then _ else _) => destruct x
      end ];
    try match goal with |- ∀ _, _ => intros ? end).

Lemma keeps_callback (hook : Node → M unit) (callback : Callback) (this : Node)
    (event : Event) :
  (∀ n, preserves same_listeners (hook n)) →
  preserves same_listeners (run_callback self hook callback this event).
Proof.
  intros Hhook. destruct callback; cbn [run_callback]; unfold _itemId, update_node;
    listener_steps; apply Hhook.
Qed.

Lemma keeps_run_listeners (hook : Node → M unit) (subs : list Subscription)
    (event : Event) (w : World) :
  (∀ n, preserves same_listeners (hook n)) →
  listeners (run_listeners self hook subs event w) = listeners w.
Proof.
  intros Hhook. revert w. induction subs as [|sub subs IH]; intros w; [reflexivity | ].
  cbn [run_listeners]. rewrite IH.
  destruct (fires (surface w) sub event) as [this|]; [ | reflexivity].
  pose proof (keeps_callback hook (sub_callback sub) this event Hhook w) as H.
  unfold same_listeners in H.
  destruct (run_callback self hook (sub_callback sub) this event w); exact H.
Qed.

Lemma keeps_dispatch_with (hook : Node → M unit) (event : Event) :
  (∀ n, preserves same_listeners (hook n)) →
  preserves same_listeners (dispatch_with self hook event).
Proof. intros Hhook w. by apply keeps_run_listeners. Qed.

Lemma keeps_blur_method (n : Node) : preserves same_listeners (blur_method self n).
Proof.
  unfold blur_method. listener_steps.
  apply keeps_dispatch_with. intros ?. apply keeps_ret.
Qed.

Lemma keeps_editItem (id title : value) : preserves same_listeners (_editItem self id title).
Proof.
  unfold _editItem, focus_method, update_node. listener_steps;
    apply keeps_dispatch_with; intros ?; apply keeps_ret.
Qed.
End Listeners.

Lemma render_keeps_listeners (self : View) (viewCmd : string) (parameter : value)
    (w : World) :
  listeners (final (render self viewCmd parameter w)) = listeners w.
Proof.
  apply (preserves_render same_listeners).
  - by intros ?.
  - apply same_listeners_trans.
  - by intros ? ?.
  - right. apply keeps_editItem.
Qed.

Lemma dispatch_keeps_listeners (self : View) (event : Event) (w : World) :
  listeners (final (dispatch self event w)) = listeners w.
Proof.
  assert (H : preserves same_listeners (dispatch self event)); [ | apply H].
  unfold dispatch. destruct (type event);
    try (apply keeps_dispatch_with; apply keeps_blur_method);
    (apply keeps_bind; [apply keeps_get_surface | intros s]);
    (apply keeps_bind; [apply keeps_put_surface | intros _]);
    apply keeps_dispatch_with; first [apply keeps_blur_method | intros ?; apply keeps_ret].
Qed.

(** No command registers or removes a subscription, and no user action
    does: the subscriptions are those that [bind] has made. *)
Theorem render_and_dispatch_keep_listeners (self : View) (viewCmd : string)
    (parameter : value) (event : Event) (w : World) :
  listeners (final (render self viewCmd parameter w)) = listeners w ∧
  listeners (final (dispatch self event w)) = listeners w.
Proof. split; [apply render_keeps_listeners | apply dispatch_keeps_listeners]. Qed.

(** [bind] only appends subscriptions, and these are among the ones listed
    for the events: it never calls the handler and never touches the page,
    whatever the name, and also when it throws. *)
Theorem bind_only_appends (self : View) (name : string) (h : Handler) (w : World) :
  ∃ subs,
    final (bind self name h w) = with_listeners (listeners w ++ subs) w ∧
    Forall registered subs.
Proof.
  assert (Hnil : w = with_listeners (listeners w ++ []) w).
  { unfold with_listeners. rewrite app_nil_r. by destruct w. }
  unfold bind.
  repeat match goal with
  | |- context [if String.eqb ?a ?b then _ else _] => destruct (String.eqb a b)
  end;
  unfold _bindItemEditDone, _bindItemEditCancel, dollar_on, dollar_delegate, add_listener;
  run; wsimpl;
  try match goal with
  | |- context [anchor_present ?s ?a] =>
      let E := fresh "E" in
      destruct (anchor_present s a) as [[]|] eqn:E; cbn beta iota; wsimpl;
      rewrite ?E; cbn beta iota
  end; cbn [final]; wsimpl;
  try (exists []; split; [exact Hnil | constructor]).
  - exists (subscriptions ev_newTodo h). split; [reflexivity | apply subscriptions_registered].
  - exists (subscriptions ev_removeCompleted h). split; [reflexivity | apply subscriptions_registered].
  - exists (subscriptions ev_toggleAll h). split; [reflexivity | apply subscriptions_registered].
  - exists (subscriptions ev_itemEdit h). split; [reflexivity | apply subscriptions_registered].
  - exists (subscriptions ev_itemRemove h). split; [reflexivity | apply subscriptions_registered].
  - exists (subscriptions ev_itemToggle h). split; [reflexivity | apply subscriptions_registered].
  - exists (subscriptions ev_itemEditDone h). split; [ | apply subscriptions_registered].
    unfold with_listeners. simpl. by rewrite <- app_assoc.
  - exists (subscriptions ev_itemEditCancel h). split; [reflexivity | apply subscriptions_registered].
Qed.

(** ** Faults that are not guarded *)

(** The commands that read a field of their parameter throw a TypeError on
    a parameter that is [undefined] or [null], before anything is written:
    the world is unchanged. *)
Theorem render_without_parameter_faults (self : View) (viewCmd : string)
    (parameter : value) (w : World) :
  viewCmd ∈ field_reading_commands →
  parameter = VUndefined ∨ parameter = VNull →
  render self viewCmd parameter w = Throw TypeError w.
Proof.
  intros Hin Hp. unfold field_reading_commands in Hin.
  repeat (apply elem_of_cons in Hin as [-> | Hin]); try (by apply elem_of_nil in Hin);
    render_command; run; destruct Hp as [-> | ->]; simpl;
    repeat match goal with
    | |- context [match ?o with Some _ => _ | None => _ end] => destruct o
    end; reflexivity.
Qed.

Lemma render_without_parameter_faults_witness :
  ("elementComplete" ∈ field_reading_commands) ∧
  (VUndefined = VUndefined ∨ VUndefined = VNull) ∧
  render sample_view "elementComplete" VUndefined sample_world = Throw TypeError sample_world.
Proof.
  assert (H : "elementComplete" ∈ field_reading_commands) by decide_now.
  split; [exact H | split; [by left | ]].
  exact (render_without_parameter_faults sample_view "elementComplete" VUndefined
           sample_world H (or_introl eq_refl)).
Defined.

(** [_elementComplete] writes the class of the item before it looks for the
    checkbox: on an item without an [input], found by a safe integer for its
    id, it throws a TypeError and the class has been changed all the same. *)
Theorem elementComplete_without_checkbox (self : View) (id : number) (completed : bool)
    (w : World) (i : nat) (listItem : ItemNode) :
  safe_integer id →
  qs (by_data_id (number_to_string id)) (items (surface w)) = Some (i, listItem) →
  qs (by_tag "input") (elements listItem) = None →
  render self "elementComplete" (complete_parameter id completed) w
  = Throw TypeError
      (set_surface (modify_items
         (<[i := set_li_className (if completed then "completed" else "") listItem]>)
         (surface w)) w).
Proof.
  intros _ Hi Hj. pose proof (proj1 (qs_Some _ _ _ _) Hi) as (Hi' & _).
  rewrite render_elementComplete.
  unfold _elementComplete; run. simpl ToString. rewrite quoted_number. run.
  simpl surface. rewrite Hi. run. rewrite Hj. run. simpl.
  by rewrite (modify_item_at _ _ _ _ Hi').
Qed.

Lemma elementComplete_without_checkbox_witness :
  safe_integer (Int 5) ∧
  qs (by_data_id (number_to_string (Int 5))) (items (surface world_without_checkbox))
  = Some (0, item_without_checkbox) ∧
  qs (by_tag "input") (elements item_without_checkbox) = None ∧
  render sample_view "elementComplete" (complete_parameter (Int 5) true) world_without_checkbox
  = Throw TypeError
      (set_surface (modify_items
         (<[0 := set_li_className "completed" item_without_checkbox]>)
         (surface world_without_checkbox)) world_without_checkbox).
Proof.
  assert (Hi : qs (by_data_id (number_to_string (Int 5)))
                 (items (surface world_without_checkbox))
               = Some (0, item_without_checkbox)) by reflexivity.
  assert (Hj : qs (by_tag "input") (elements item_without_checkbox) = None) by reflexivity.
  assert (Hsafe : safe_integer (Int 5)) by (unfold safe_integer, MAX_SAFE_INTEGER; lia).
  split; [exact Hsafe | split; [exact Hi | split; [exact Hj | ]]].
  exact (elementComplete_without_checkbox sample_view (Int 5) true world_without_checkbox
           0 item_without_checkbox Hsafe Hi Hj).
Defined.

(** ** Composition of commands *)

(** [elementComplete] is absolute: of two calls in a row for the same item,
    only the second one shows. *)
Theorem elementComplete_last_wins (self : View) (id : number) (b1 b2 : bool) (w : World)
    (i j : nat) (listItem : ItemNode) (input : Element) :
  qs (by_data_id (number_to_string id)) (items (surface w)) = Some (i, listItem) →
  qs (by_tag "input") (elements listItem) = Some (j, input) →
  (render self "elementComplete" (complete_parameter id b1);;
   render self "elementComplete" (complete_parameter id b2)) w
  = render self "elementComplete" (complete_parameter id b2) w.
Proof.
  intros Hi Hj.
  pose proof (proj1 (qs_Some _ _ _ _) Hi) as (Hi' & Hsel & _).
  rewrite !render_elementComplete. unfold mbind, M_bind.
  rewrite (elementComplete_present _ _ _ _ _ _ _ Hi Hj).
  rewrite (elementComplete_present _ (VBool b2) _ _ _ _ _ Hi Hj). simpl ToBoolean.
  set (w1 := set_surface _ w).
  assert (Hi1 : qs (by_data_id (number_to_string id)) (items (surface w1))
                = Some (i, completed_item b1 j listItem)).
  { subst w1. simpl surface. rewrite items_modify_items_insert.
    eapply qs_insert; [ | exact Hi]. exact Hsel. }
  assert (Hj1 : qs (by_tag "input") (elements (completed_item b1 j listItem))
                = Some (j, set_checked b1 input)).
  { simpl. eapply qs_alter; [ | exact Hj]. reflexivity. }
  rewrite (elementComplete_present _ _ _ _ _ _ _ Hi1 Hj1). simpl ToBoolean.
  rewrite completed_item_twice. subst w1. unfold set_surface; simpl.
  rewrite modify_items_twice. do 2 f_equal.
  unfold modify_items, compose. destruct (todoList (surface w)); [ | reflexivity].
  by rewrite list_insert_insert_eq.
Qed.

Lemma elementComplete_last_wins_witness :
  qs (by_data_id (number_to_string (Int 1))) (items (surface sample_world))
  = Some (0, sample_item (todo 1 "A" false)) ∧
  qs (by_tag "input") (elements (sample_item (todo 1 "A" false)))
  = Some (0, sample_checkbox "toggle" false) ∧
  (render sample_view "elementComplete" (complete_parameter (Int 1) true);;
   render sample_view "elementComplete" (complete_parameter (Int 1) false)) sample_world
  = render sample_view "elementComplete" (complete_parameter (Int 1) false) sample_world.
Proof.
  assert (Hi : qs (by_data_id (number_to_string (Int 1))) (items (surface sample_world))
               = Some (0, sample_item (todo 1 "A" false))) by reflexivity.
  assert (Hj : qs (by_tag "input") (elements (sample_item (todo 1 "A" false)))
               = Some (0, sample_checkbox "toggle" false))
    by reflexivity.
  split; [exact Hi | split; [exact Hj | ]].
  exact (elementComplete_last_wins sample_view (Int 1) true false sample_world 0 0 _ _ Hi Hj).
Defined.

(** ** The filter links, continued *)

Lemma qs_alter_None {A} (sel : A → bool) (f : A → A) (k : nat) (l : list A) :
  (∀ y, sel (f y) = sel y) →
  qs sel l = None → qs sel (alter f k l) = None.
Proof.
  intros Hf Hq. pose proof (qs_alter_position sel f k l Hf) as H.
  rewrite Hq in H. by destruct (qs sel (alter f k l)).
Qed.

(** [_setFilter] takes the marker off before it looks for the link of the
    page: for a page that has no link it throws a TypeError and no link is
    marked any more. *)
Theorem setFilter_unknown_page (self : View) (page : string) (w : World) (k : nat) :
  only_marked (filters (surface w)) k →
  css_string_literal ("#/" ++ page) = true →
  qs (by_href ("#/" ++ page)) (filters (surface w)) = None →
  ∃ w',
    render self "setFilter" (VString page) w = Throw TypeError w' ∧
    w' = set_surface (set_filters (alter (set_className "") k (filters (surface w)))
                        (surface w)) w ∧
    none_marked (filters (surface w')).
Proof.
  intros Hk Hlit Hq. destruct (unmark_step w k Hk) as [Hu Hn].
  eexists. split; [ | split; [reflexivity | exact Hn]].
  render_command. cbn [run_command]. unfold _setFilter, mbind at 1, M_bind at 1.
  rewrite Hu. unfold _setFilter_mark; run. simpl ToString. unfold quoted.
  rewrite Hlit. run. wsimpl.
  replace (filters (set_filters (alter (set_className "") k (filters (surface w))) (surface w)))
    with (alter (set_className "") k (filters (surface w))) by reflexivity.
  rewrite (qs_alter_None (by_href ("#/" ++ page)) (set_className "") k _ (fun y => eq_refl) Hq).
  reflexivity.
Qed.

Lemma setFilter_unknown_page_witness :
  only_marked (filters (surface sample_world)) 0 ∧
  css_string_literal ("#/" ++ "nowhere") = true ∧
  qs (by_href ("#/" ++ "nowhere")) (filters (surface sample_world)) = None ∧
  ∃ w',
    render sample_view "setFilter" (VString "nowhere") sample_world = Throw TypeError w' ∧
    w' = set_surface (set_filters (alter (set_className "") 0 (filters (surface sample_world)))
                        (surface sample_world)) sample_world ∧
    none_marked (filters (surface w')).
Proof.
  assert (Hlit : css_string_literal ("#/" ++ "nowhere") = true) by reflexivity.
  assert (Hq : qs (by_href ("#/" ++ "nowhere")) (filters (surface sample_world)) = None)
    by reflexivity.
  split; [exact sample_only_marked | split; [exact Hlit | split; [exact Hq | ]]].
  exact (setFilter_unknown_page sample_view "nowhere" sample_world 0
           sample_only_marked Hlit Hq).
Defined.

Lemma setFilter_result (self : View) (page : string) (w : World) (k : nat) :
  page ∈ page_names →
  links_present (filters (surface w)) →
  only_marked (filters (surface w)) k →
  ∃ i,
    render self "setFilter" (VString page) w
    = Return tt (set_surface
        (set_filters (alter (set_className "selected") i
                        (alter (set_className "") k (filters (surface w))))
           (surface w)) w) ∧
    link_of_page (filters (surface w)) i page ∧
    only_marked (alter (set_className "selected") i
                   (alter (set_className "") k (filters (surface w)))) i.
Proof.
  intros Hp Hl Hk. destruct (unmark_step w k Hk) as [Hu Hn].
  set (between := set_surface _ w) in Hu.
  assert (Hl' : links_present (filters (surface between))) by (by apply links_present_alter).
  destruct (mark_step page between Hp Hl' Hn) as (i & Hm & Hlink & Honly).
  exists i. split; [ | split; [ | exact Honly]].
  - render_command. cbn [run_command]. unfold _setFilter, mbind, M_bind.
    rewrite Hu. exact Hm.
  - unfold link_of_page in *. simpl in Hlink. by rewrite qs_alter_position in Hlink.
Qed.

(** Selecting the page that is already selected changes nothing: two calls
    of setFilter for the same page end in the same world as one. *)
Theorem setFilter_idempotent (self : View) (page : string) (w : World) (k : nat) :
  page ∈ page_names →
  links_present (filters (surface w)) →
  only_marked (filters (surface w)) k →
  (render self "setFilter" (VString page);; render self "setFilter" (VString page)) w
  = render self "setFilter" (VString page) w.
Proof.
  intros Hp Hl Hk.
  destruct (setFilter_result self page w k Hp Hl Hk) as (i & Hr & Hlink & Honly).
  unfold mbind, M_bind. rewrite Hr.
  set (l1 := alter (set_className "selected") i _) in *.
  set (w1 := set_surface _ w).
  assert (Hl1 : links_present (filters (surface w1))).
  { subst w1 l1. simpl. by do 2 apply links_present_alter. }
  destruct (setFilter_result self page w1 i Hp Hl1 Honly) as (i' & Hr' & Hlink' & _).
  assert (i' = i) as ->.
  { unfold link_of_page in *. subst w1 l1. simpl in Hlink'.
    rewrite !qs_alter_position in Hlink' by done. congruence. }
  rewrite Hr'. subst w1. unfold set_surface; simpl. do 2 f_equal.
  unfold set_filters; simpl. f_equal.
  subst l1. rewrite !list_alter_alter_eq. by apply list_alter_ext.
Qed.

Lemma setFilter_idempotent_witness :
  ("active" ∈ page_names) ∧
  links_present (filters (surface sample_world)) ∧
  only_marked (filters (surface sample_world)) 0 ∧
  (render sample_view "setFilter" (VString "active");;
   render sample_view "setFilter" (VString "active")) sample_world
  = render sample_view "setFilter" (VString "active") sample_world.
Proof.
  assert (Hp : "active" ∈ page_names) by decide_now.
  split; [exact Hp | split; [exact sample_links_present | split; [exact sample_only_marked | ]]].
  exact (setFilter_idempotent sample_view "active" sample_world 0 Hp
           sample_links_present sample_only_marked).
Defined.

(** ** Keys and the end of an edit *)

Lemma run_listeners_other_key (self : View) (hook : Node → M unit)
    (subs : list Subscription) (event : Event) (w : World) :
  Forall registered subs →
  other_key self event →
  run_listeners self hook subs event w = w.
Proof.
  intros Hreg Hkey. induction Hreg as [|sub subs Hsub _ IH]; [reflexivity | ].
  cbn [run_listeners].
  destruct (fires (surface w) sub event) as [this|] eqn:Hf; [ | exact IH].
  assert (Ht : sub_type sub = type event).
  { unfold fires in Hf. by destruct (bool_decide_reflect (sub_type sub = type event)). }
  destruct (registered_by_type _ Hsub) as [(Hb & Hu & Hp & _) | [[h ->] | [[h ->] | ->]]];
    destruct Hkey as [[Hty Hk] | [Hty Hk]]; simpl in Ht; try congruence;
    cbn [run_callback sub_callback keypress_listener];
    rewrite bool_decide_false by exact Hk; exact IH.
Qed.

(** A key that is released on the page and is not Escape, or pressed
    and is not Enter, changes nothing, whatever has been bound: no handler
    is called and the page stays as it is. *)
Theorem other_keys_ignored (self : View) (event : Event) (w : World) :
  Forall registered (listeners w) →
  other_key self event →
  dispatch self event w = Return tt w.
Proof.
  intros Hreg Hkey. unfold dispatch, dispatch_with.
  destruct Hkey as [[Hty Hk] | [Hty Hk]]; rewrite Hty;
    (rewrite run_listeners_other_key; [reflexivity | exact Hreg | ]);
    [by left | by right].
Qed.

Lemma other_keys_ignored_witness :
  Forall registered (listeners editing_world) ∧
  other_key sample_view (mkEvent keyup (ItemElement 0 3) (Some 13%Z)) ∧
  dispatch sample_view (mkEvent keyup (ItemElement 0 3) (Some 13%Z)) editing_world
  = Return tt editing_world.
Proof.
  assert (Hkey : other_key sample_view (mkEvent keyup (ItemElement 0 3) (Some 13%Z)))
    by (left; split; [reflexivity | discriminate]).
  split; [exact editing_world_registered | split; [exact Hkey | ]].
  exact (other_keys_ignored sample_view _ editing_world editing_world_registered Hkey).
Defined.

Lemma calls_committed (id : number) (title : string) (hs : list Handler) (w : World) :
  calls (committed id title hs w) = (calls w ++ (done_invocation id title <$> hs))%list.
Proof. reflexivity. Qed.

(** A blur on an edit field that is not flagged. *)
Lemma dispatch_blur (self : View) (w : World) (i j : nat)
    (item : ItemNode) (field : Element) (hs : list Handler) (h : Handler) :
  Forall registered (listeners w) →
  done_handlers (listeners w) = (hs ++ [h])%list →
  Forall leaves_page_alone hs →
  items (surface w) !! i = Some item →
  elements item !! j = Some field →
  matches sel_li_edit field = true →
  dataset_truthy (iscanceled field) = false →
  dispatch self (mkEvent blur (ItemElement i j) None) w
  = Return tt
      (answered h [VObject [("id", VNumber (parseInt (VString (data_id item))));
                            ("title", VString (input_value field))]]
         (committed (parseInt (VString (data_id item))) (input_value field) hs
            (set_surface (modify_element i j (set_focused false) (surface w)) w))).
Proof.
  intros Hreg Hdone Hquiet Hi Hj Hm Hflag.
  unfold dispatch, dispatch_with. cbn [type target]. run; wsimpl.
  pose proof (items_modify_element _ i j (set_focused false) _ Hi) as Hi'.
  assert (Hj' : elements (set_elements (alter (set_focused false) j (elements item)) item) !! j
                = Some (set_focused false field))
    by (simpl; by rewrite list_lookup_alter_eq, Hj).
  by rewrite (blur_listeners _ _ _
                (set_surface (modify_element i j (set_focused false) (surface w)) w)
                i j _ _ None hs h Hreg Hdone Hquiet Hi' Hj' Hm Hflag).
Qed.

(** When an edit field that is not flagged as cancelled loses the focus,
    in an item with a safe integer for its id: every handler bound to
    itemEditDone is called once with the id of the item and the text of the
    field, in the order of binding, and no other handler is called, whatever
    else has been bound.  The last of these handlers may do to the page what
    it wants; the ones before it leave the page alone. *)
Theorem blur_commits_edit (self : View) (w : World) (i j : nat)
    (item : ItemNode) (field : Element) (id : number) (hs : list Handler) (h : Handler) :
  Forall registered (listeners w) →
  done_handlers (listeners w) = (hs ++ [h])%list →
  Forall leaves_page_alone hs →
  items (surface w) !! i = Some item →
  data_id item = number_to_string id →
  safe_integer id →
  elements item !! j = Some field →
  matches sel_li_edit field = true →
  dataset_truthy (iscanceled field) = false →
  ∃ w',
    dispatch self (mkEvent blur (ItemElement i j) None) w = Return tt w' ∧
    w' = answered h [VObject [("id", VNumber id); ("title", VString (input_value field))]]
           (committed id (input_value field) hs
              (set_surface (modify_element i j (set_focused false) (surface w)) w)) ∧
    calls w' = (calls w ++ (done_invocation id (input_value field) <$> (hs ++ [h])))%list.
Proof.
  intros Hreg Hdone Hquiet Hi Hid _ Hj Hm Hflag.
  rewrite (dispatch_blur self w i j item field hs h Hreg Hdone Hquiet Hi Hj Hm Hflag).
  rewrite Hid, parseInt_number_to_string.
  eexists. split; [reflexivity | split; [reflexivity | ]].
  rewrite calls_answered, calls_committed. wsimpl.
  by rewrite fmap_app, app_assoc.
Qed.

Lemma blur_commits_edit_witness :
  Forall registered (listeners editing_world) ∧
  done_handlers (listeners editing_world) = ([] ++ [recorder 1])%list ∧
  Forall leaves_page_alone [] ∧
  items (surface editing_world) !! 0 = Some edited_item ∧
  data_id edited_item = number_to_string (Int 1) ∧
  safe_integer (Int 1) ∧
  elements edited_item !! 3 = Some sample_edit_field ∧
  matches sel_li_edit sample_edit_field = true ∧
  dataset_truthy (iscanceled sample_edit_field) = false ∧
  ∃ w',
    dispatch sample_view (mkEvent blur (ItemElement 0 3) None) editing_world = Return tt w' ∧
    w' = answered (recorder 1)
           [VObject [("id", VNumber (Int 1)); ("title", VString (input_value sample_edit_field))]]
           (committed (Int 1) (input_value sample_edit_field) []
              (set_surface (modify_element 0 3 (set_focused false) (surface editing_world))
                 editing_world)) ∧
    calls w' = (calls editing_world ++
                (done_invocation (Int 1) (input_value sample_edit_field)
                   <$> ([] ++ [recorder 1])))%list.
Proof.
  assert (Hdone : done_handlers (listeners editing_world) = ([] ++ [recorder 1])%list)
    by reflexivity.
  assert (Hquiet : Forall leaves_page_alone []) by constructor.
  assert (Hi : items (surface editing_world) !! 0 = Some edited_item) by reflexivity.
  assert (Hid : data_id edited_item = number_to_string (Int 1)) by reflexivity.
  assert (Hsafe : safe_integer (Int 1)) by (unfold safe_integer, MAX_SAFE_INTEGER; lia).
  assert (Hj : elements edited_item !! 3 = Some sample_edit_field) by reflexivity.
  assert (Hm : matches sel_li_edit sample_edit_field = true) by reflexivity.
  assert (Hflag : dataset_truthy (iscanceled sample_edit_field) = false) by reflexivity.
  split; [exact editing_world_registered | split; [exact Hdone | split; [exact Hquiet | ]]].
  split; [exact Hi | split; [exact Hid | split; [exact Hsafe | split; [exact Hj | ]]]].
  split; [exact Hm | split; [exact Hflag | ]].
  exact (blur_commits_edit sample_view editing_world 0 3 edited_item sample_edit_field
           (Int 1) [] (recorder 1) editing_world_registered Hdone Hquiet Hi Hid Hsafe Hj
           Hm Hflag).
Defined.

(** Enter on a field that does not have the focus: [this.blur ()] does
    nothing. *)
Lemma enter_listeners_unfocused (self : View) (subs : list Subscription) (w : World)
    (i j : nat) (el : Element) :
  Forall registered subs →
  element_at (surface w) i j = Some el →
  focused el = false →
  run_listeners self (blur_method self) subs (enter_key self i j) w = w.
Proof.
  intros Hreg Hel Hfocus. induction Hreg as [|sub subs Hsub _ IH]; [reflexivity | ].
  cbn [run_listeners].
  destruct (fires (surface w) sub (enter_key self i j)) as [this|] eqn:Hf; [ | exact IH].
  assert (Ht : sub_type sub = keypress).
  { unfold fires in Hf. by destruct (bool_decide_reflect (sub_type sub = type (enter_key self i j))). }
  destruct (registered_by_type _ Hsub) as [(_ & _ & Hp & _) | [[h ->] | [[h ->] | ->]]];
    try done.
  assert (this = ItemElement i j) as ->.
  { unfold fires in Hf. simpl in Hf. rewrite Hel in Hf. simpl in Hf.
    destruct (matches _ _); congruence. }
  cbn [run_callback sub_callback keypress_listener enter_key keyCode].
  rewrite bool_decide_true by done.
  unfold blur_method; run. simpl. rewrite Hel. run. rewrite Hfocus. exact IH.
Qed.

Lemma enter_listeners (self : View) (subs : list Subscription) (w : World)
    (i j : nat) (item : ItemNode) (field : Element) :
  Forall registered subs →
  Forall registered (listeners w) →
  Forall leaves_page_alone (done_handlers (listeners w)) →
  items (surface w) !! i = Some item →
  elements item !! j = Some field →
  matches sel_li_edit field = true →
  focused field = true →
  dataset_truthy (iscanceled field) = false →
  (keypress_listener ∈ subs →
   run_listeners self (blur_method self) subs (enter_key self i j) w
   = committed (parseInt (VString (data_id item))) (input_value field)
       (done_handlers (listeners w))
       (set_surface (modify_element i j (set_focused false) (surface w)) w)) ∧
  (keypress_listener ∉ subs →
   run_listeners self (blur_method self) subs (enter_key self i j) w = w).
Proof.
  intros Hreg HL Hquiet Hi Hj Hm Hfocus Hflag.
  pose proof (element_at_Some _ _ _ _ _ Hi Hj) as Hel.
  induction Hreg as [|sub subs Hsub Hreg [IHin IHout]].
  { split; [by intros ?%elem_of_nil | reflexivity]. }
  assert (Hcase : (sub ≠ keypress_listener ∧ fires (surface w) sub (enter_key self i j) = None)
                  ∨ sub = keypress_listener).
  { destruct (registered_by_type _ Hsub) as [(_ & _ & Hp & _) | [[h ->] | [[h ->] | ->]]];
      [ left | left | left | by right ];
      (split; [ | by apply fires_other_type]); intros Heq; unfold keypress_listener in Heq;
      first [ discriminate Heq | subst sub; by apply Hp ]. }
  destruct Hcase as [[Hne Hskip] | ->].
  - rewrite run_listeners_skip by exact Hskip. split.
    + intros [Heq | Hin]%elem_of_cons; [by symmetry in Heq | by apply IHin].
    + intros Hout. apply IHout. intros Hin. apply Hout. by apply elem_of_cons; right.
  - split; [intros _ | intros Hout; exfalso; apply Hout; apply elem_of_cons; by left].
    pose proof (items_modify_element _ i j (set_focused false) _ Hi) as Hi'.
    assert (Hj' : elements (set_elements (alter (set_focused false) j (elements item)) item) !! j
                  = Some (set_focused false field))
      by (simpl; by rewrite list_lookup_alter_eq, Hj).
    erewrite run_listeners_step with
      (w' := committed (parseInt (VString (data_id item))) (input_value field)
               (done_handlers (listeners w))
               (set_surface (modify_element i j (set_focused false) (surface w)) w)).
    + apply enter_listeners_unfocused with (el := set_focused false field);
        [exact Hreg | | reflexivity].
      exact (element_at_Some _ _ _ _ _ Hi' Hj').
    + by apply (fires_delegated _ _ _ _ _ _ field).
    + cbn [run_callback sub_callback keypress_listener enter_key keyCode].
      rewrite bool_decide_true by done.
      unfold blur_method; run. simpl. rewrite Hel. run. rewrite Hfocus.
      run. unfold dispatch_with; wsimpl.
      by rewrite (blur_listeners_quiet _ _ _
                    (set_surface (modify_element i j (set_focused false) (surface w)) w)
                    i j _ _ None HL Hquiet Hi' Hj' Hm Hflag).
Qed.

(** Enter in the edit field that has the focus, in an item with a safe
    integer for its id, when the handlers bound to itemEditDone leave the
    page alone, commits the edit once: the first keypress listener takes the
    focus off the field, which calls every handler bound to itemEditDone
    once with the id and the text; the keypress listeners of further calls
    of [bind] find the field without the focus and do nothing. *)
Theorem enter_commits_once (self : View) (w : World) (i j : nat)
    (item : ItemNode) (field : Element) (id : number) :
  Forall registered (listeners w) →
  Forall leaves_page_alone (done_handlers (listeners w)) →
  keypress_listener ∈ listeners w →
  items (surface w) !! i = Some item →
  data_id item = number_to_string id →
  safe_integer id →
  elements item !! j = Some field →
  matches sel_li_edit field = true →
  focused field = true →
  dataset_truthy (iscanceled field) = false →
  dispatch self (enter_key self i j) w
  = Return tt
      (committed id (input_value field) (done_handlers (listeners w))
         (set_surface (modify_element i j (set_focused false) (surface w)) w)).
Proof.
  intros Hreg Hquiet Hin Hi Hid _ Hj Hm Hfocus Hflag.
  unfold dispatch, dispatch_with. cbn [type enter_key]. fold (enter_key self i j).
  rewrite (proj1 (enter_listeners _ _ _ _ _ item field Hreg Hreg Hquiet Hi Hj Hm Hfocus Hflag)
             Hin).
  by rewrite Hid, parseInt_number_to_string.
Qed.

Lemma enter_commits_once_witness :
  Forall registered (listeners editing_world) ∧
  Forall leaves_page_alone (done_handlers (listeners editing_world)) ∧
  keypress_listener ∈ listeners editing_world ∧
  items (surface editing_world) !! 0 = Some edited_item ∧
  data_id edited_item = number_to_string (Int 1) ∧
  safe_integer (Int 1) ∧
  elements edited_item !! 3 = Some sample_edit_field ∧
  matches sel_li_edit sample_edit_field = true ∧
  focused sample_edit_field = true ∧
  dataset_truthy (iscanceled sample_edit_field) = false ∧
  dispatch sample_view (enter_key sample_view 0 3) editing_world
  = Return tt
      (committed (Int 1) (input_value sample_edit_field)
         (done_handlers (listeners editing_world))
         (set_surface (modify_element 0 3 (set_focused false) (surface editing_world))
            editing_world)).
Proof.
  assert (Hquiet : Forall leaves_page_alone (done_handlers (listeners editing_world)))
    by (repeat constructor).
  assert (Hin : keypress_listener ∈ listeners editing_world)
    by (apply elem_of_cons; right; apply elem_of_cons; by left).
  assert (Hi : items (surface editing_world) !! 0 = Some edited_item) by reflexivity.
  assert (Hid : data_id edited_item = number_to_string (Int 1)) by reflexivity.
  assert (Hsafe : safe_integer (Int 1)) by (unfold safe_integer, MAX_SAFE_INTEGER; lia).
  assert (Hj : elements edited_item !! 3 = Some sample_edit_field) by reflexivity.
  assert (Hm : matches sel_li_edit sample_edit_field = true) by reflexivity.
  assert (Hfocus : focused sample_edit_field = true) by reflexivity.
  assert (Hflag : dataset_truthy (iscanceled sample_edit_field) = false) by reflexivity.
  split; [exact editing_world_registered | split; [exact Hquiet | split; [exact Hin | ]]].
  split; [exact Hi | split; [exact Hid | split; [exact Hsafe | split; [exact Hj | ]]]].
  split; [exact Hm | split; [exact Hfocus | split; [exact Hflag | ]]].
  exact (enter_commits_once sample_view editing_world 0 3 edited_item sample_edit_field
           (Int 1) editing_world_registered Hquiet Hin Hi Hid Hsafe Hj Hm Hfocus Hflag).
Defined.

(** ** Subscriptions and rendering *)

Lemma render_showEntries (self : View) (parameter : value) (w : World) :
  is_Some (todoList (surface w)) →
  render self "showEntries" parameter w
  = Return tt (set_surface (set_todoList (show (template self) parameter) (surface w)) w).
Proof. intros [l Hl]. render_command. cbn [run_command]. run. by rewrite Hl. Qed.

(** A handler bound before the list is rendered is reached from the items
    that are rendered afterwards: the subscriptions are on the cached
    elements, and [showEntries] replaces what is below the list only.  The
    handler is given the normalized payload read from the page as the
    listeners find it (for the events of an item, an item with a safe
    integer for its id). *)
Theorem bound_before_render (self : View) (e : EventName) (h : Handler)
    (parameter : value) (w : World) (i j : nat) :
  listeners w = [] →
  is_Some (todoList (surface w)) →
  trigger_ready (set_todoList (show (template self) parameter) (surface w)) e i j →
  ∃ w',
    (bind self (event_name e) h;;
     render self "showEntries" parameter;;
     dispatch self (raw_trigger self e i j)) w = Return tt w' ∧
    listeners w' = subscriptions e h ∧
    calls w'
    = (calls w ++ [mkInvocation h
         (normalized_payload
            (before_listeners (raw_trigger self e i j)
               (set_todoList (show (template self) parameter) (surface w)))
            e i j)])%list.
Proof.
  intros HL Hlist Hready.
  assert (Hanchor : anchor_present (surface w) (bind_target e) = Some tt).
  { pose proof (trigger_ready_target _ _ _ _ Hready) as H.
    destruct Hlist as [l Hl]. destruct e; simpl in *; by rewrite ?Hl. }
  set (w2 := set_surface (set_todoList (show (template self) parameter) (surface w))
               (with_listeners (subscriptions e h) w)).
  exists (final (dispatch self (raw_trigger self e i j) w2)).
  split; [ | split].
  - unfold mbind, M_bind. rewrite (bind_registers _ _ _ _ Hanchor), HL.
    rewrite render_showEntries by exact Hlist. apply dispatch_returns.
  - transitivity (listeners w2); [ | reflexivity]. apply dispatch_keeps_listeners.
  - apply (dispatch_bound self e [] h w2 i j).
    + subst w2. cbn [set_surface with_listeners listeners app flat_map].
      by rewrite app_nil_r.
    + constructor.
    + exact Hready.
Qed.

Lemma bound_before_render_witness :
  listeners sample_world = [] ∧
  is_Some (todoList (surface sample_world)) ∧
  trigger_ready
    (set_todoList (show (template sample_view) (VArray [todo 7 "C" false]))
       (surface sample_world)) ev_itemToggle 0 0 ∧
  ∃ w',
    (bind sample_view (event_name ev_itemToggle) (recorder 1);;
     render sample_view "showEntries" (VArray [todo 7 "C" false]);;
     dispatch sample_view (raw_trigger sample_view ev_itemToggle 0 0)) sample_world
    = Return tt w' ∧
    listeners w' = subscriptions ev_itemToggle (recorder 1) ∧
    calls w'
    = (calls sample_world ++ [mkInvocation (recorder 1)
         [VObject [("id", VNumber (Int 7)); ("completed", VBool true)]]])%list.
Proof.
  assert (HL : listeners sample_world = []) by reflexivity.
  assert (Hlist : is_Some (todoList (surface sample_world))) by (by eexists).
  assert (Hready : trigger_ready
            (set_todoList (show (template sample_view) (VArray [todo 7 "C" false]))
               (surface sample_world)) ev_itemToggle 0 0).
  { eexists _, _. split; [reflexivity | split; [reflexivity | split; [by split | ]]].
    exists (Int 7). split; [unfold safe_integer, MAX_SAFE_INTEGER; lia | reflexivity]. }
  split; [exact HL | split; [exact Hlist | split; [exact Hready | ]]].
  exact (bound_before_render sample_view ev_itemToggle (recorder 1) (VArray [todo 7 "C" false])
           sample_world 0 0 HL Hlist Hready).
Defined.

(** ** Editing an item *)





(** [editItemDone] for an item that is not being edited, found by a safe
    integer for its id: there is no edit field to take out, which is a
    TypeError, and nothing has been written before it. *)
Theorem editItemDone_without_field (self : View) (id : number) (title : value)
    (w : World) (i : nat) (listItem : ItemNode) :
  safe_integer id →
  qs (by_data_id (number_to_string id)) (items (surface w)) = Some (i, listItem) →
  qs (by_tag_class "input" "edit") (elements listItem) = None →
  render self "editItemDone" (edit_parameter id title) w = Throw TypeError w.
Proof.
  intros _ Hi Hq. render_command. cbn [run_command]. run. simpl.
  unfold _editItemDone; run. simpl ToString. rewrite quoted_number. run.
  rewrite Hi. run. by rewrite Hq.
Qed.

Lemma editItemDone_without_field_witness :
  safe_integer (Int 1) ∧
  qs (by_data_id (number_to_string (Int 1))) (items (surface sample_world))
  = Some (0, sample_item (todo 1 "A" false)) ∧
  qs (by_tag_class "input" "edit") (elements (sample_item (todo 1 "A" false))) = None ∧
  render sample_view "editItemDone" (edit_parameter (Int 1) (VString "B")) sample_world
  = Throw TypeError sample_world.
Proof.
  assert (Hi : qs (by_data_id (number_to_string (Int 1))) (items (surface sample_world))
               = Some (0, sample_item (todo 1 "A" false))) by reflexivity.
  assert (Hq : qs (by_tag_class "input" "edit") (elements (sample_item (todo 1 "A" false)))
               = None) by reflexivity.
  assert (Hsafe : safe_integer (Int 1)) by (unfold safe_integer, MAX_SAFE_INTEGER; lia).
  split; [exact Hsafe | split; [exact Hi | split; [exact Hq | ]]].
  exact (editItemDone_without_field sample_view (Int 1) (VString "B") sample_world 0 _
           Hsafe Hi Hq).
Defined.

Lemma modify_items_insert_twice (s : Surface) (i : nat) (a b : ItemNode) :
  modify_items (<[i := a]>) (modify_items (<[i := b]>) s) = modify_items (<[i := a]>) s.
Proof.
  rewrite modify_items_twice. unfold modify_items. destruct (todoList s); [ | reflexivity].
  unfold compose. by rewrite list_insert_insert_eq.
Qed.

Lemma items_insert_lookup (s : Surface) (i : nat) (n n' : ItemNode) :
  items s !! i = Some n → items (modify_items (<[i := n']>) s) !! i = Some n'.
Proof.
  intros Hi. rewrite items_modify_items_insert. apply list_lookup_insert_eq.
  by apply lookup_lt_Some in Hi.
Qed.










(** ** Ids from the page and back *)

Lemma render_removeItem_found (self : View) (id : number) (w : World) (i : nat)
    (node : ItemNode) :
  qs (by_data_id (number_to_string id)) (items (surface w)) = Some (i, node) →
  render self "removeItem" (VNumber id) w
  = Return tt (set_surface (set_todoList (delete i (items (surface w))) (surface w)) w).
Proof.
  intros Hq. pose proof (proj1 (qs_Some _ _ _ _) Hq) as (Hi & _).
  pose proof (items_Some _ _ _ Hi) as Hl.
  render_command. cbn [run_command]. unfold _removeItem; run. simpl ToString.
  rewrite quoted_number. run. simpl surface. rewrite Hq. run. by rewrite Hl.
Qed.

(** The id that a listener reads off an item with [_itemId] is one that
    [render] finds the item by: for an item whose [data-id] is the decimal
    text of a safe integer, and that is the first with it, reading the id
    from any of its elements and passing it to removeItem removes that
    item. *)
Theorem itemId_round_trip (self : View) (id : number) (w : World) (i j : nat)
    (item : ItemNode) :
  safe_integer id →
  items (surface w) !! i = Some item →
  data_id item = number_to_string id →
  (∀ k n, items (surface w) !! k = Some n → k < i → data_id n ≠ data_id item) →
  (x ← _itemId (ItemElement i j); render self "removeItem" (VNumber x)) w
  = Return tt (set_surface (set_todoList (delete i (items (surface w))) (surface w)) w).
Proof.
  intros _ Hi Hid Hfirst.
  assert (Hq : qs (by_data_id (number_to_string id)) (items (surface w)) = Some (i, item)).
  { apply qs_Some. split; [done | split; [by apply by_data_id_true | ]].
    intros k n Hk Hlt. apply by_data_id_false. rewrite <- Hid. by apply (Hfirst k). }
  unfold mbind at 1, M_bind at 1. unfold _itemId; run. simpl. rewrite Hi. run.
  rewrite Hid, parseInt_number_to_string. by apply (render_removeItem_found _ _ _ _ item).
Qed.

Lemma itemId_round_trip_witness :
  safe_integer (Int 2) ∧
  items (surface sample_world) !! 1 = Some (sample_item (todo 2 "B" true)) ∧
  data_id (sample_item (todo 2 "B" true)) = number_to_string (Int 2) ∧
  (∀ k n, items (surface sample_world) !! k = Some n → k < 1 →
          data_id n ≠ data_id (sample_item (todo 2 "B" true))) ∧
  (x ← _itemId (ItemElement 1 2); render sample_view "removeItem" (VNumber x)) sample_world
  = Return tt (set_surface (set_todoList (delete 1 (items (surface sample_world)))
                              (surface sample_world)) sample_world).
Proof.
  assert (Hi : items (surface sample_world) !! 1 = Some (sample_item (todo 2 "B" true)))
    by reflexivity.
  assert (Hid : data_id (sample_item (todo 2 "B" true)) = number_to_string (Int 2))
    by reflexivity.
  assert (Hfirst : ∀ k n, items (surface sample_world) !! k = Some n → k < 1 →
                          data_id n ≠ data_id (sample_item (todo 2 "B" true))).
  { intros [|k] n Hk Hlt; [ | lia]. injection Hk as <-. discriminate. }
  assert (Hsafe : safe_integer (Int 2)) by (unfold safe_integer, MAX_SAFE_INTEGER; lia).
  split; [exact Hsafe | split; [exact Hi | split; [exact Hid | split; [exact Hfirst | ]]]].
  exact (itemId_round_trip sample_view (Int 2) sample_world 1 2 _ Hsafe Hi Hid Hfirst).
Defined.

(** ** Removing two items *)

Lemma without_cons (text : string) (x : ItemNode) (l : list ItemNode) :
  without text (x :: l) = if by_data_id text x then l else x :: without text l.
Proof.
  unfold without, qs. cbn [list_find]. destruct (by_data_id text x) eqn:E.
  - rewrite decide_True by (by apply Is_true_true). reflexivity.
  - rewrite decide_False by (by intros []).
    destruct (list_find (by_data_id text) l) as [[k y]|]; reflexivity.
Qed.

Lemma without_comm (a b : string) (l : list ItemNode) :
  without a (without b l) = without b (without a l).
Proof.
  destruct (decide (a = b)) as [-> | Hne]; [reflexivity | ].
  induction l as [|x l IH]; [reflexivity | ].
  rewrite !(without_cons _ x).
  destruct (by_data_id a x) eqn:Ea, (by_data_id b x) eqn:Eb.
  - apply by_data_id_true in Ea, Eb. congruence.
  - by rewrite without_cons, Ea.
  - by rewrite without_cons, Eb.
  - by rewrite !without_cons, Ea, Eb, IH.
Qed.

Lemma modify_items_id (s : Surface) : modify_items (λ l, l) s = s.
Proof. unfold modify_items. destruct s as [[l|] ? ? ? ? ? ? ?]; reflexivity. Qed.

Lemma render_removeItem (self : View) (id : number) (w : World) :
  render self "removeItem" (VNumber id) w
  = Return tt (set_surface (modify_items (without (number_to_string id)) (surface w)) w).
Proof.
  destruct (qs (by_data_id (number_to_string id)) (items (surface w))) as [[i node]|] eqn:Hq.
  - rewrite (render_removeItem_found _ _ _ _ _ Hq).
    pose proof (proj1 (qs_Some _ _ _ _) Hq) as (Hi & _).
    pose proof (items_Some _ _ _ Hi) as Hl.
    unfold modify_items. rewrite Hl. unfold without. by rewrite Hq.
  - render_command. cbn [run_command]. unfold _removeItem; run. simpl ToString.
    rewrite quoted_number. run. simpl surface. rewrite Hq. run.
    f_equal. unfold modify_items, without. unfold items in Hq.
    destruct w as [[[l|] ? ? ? ? ? ? ?] ? ? ? ?]; simpl in *; [by rewrite Hq | reflexivity].
Qed.

(** Two removals can be made in either order: removeItem for one id and
    then for another ends in the same world as the other way round. *)
Theorem removeItem_commutes (self : View) (a b : number) (w : World) :
  (render self "removeItem" (VNumber a);; render self "removeItem" (VNumber b)) w
  = (render self "removeItem" (VNumber b);; render self "removeItem" (VNumber a)) w.
Proof.
  unfold mbind, M_bind. rewrite !render_removeItem. unfold set_surface; simpl.
  rewrite !modify_items_twice. unfold compose, modify_items.
  destruct (todoList (surface w)); [ | reflexivity].
  by rewrite without_comm.
Qed.

(** ** Opening an edit while another one is open *)

Lemma editItem_prefix (self : View) (id : number) (title : value) (w : World)
    (i : nat) (listItem : ItemNode) :
  qs (by_data_id (number_to_string id)) (items (surface w)) = Some (i, listItem) →
  render self "editItem" (edit_parameter id title) w
  = (focus_method self (ItemElement i (length (elements listItem)));;
     update_node (ItemElement i (length (elements listItem)))
       (set_input_value (to_input_value title)))
      (set_surface (modify_items (<[i := item_with_field listItem]>) (surface w)) w).
Proof.
  intros Hq. pose proof (proj1 (qs_Some _ _ _ _) Hq) as (Hi & _).
  set (input := set_className "edit" (createElement "input")).
  set (item1 := set_li_className (li_className listItem ++ " editing") listItem).
  assert (Hs1 : modify_item i (set_li_className (li_className listItem ++ " editing")) (surface w)
                = modify_items (<[i := item1]>) (surface w))
    by exact (modify_item_at _ _ (set_li_className (li_className listItem ++ " editing")) _ Hi).
  pose proof (items_insert_lookup _ _ _ item1 Hi) as Hi1.
  assert (Hs2 : modify_item i (λ n, set_elements (elements n ++ [input]) n)
                  (modify_items (<[i := item1]>) (surface w))
                = modify_items (<[i := item_with_field listItem]>) (surface w)).
  { rewrite (modify_item_at _ _ (λ n, set_elements (elements n ++ [input]) n) _ Hi1).
    apply modify_items_insert_twice. }
  render_command. cbn [run_command]. run. simpl.
  unfold _editItem; run. simpl ToString. rewrite quoted_number. run.
  rewrite Hq. run; wsimpl. fold input. by rewrite Hs1, Hs2.
Qed.

Lemma focused_item_element_insert (l : list ItemNode) (i i' j' : nat)
    (listItem n : ItemNode) :
  l !! i = Some listItem →
  i' ≠ i →
  existsb focused (elements n) = existsb focused (elements listItem) →
  focused_item_element l = Some (i', j') →
  focused_item_element (<[i := n]> l) = Some (i', j').
Proof.
  intros Hi Hne Hn. unfold focused_item_element.
  destruct (list_find (λ n, existsb focused (elements n)) l) as [[k p]|] eqn:Hf; [ | done].
  simpl. destruct (list_find focused (elements p)) as [[q e]|] eqn:Hq; [ | done].
  simpl. intros [= -> ->].
  assert (Hf' : list_find (λ n, existsb focused (elements n)) (<[i := n]> l) = Some (i', p)).
  { apply list_find_Some in Hf as (Hk & Hp & Hfirst). apply list_find_Some.
    split; [by rewrite list_lookup_insert_ne | split; [done | ]].
    intros k y Hk' Hlt. destruct (decide (i = k)) as [<- | Hik].
    - rewrite list_lookup_insert_eq in Hk' by (by apply lookup_lt_Some in Hi).
      injection Hk' as <-. rewrite Hn. by apply (Hfirst i).
    - rewrite list_lookup_insert_ne in Hk' by done. by apply (Hfirst k). }
  rewrite Hf'. simpl. by rewrite Hq.
Qed.

Lemma activeElement_insert_other (s : Surface) (i i' j' : nat) (listItem n : ItemNode) :
  items s !! i = Some listItem →
  i' ≠ i →
  existsb focused (elements n) = existsb focused (elements listItem) →
  activeElement s = Some (ItemElement i' j') →
  activeElement (modify_items (<[i := n]>) s) = Some (ItemElement i' j').
Proof.
  intros Hi Hne Hn. pose proof (items_Some _ _ _ Hi) as Hl.
  unfold activeElement, modify_items. rewrite Hl. simpl.
  destruct (has_focus (newTodo s)); [done | ].
  destruct (has_focus (toggleAll s)); [done | ].
  destruct (focused_item_element (items s)) as [[a b]|] eqn:Hf.
  - intros [= -> ->].
    change (items (set_todoList (<[i:=n]> (items s)) s)) with (<[i:=n]> (items s)).
    by rewrite (focused_item_element_insert _ _ _ _ _ _ Hi Hne Hn Hf).
  - by destruct (has_focus (clearCompleted s)).
Qed.

Lemma calls_update_node (n : Node) (f : Element → Element) (w : World) :
  calls (final (update_node n f w)) = calls w.
Proof. unfold update_node; run. by destruct (node_element (surface w) n). Qed.

(** [editItem] while the edit field of another item has the focus (both
    items with safe integers for their ids): giving the focus to the new
    field takes it from the old one, and the blur of the old field commits
    that edit: every handler bound to itemEditDone is called with the id of
    the other item and the text of its field, and no other handler is
    called.  The last of these handlers may do to the page what it wants;
    the ones before it leave the page alone. *)
Theorem editItem_commits_open_edit (self : View) (id id' : number) (title : value)
    (w : World) (i i' j' : nat) (listItem item' : ItemNode) (field : Element)
    (hs : list Handler) (h : Handler) :
  Forall registered (listeners w) →
  done_handlers (listeners w) = (hs ++ [h])%list →
  Forall leaves_page_alone hs →
  safe_integer id →
  qs (by_data_id (number_to_string id)) (items (surface w)) = Some (i, listItem) →
  i' ≠ i →
  activeElement (surface w) = Some (ItemElement i' j') →
  items (surface w) !! i' = Some item' →
  data_id item' = number_to_string id' →
  safe_integer id' →
  elements item' !! j' = Some field →
  matches sel_li_edit field = true →
  dataset_truthy (iscanceled field) = false →
  calls (final (render self "editItem" (edit_parameter id title) w))
  = (calls w ++ (done_invocation id' (input_value field) <$> (hs ++ [h])))%list.
Proof.
  intros Hreg Hdone Hquiet _ Hq Hne Hactive Hi' Hid' _ Hj' Hm Hflag.
  pose proof (proj1 (qs_Some _ _ _ _) Hq) as (Hi & _).
  rewrite (editItem_prefix _ _ _ _ _ _ Hq).
  set (j := length (elements listItem)).
  set (s2 := modify_items (<[i := item_with_field listItem]>) (surface w)).
  assert (Hi2 : items s2 !! i = Some (item_with_field listItem))
    by apply (items_insert_lookup _ _ _ _ Hi).
  assert (Hj2 : elements (item_with_field listItem) !! j
                = Some (set_className "edit" (createElement "input"))).
  { subst j. simpl. by rewrite lookup_app_r, Nat.sub_diag by lia. }
  assert (Hi2' : items s2 !! i' = Some item').
  { subst s2. rewrite items_modify_items_insert. by rewrite list_lookup_insert_ne. }
  assert (Hactive2 : activeElement s2 = Some (ItemElement i' j')).
  { apply (activeElement_insert_other _ _ _ _ listItem); [done | done | | done].
    simpl. rewrite existsb_app. simpl. by rewrite !orb_false_r. }
  pose proof (items_modify_element _ i' j' (set_focused false) _ Hi2') as Hi3.
  assert (Hj3 : elements (set_elements (alter (set_focused false) j' (elements item')) item') !! j'
                = Some (set_focused false field))
    by (simpl; by rewrite list_lookup_alter_eq, Hj').
  unfold mbind at 1, M_bind at 1. unfold focus_method; run; wsimpl.
  cbn [node_element]. rewrite (element_at_Some _ _ _ _ _ Hi2 Hj2). run.
  rewrite Hactive2. rewrite bool_decide_false by congruence.
  run; wsimpl. cbn [modify_node]. unfold dispatch_with; wsimpl.
  rewrite (blur_listeners _ _ _
             (set_surface (modify_element i' j' (set_focused false) s2) w)
             i' j' _ _ None hs h Hreg Hdone Hquiet Hi3 Hj3 Hm Hflag).
  run. rewrite calls_update_node. cbn [calls].
  rewrite calls_answered, calls_committed. wsimpl. cbn [data_id set_elements input_value set_focused].
  rewrite Hid', parseInt_number_to_string. by rewrite fmap_app, app_assoc.
Qed.

Lemma editItem_commits_open_edit_witness :
  Forall registered (listeners editing_world) ∧
  done_handlers (listeners editing_world) = ([] ++ [recorder 1])%list ∧
  Forall leaves_page_alone [] ∧
  safe_integer (Int 2) ∧
  qs (by_data_id (number_to_string (Int 2))) (items (surface editing_world))
  = Some (1, sample_item (todo 2 "B" true)) ∧
  0 ≠ 1 ∧
  activeElement (surface editing_world) = Some (ItemElement 0 3) ∧
  items (surface editing_world) !! 0 = Some edited_item ∧
  data_id edited_item = number_to_string (Int 1) ∧
  safe_integer (Int 1) ∧
  elements edited_item !! 3 = Some sample_edit_field ∧
  matches sel_li_edit sample_edit_field = true ∧
  dataset_truthy (iscanceled sample_edit_field) = false ∧
  calls (final (render sample_view "editItem" (edit_parameter (Int 2) (VString "B"))
                  editing_world))
  = (calls editing_world ++
     (done_invocation (Int 1) (input_value sample_edit_field) <$> ([] ++ [recorder 1])))%list.
Proof.
  assert (Hdone : done_handlers (listeners editing_world) = ([] ++ [recorder 1])%list)
    by reflexivity.
  assert (Hquiet : Forall leaves_page_alone []) by constructor.
  assert (Hsafe : safe_integer (Int 2)) by (unfold safe_integer, MAX_SAFE_INTEGER; lia).
  assert (Hq : qs (by_data_id (number_to_string (Int 2))) (items (surface editing_world))
               = Some (1, sample_item (todo 2 "B" true))) by reflexivity.
  assert (Hne : 0 ≠ 1) by lia.
  assert (Hactive : activeElement (surface editing_world) = Some (ItemElement 0 3))
    by reflexivity.
  assert (Hi : items (surface editing_world) !! 0 = Some edited_item) by reflexivity.
  assert (Hid : data_id edited_item = number_to_string (Int 1)) by reflexivity.
  assert (Hsafe' : safe_integer (Int 1)) by (unfold safe_integer, MAX_SAFE_INTEGER; lia).
  assert (Hj : elements edited_item !! 3 = Some sample_edit_field) by reflexivity.
  assert (Hm : matches sel_li_edit sample_edit_field = true) by reflexivity.
  assert (Hflag : dataset_truthy (iscanceled sample_edit_field) = false) by reflexivity.
  split; [exact editing_world_registered | split; [exact Hdone | split; [exact Hquiet | ]]].
  split; [exact Hsafe | split; [exact Hq | split; [exact Hne | split; [exact Hactive | ]]]].
  split; [exact Hi | split; [exact Hid | split; [exact Hsafe' | split; [exact Hj | ]]]].
  split; [exact Hm | split; [exact Hflag | ]].
  exact (editItem_commits_open_edit sample_view (Int 2) (Int 1) (VString "B") editing_world
           1 0 3 _ edited_item sample_edit_field [] (recorder 1) editing_world_registered
           Hdone Hquiet Hsafe Hq Hne Hactive Hi Hid Hsafe' Hj Hm Hflag).
Defined.
